(** * openSODA2025: metric normalisation, merging, classification and ranking

    A shallow embedding of the analysis scripts of the repository
    (scripts/01_explore_data.py, scripts/02_deep_analysis.py,
    scripts/03_final_analysis.py, scripts/04_expand_project_analysis.py and
    github_new_trend/github_popular_projects_analyzer.py), followed by the
    properties of the specification stated and settled on it.

    Conventions of the embedding:
    - a Python [str] is a [string] of bytes (UTF-8); case folding and digit
      tests are the ASCII ones, other bytes are left as they are (repository
      and metric names, month keys and star counts are ASCII);
    - a JSON number and a finite pandas cell is a rational (every finite
      float is one); arithmetic on them is exact, as Python's is on
      integers, whereas Python rounds the result of an operation on floats:
      the statements that give the result of a sum or a difference as a
      number are stated for integers;
    - a Python [dict] is an association list in insertion order, updated in
      place by [dict_set];
    - a raised exception is the [Raise] case of [outcome]. *)

From Stdlib Require Import List String Ascii Bool Arith NArith ZArith QArith Lia.
From Stdlib Require Import Permutation Sorted.
Import ListNotations.

Close Scope Q_scope.
Open Scope string_scope.
Open Scope list_scope.

(** ** Python values shared by the scripts *)

Inductive pyexn : Type :=
| KeyError
| TypeError
| ValueError
| OverflowError
| JSONDecodeError.

Inductive outcome (A : Type) : Type :=
| Ok (a : A)
| Raise (e : pyexn).

Arguments Ok {A} a.
Arguments Raise {A} e.

Definition bind {A B : Type} (m : outcome A) (k : A -> outcome B) : outcome B :=
  match m with
  | Ok a => k a
  | Raise e => Raise e
  end.

Notation "x <- m ;; k" := (bind m (fun x => k))
  (at level 61, m at next level, right associativity).

(** What [json.load] returns. *)
#[local] Unset Elimination Schemes.
Inductive json : Type :=
| JNull
| JBool (b : bool)
| JNum (q : Q)
| JStr (s : string)
| JArr (items : list json)
| JObj (members : list (string * json)).
#[local] Set Elimination Schemes.

(** A file of a project directory as the scripts see it: not there, there
    but rejected by [json.load], or loaded. *)
Inductive file_state : Type :=
| Absent
| Unreadable
| Loaded (data : json).

Module PyStr.

Definition is_upper (c : ascii) : bool :=
  (65 <=? nat_of_ascii c)%nat && (nat_of_ascii c <=? 90)%nat.

Definition lower_char (c : ascii) : ascii :=
  if is_upper c then ascii_of_nat (nat_of_ascii c + 32) else c.

(** Every character is an ASCII character. *)
Fixpoint is_ascii (s : string) : bool :=
  match s with
  | EmptyString => true
  | String c s' => (nat_of_ascii c <? 128)%nat && is_ascii s'
  end.

(** [s.lower()] on an ASCII string: the capital letters A-Z become small
    letters.  (On other strings [str.lower] also folds letters outside
    ASCII, which is not modelled.) *)
Fixpoint lower (s : string) : string :=
  match s with
  | EmptyString => EmptyString
  | String c s' => String (lower_char c) (lower s')
  end.

(** [sub in s] *)
Fixpoint contains (sub s : string) : bool :=
  match s with
  | EmptyString => prefix sub EmptyString
  | String _ s' => prefix sub s || contains sub s'
  end.

(** [s.replace(old, '')] for a non-empty [old]: the occurrences are found
    from the left and do not overlap; [skip] counts the characters of the
    occurrence under the cursor that are still to be dropped. *)
Fixpoint remove_from (old : string) (skip : nat) (s : string) : string :=
  match s with
  | EmptyString => EmptyString
  | String c s' =>
      match skip with
      | S k => remove_from old k s'
      | O =>
          if prefix old s
          then remove_from old (String.length old - 1) s'
          else String c (remove_from old 0 s')
      end
  end.

Definition remove (old s : string) : string := remove_from old 0 s.

Definition is_digit (c : ascii) : bool :=
  (48 <=? nat_of_ascii c)%nat && (nat_of_ascii c <=? 57)%nat.

Fixpoint all_digits (s : string) : bool :=
  match s with
  | EmptyString => true
  | String c s' => is_digit c && all_digits s'
  end.

(** [s.isdigit()] on an ASCII string.  (Digits outside ASCII, which
    [str.isdigit] accepts too, are not modelled.) *)
Definition isdigit (s : string) : bool :=
  match s with
  | EmptyString => false
  | String _ _ => all_digits s
  end.

Definition digit_value (c : ascii) : Z := Z.of_nat (nat_of_ascii c - 48).

Fixpoint int_from (acc : Z) (s : string) : Z :=
  match s with
  | EmptyString => acc
  | String c s' => int_from (10 * acc + digit_value c) s'
  end.

Definition int_of_digits (s : string) : Z := int_from 0 s.

(** [int(s)] as [get_stars_count] calls it, on a string that passed
    [isdigit]: the decimal value.  (The interpreter's limit on the number
    of digits it converts is not modelled.) *)
Definition int_of_str (s : string) : outcome Z :=
  if isdigit s then Ok (int_of_digits s) else Raise ValueError.

(** truth value of a string *)
Definition truthy (s : string) : bool :=
  match s with
  | EmptyString => false
  | String _ _ => true
  end.

(** The year and the month a key of the form YYYY-MM stands for. *)
Definition year_month (s : string) : option (nat * nat) :=
  match s with
  | String y1 (String y2 (String y3 (String y4 (String dash
      (String m1 (String m2 EmptyString)))))) =>
      if is_digit y1 && is_digit y2 && is_digit y3 && is_digit y4
         && Ascii.eqb dash "-" && is_digit m1 && is_digit m2
      then
        let d c := nat_of_ascii c - 48 in
        Some (1000 * d y1 + 100 * d y2 + 10 * d y3 + d y4, 10 * d m1 + d m2)
      else None
  | _ => None
  end.

(** [a <= b] on strings: the order of the code points, a prefix first. *)
Definition le (a b : string) : Prop := String.leb a b = true.

Fixpoint insert_sorted (k : string) (l : list string) : list string :=
  match l with
  | [] => [k]
  | h :: t => if String.leb k h then k :: l else h :: insert_sorted k t
  end.

(** [sorted(keys)]: ascending in the order of the code points. *)
Definition sorted (l : list string) : list string :=
  fold_right insert_sorted [] l.

End PyStr.

Module PyDict.

Definition pydict (V : Type) : Type := list (string * V).

Definition keys {V : Type} (d : pydict V) : list string := map fst d.
Definition values {V : Type} (d : pydict V) : list V := map snd d.

(** [d[k] = v]: an existing key keeps its place, a new one goes last. *)
Fixpoint dict_set {V : Type} (d : pydict V) (k : string) (v : V) : pydict V :=
  match d with
  | [] => [(k, v)]
  | (k', v') :: d' =>
      if String.eqb k' k then (k', v) :: d' else (k', v') :: dict_set d' k v
  end.

(** [d[k]], [None] standing for the KeyError. *)
Fixpoint dict_get {V : Type} (d : pydict V) (k : string) : option V :=
  match d with
  | [] => None
  | (k', v') :: d' => if String.eqb k' k then Some v' else dict_get d' k
  end.

Definition dict_item {V : Type} (d : pydict V) (k : string) : outcome V :=
  match dict_get d k with
  | Some v => Ok v
  | None => Raise KeyError
  end.

(** The least and the greatest key, as [sorted(d.keys())[0]] and
    [sorted(d.keys())[-1]] give them. *)
Definition first_key {V : Type} (d : pydict V) : string :=
  hd "" (PyStr.sorted (keys d)).

Definition last_key {V : Type} (d : pydict V) : string :=
  last (PyStr.sorted (keys d)) "".

End PyDict.

Import PyDict.

(** ** Numbers inside JSON values *)

Module PyNum.

(** The number a value stands for in arithmetic: [bool] is a subclass of
    [int]. *)
Definition as_number (v : json) : option Q :=
  match v with
  | JNum q => Some q
  | JBool true => Some 1%Q
  | JBool false => Some 0%Q
  | _ => None
  end.

(** [a - b] on numbers: exact, as Python's is on integers; on floats Python
    rounds the difference, and raises OverflowError for an integer beyond
    the range of a float next to a float. *)
Definition sub (a b : json) : outcome json :=
  match as_number a, as_number b with
  | Some x, Some y => Ok (JNum (x - y))
  | _, _ => Raise TypeError
  end.

(** [a + b] on numbers, as [sum] uses it: exact, as Python's is on
    integers; on floats Python rounds the sum. *)
Definition add (a b : json) : outcome json :=
  match as_number a, as_number b with
  | Some x, Some y => Ok (JNum (x + y))
  | _, _ => Raise TypeError
  end.

(** [sum(vs)]: starts from the integer 0 and adds from the left. *)
Definition sum (vs : list json) : outcome json :=
  fold_left (fun acc v => a <- acc ;; add a v) vs (Ok (JNum 0)).

(** [isinstance(v, (int, float))] *)
Definition is_int_or_float (v : json) : bool :=
  match v with
  | JNum _ | JBool _ => true
  | _ => false
  end.

End PyNum.

(** ** scripts/03_final_analysis.py *)

Module FinalAnalysis.

(** [len(date_str) == 7 and '-' in date_str] *)
Definition has_month_format (date_str : string) : bool :=
  (String.length date_str =? 7)%nat && PyStr.contains "-" date_str.

(** [clean_date]: both exits of the format test return the string. *)
Definition clean_date (date_str : string) : string :=
  let date_str :=
    if PyStr.contains "-raw" date_str
    then PyStr.remove "-raw" date_str
    else date_str in
  if has_month_format date_str
  then date_str
  else date_str.

(** The loop that fills [cleaned_data]. *)
Definition clean_step (cleaned_data : pydict json) (item : string * json)
  : pydict json :=
  let clean_dt := clean_date (fst item) in
  if PyStr.truthy clean_dt
  then dict_set cleaned_data clean_dt (snd item)
  else cleaned_data.

Definition clean_series (data : pydict json) : pydict json :=
  fold_left clean_step data [].

Definition metric_files : list (string * string) :=
  [ ("stars", "stars.json");
    ("forks", "technical_fork.json");
    ("activity", "activity.json");
    ("openrank", "openrank.json");
    ("issues", "issues_new.json");
    ("prs", "change_requests.json");
    ("contributors", "new_contributors.json") ].

(** The body of the [try] for one metric whose file holds a non-empty
    object: the results after it, or the exception it raises (nothing has
    been written to [results] when it does). *)
Definition summarize (results : pydict json) (metric_name : string)
    (data : pydict json) : outcome (pydict json) :=
  let cleaned_data := clean_series data in
  match cleaned_data with
  | [] => Ok results
  | _ :: _ =>
      let sorted_dates := PyStr.sorted (keys cleaned_data) in
      let latest_date := last sorted_dates "" in
      latest_value <- dict_item cleaned_data latest_date ;;
      if (1 <? List.length sorted_dates)%nat
      then
        let first_date := hd "" sorted_dates in
        first_value <- dict_item cleaned_data first_date ;;
        total_growth <- PyNum.sub latest_value first_value ;;
        let results :=
          dict_set results (metric_name ++ "_latest") latest_value in
        let results :=
          dict_set results (metric_name ++ "_first") first_value in
        let results :=
          dict_set results (metric_name ++ "_growth") total_growth in
        let results :=
          dict_set results (metric_name ++ "_start_date") (JStr first_date) in
        let results :=
          dict_set results (metric_name ++ "_end_date") (JStr latest_date) in
        Ok results
      else
        Ok (dict_set results (metric_name ++ "_latest") latest_value)
  end.

(** One turn of the loop over [metric_files]: the [except] branch prints
    and leaves [results] as they were. *)
Definition analyze_metric (results : pydict json) (metric_name : string)
    (file : file_state) : pydict json :=
  match file with
  | Absent => results
  | Unreadable => results
  | Loaded (JObj (item :: data)) =>
      match summarize results metric_name (item :: data) with
      | Ok results' => results'
      | Raise _ => results
      end
  | Loaded _ => results
  end.

(** A project directory: [None] when it does not exist, else its files by
    name. *)
Definition project_dir : Type := option (string -> file_state).

(** [results] when the loop over [metric_files] is over. *)
Definition collect_metrics (org project : string)
    (files : string -> file_state) : pydict json :=
  let results :=
    [ ("org", JStr org);
      ("project", JStr project);
      ("full_name", JStr (org ++ "/" ++ project)) ] in
  fold_left
    (fun results mf => analyze_metric results (fst mf) (files (snd mf)))
    metric_files results.

Definition analyze_project_metrics (org project : string) (dir : project_dir)
  : option (pydict json) :=
  match dir with
  | None => None
  | Some files =>
      let results := collect_metrics org project files in
      if (3 <? List.length results)%nat then Some results else None
  end.

(** The loop of [analyze_top_projects_across_orgs] over the projects of an
    organisation: a project is kept when its analysis is not [None]. *)
Fixpoint analyze_projects (org : string) (projects : list (string * project_dir))
  : list (pydict json) :=
  match projects with
  | [] => []
  | (project_name, dir) :: rest =>
      match analyze_project_metrics org project_name dir with
      | Some project_data => project_data :: analyze_projects org rest
      | None => analyze_projects org rest
      end
  end.

End FinalAnalysis.

(** ** scripts/02_deep_analysis.py *)

Module DeepAnalysis.

Definition metrics_to_read : list string :=
  [ "stars.json"; "technical_fork.json"; "activity.json";
    "openrank.json"; "change_requests.json"; "issues_new.json" ].

(** [metric_name in ['stars', 'technical_fork']]: the series that are
    summed. *)
Definition is_summed (metric_name : string) : bool :=
  String.eqb metric_name "stars" || String.eqb metric_name "technical_fork".

(** The branch for [stars] and [technical_fork] on a non-empty object.
    The sum is stored first; an exception raised after that leaves it in
    [project_info]. *)
Definition read_summed (project_info : pydict json) (metric_name : string)
    (data : pydict json) : pydict json :=
  match PyNum.sum (values data) with
  | Raise _ => project_info
  | Ok total_value =>
      let project_info :=
        dict_set project_info (metric_name ++ "_latest") total_value in
      let dates := PyStr.sorted (keys data) in
      if (1 <? List.length dates)%nat
      then
        let first_date := hd "" dates in
        let last_date := last dates "" in
        match
          (first_value <- dict_item data first_date ;;
           last_value <- dict_item data last_date ;;
           growth <- PyNum.sub last_value first_value ;;
           Ok (first_value, growth))
        with
        | Ok (first_value, growth) =>
            let project_info :=
              dict_set project_info (metric_name ++ "_first") first_value in
            dict_set project_info (metric_name ++ "_growth") growth
        | Raise _ => project_info
        end
      else project_info
  end.

(** The branch for every other metric on a non-empty object. *)
Definition read_latest (project_info : pydict json) (metric_name : string)
    (data : pydict json) : pydict json :=
  let dates := PyStr.sorted (keys data) in
  let latest_date := last dates "" in
  match
    (latest_value <- dict_item data latest_date ;;
     if (1 <? List.length dates)%nat
     then
       let first_date := hd "" dates in
       first_value <- dict_item data first_date ;;
       growth <- PyNum.sub latest_value first_value ;;
       let project_info :=
         dict_set project_info (metric_name ++ "_latest") latest_value in
       let project_info :=
         dict_set project_info (metric_name ++ "_first") first_value in
       Ok (dict_set project_info (metric_name ++ "_growth") growth)
     else
       Ok (dict_set project_info (metric_name ++ "_latest") latest_value))
  with
  | Ok project_info' => project_info'
  | Raise _ => project_info
  end.

(** One turn of the loop over [metrics_to_read]. *)
Definition read_metric (project_info : pydict json) (metric_file : string)
    (file : file_state) : pydict json :=
  match file with
  | Absent => project_info
  | Unreadable => project_info
  | Loaded data =>
      let metric_name := PyStr.remove ".json" metric_file in
      match data with
      | JObj (item :: rest) =>
          if is_summed metric_name
          then read_summed project_info metric_name (item :: rest)
          else read_latest project_info metric_name (item :: rest)
      | _ => dict_set project_info (metric_name ++ "_latest") data
      end
  end.

(** The body of the loop of [analyze_multiple_metrics] over the project
    directories of the organisation. *)
Definition analyze_project (org project_name : string)
    (files : string -> file_state) : pydict json :=
  fold_left
    (fun project_info metric_file =>
       read_metric project_info metric_file (files metric_file))
    metrics_to_read
    [ ("project", JStr (org ++ "/" ++ project_name)) ].

End DeepAnalysis.

(** ** scripts/01_explore_data.py *)

Module ExploreData.

Record project_info : Type := {
  organization : string;
  project : string;
  full_name : string;
  stars : json;
  activity : json
}.

(** The star count of [collect_project_info]: the monthly values of a
    non-empty object are added up; a bare number is kept; anything else
    counts 0. *)
Definition latest_stars (stars_data : json) : outcome json :=
  match stars_data with
  | JObj (item :: rest) =>
      total_stars <- PyNum.sum (values (item :: rest)) ;;
      Ok total_stars
  | _ =>
      Ok (if PyNum.is_int_or_float stars_data then stars_data else JNum 0)
  end.

(** The activity of [collect_project_info]: 0 unless the file holds a
    non-empty object, then the value under its greatest key; the bare
    [except] keeps what was there. *)
Definition activity_value (activity_file : file_state) : json :=
  let activity_value := JNum 0 in
  match activity_file with
  | Loaded (JObj (item :: rest)) =>
      let activity_data := item :: rest in
      let latest_activity := last (PyStr.sorted (keys activity_data)) "" in
      match dict_item activity_data latest_activity with
      | Ok v => v
      | Raise _ => activity_value
      end
  | _ => activity_value
  end.

(** One project folder: [None] when nothing is appended to
    [projects_info] (no stars file, or the outer [except] was taken). *)
Definition collect_project (org_name project_name : string)
    (stars_file activity_file : file_state) : option project_info :=
  match stars_file with
  | Absent => None
  | Unreadable => None
  | Loaded stars_data =>
      match latest_stars stars_data with
      | Raise _ => None
      | Ok latest =>
          Some {| organization := org_name;
                  project := project_name;
                  full_name := org_name ++ "/" ++ project_name;
                  stars := latest;
                  activity := activity_value activity_file |}
      end
  end.

End ExploreData.

(** ** scripts/04_expand_project_analysis.py *)

(** A numeric cell of a data frame: [NaN] where the CSV had no value. *)
Inductive cell : Type :=
| NaN
| Num (q : Q).

Module ExpandProjectAnalysis.

(** A row of complete_total_stars_ranking.csv. *)
Record complete_row : Type := {
  cr_rank : cell;
  cr_org : string;
  cr_project : string;
  cr_full_name : string;
  cr_total_stars : cell;
  cr_monthly_stars_latest : cell;
  cr_activity_latest : cell;
  cr_openrank_latest : cell
}.

(** A row of top_100_projects.csv. *)
Record top100_row : Type := {
  tr_organization : string;
  tr_project : string;
  tr_full_name : string;
  tr_stars : cell;
  tr_activity : cell
}.

(** The columns of improved_project_analysis.csv that are read. *)
Record improved_row : Type := {
  ir_full_name : string;
  ir_openrank_latest : cell
}.

(** An element of [extended_projects], then a row of the returned frame. *)
Record project_record : Type := {
  rank : cell;
  org : string;
  project : string;
  full_name : string;
  total_stars : cell;
  monthly_stars_latest : cell;
  activity_latest : cell;
  openrank_latest : cell;
  source : string
}.

Definition of_nat (n : nat) : cell := Num (inject_Z (Z.of_nat n)).

Definition from_complete (row : complete_row) : project_record :=
  {| rank := cr_rank row;
     org := cr_org row;
     project := cr_project row;
     full_name := cr_full_name row;
     total_stars := cr_total_stars row;
     monthly_stars_latest := cr_monthly_stars_latest row;
     activity_latest := cr_activity_latest row;
     openrank_latest := cr_openrank_latest row;
     source := "complete_ranking" |}.

(** [name in existing_names] *)
Definition mem (name : string) (names : list string) : bool :=
  existsb (String.eqb name) names.

(** [improved_df[improved_df['full_name'] == name]] *)
Definition matching (improved_df : list improved_row) (name : string)
  : list improved_row :=
  filter (fun r => String.eqb (ir_full_name r) name) improved_df.

(** The openrank looked up for a top-100 row before the default is
    applied: [None] is Python's [None]. *)
Definition found_openrank (improved_df : list improved_row) (name : string)
  : option cell :=
  match improved_df with
  | [] => None
  | _ :: _ =>
      match matching improved_df name with
      | [] => None
      | m :: _ => Some (ir_openrank_latest m)
      end
  end.

(** The record appended for a top-100 row that the complete ranking does
    not have, [position] being [len(extended_projects) + 1]. *)
Definition top100_record (improved_df : list improved_row) (position : nat)
    (row : top100_row) : project_record :=
  let openrank_latest := found_openrank improved_df (tr_full_name row) in
  let total_stars : option cell := None in
  let openrank_latest :=
    match openrank_latest with
    | None => Num 0
    | Some c => c
    end in
  let total_stars :=
    match total_stars with
    | None => tr_stars row
    | Some c => c
    end in
  {| rank := of_nat position;
     org := tr_organization row;
     project := tr_project row;
     full_name := tr_full_name row;
     total_stars := total_stars;
     monthly_stars_latest := tr_stars row;
     activity_latest := tr_activity row;
     openrank_latest := openrank_latest;
     source := "top100_only" |}.

(** The body of the loop over [top100_df]. *)
Definition add_top100 (existing_names : list string)
    (improved_df : list improved_row)
    (extended_projects : list project_record) (row : top100_row)
  : list project_record :=
  if negb (mem (tr_full_name row) existing_names)
  then
    extended_projects ++
      [ top100_record improved_df (List.length extended_projects + 1) row ]
  else extended_projects.

(** [extended_projects] when the two loops are over. *)
Definition extend (complete_df : list complete_row)
    (top100_df : list top100_row) (improved_df : list improved_row)
  : list project_record :=
  let extended_projects := map from_complete complete_df in
  let existing_names := map full_name extended_projects in
  fold_left (add_top100 existing_names improved_df) top100_df
    extended_projects.

(** [x > 0] on a cell: false on [NaN]. *)
Definition gt0 (c : cell) : bool :=
  match c with
  | NaN => false
  | Num q => negb (Qle_bool q 0)
  end.

Definition has_openrank (r : project_record) : bool :=
  gt0 (openrank_latest r).

(** [a] may stand before [b] in a descending column with the missing
    values last. *)
Definition precedes (a b : cell) : bool :=
  match a, b with
  | _, NaN => true
  | NaN, Num _ => false
  | Num x, Num y => Qle_bool y x
  end.

(** The order [precedes] decides. *)
Definition descending (a b : cell) : Prop :=
  match a, b with
  | _, NaN => True
  | NaN, Num _ => False
  | Num x, Num y => (y <= x)%Q
  end.

Definition by_key (key : project_record -> cell) (a b : project_record)
  : Prop :=
  descending (key a) (key b).

Fixpoint insert_desc (key : project_record -> cell) (r : project_record)
    (l : list project_record) : list project_record :=
  match l with
  | [] => [r]
  | h :: t =>
      if precedes (key r) (key h) then r :: l else h :: insert_desc key r t
  end.

(** [df.sort_values(key, ascending=False)]: descending, missing values
    last.  Rows with equal keys are kept in their order here; pandas does
    not promise an order among them, and no property below depends on
    it. *)
Definition sort_values (key : project_record -> cell)
    (df : list project_record) : list project_record :=
  fold_right (insert_desc key) [] df.

Definition set_rank (n : nat) (r : project_record) : project_record :=
  {| rank := of_nat n;
     org := org r;
     project := project r;
     full_name := full_name r;
     total_stars := total_stars r;
     monthly_stars_latest := monthly_stars_latest r;
     activity_latest := activity_latest r;
     openrank_latest := openrank_latest r;
     source := source r |}.

(** [df['rank'] = range(first, first + len(df))] *)
Fixpoint assign_rank (first : nat) (df : list project_record)
  : list project_record :=
  match df with
  | [] => []
  | r :: rest => set_rank first r :: assign_rank (S first) rest
  end.

Definition df_with_openrank (extended_df : list project_record)
  : list project_record :=
  sort_values openrank_latest (filter has_openrank extended_df).

Definition df_without_openrank (extended_df : list project_record)
  : list project_record :=
  sort_values total_stars
    (filter (fun r => negb (has_openrank r)) extended_df).

(** The rows of [final_df] before the ranks are written. *)
Definition concat (extended_df : list project_record)
  : list project_record :=
  df_with_openrank extended_df ++ df_without_openrank extended_df.

(** [load_and_merge_data].  A frame built from an empty list has no
    columns, so selecting ['openrank_latest'] raises KeyError. *)
Definition load_and_merge_data (complete_df : list complete_row)
    (top100_df : list top100_row) (improved_df : list improved_row)
  : outcome (list project_record) :=
  match extend complete_df top100_df improved_df with
  | [] => Raise KeyError
  | extended_df => Ok (assign_rank 1 (concat extended_df))
  end.

(** A record without its rank, for comparing records whatever their
    place in the table. *)
Definition unranked (r : project_record) : project_record := set_rank 0 r.

(** [any(keyword in name for keyword in keywords)] *)
Definition any_in (keywords : list string) (name : string) : bool :=
  existsb (fun keyword => PyStr.contains keyword name) keywords.

Definition enhanced_classify_project_type (project_name : string) : string :=
  let project_name_lower := PyStr.lower project_name in
  if any_in ["vscode"; "studio"; "ide"; "editor"; "debugger"; "terminal";
             "jupyter"] project_name_lower
  then "开发工具"
  else if any_in ["typescript"; "python"; "go"; "rust"; "cpp"; "cpython";
                  "node"; "electron"; "java"; "kotlin"; "swift"]
                 project_name_lower
  then "编程语言"
  else if any_in ["kubernetes"; "docker"; "container"; "minikube";
                  "orchestration"] project_name_lower
  then "容器编排"
  else if any_in ["pytorch"; "tensorflow"; "ai"; "ml"; "machine"; "learning";
                  "onnx"; "tvm"; "hudi"] project_name_lower
  then "人工智能"
  else if any_in ["react"; "angular"; "vue"; "ui"; "frontend"; "ant-design";
                  "fluentui"; "material"] project_name_lower
  then "前端框架"
  else if any_in ["spring"; "django"; "flask"; "express"; "fastapi"; "server";
                  "backend"; "framework"] project_name_lower
  then "后端框架"
  else if any_in ["spark"; "flink"; "hadoop"; "kafka"; "database"; "sql";
                  "nosql"; "mongodb"; "postgresql"; "mysql"; "superset";
                  "doris"; "arrow"; "beam"] project_name_lower
  then "大数据/数据库"
  else if any_in ["aws"; "azure"; "gcp"; "cloud"; "wsl"; "serverless"; "api";
                  "gateway"; "apisix"; "pulsar"] project_name_lower
  then "云平台/基础设施"
  else if any_in ["ci"; "cd"; "pipeline"; "automation"; "deployment";
                  "devops"; "jenkins"; "gitlab"; "github-actions"]
                 project_name_lower
  then "DevOps/CI-CD"
  else if any_in ["powertoys"; "utility"; "tool"; "cli"; "command"; "script";
                  "automation"; "cert"; "practice"; "winget"]
                 project_name_lower
  then "实用工具"
  else if any_in ["docs"; "documentation"; "website"; "blog"; "guide";
                  "tutorial"] project_name_lower
  then "文档/网站"
  else if any_in ["mobile"; "ios"; "android"; "flutter"; "react-native";
                  "xamarin"] project_name_lower
  then "移动开发"
  else if any_in ["game"; "unity"; "unreal"; "gaming"; "3d"]
                 project_name_lower
  then "游戏开发"
  else "其他".

(** The classifier in the words of the specification: ordered keyword
    groups, the first group with a keyword that occurs in the lower-cased
    name wins, the catch-all label when none has one. *)
Definition keyword_groups : list (string * list string) :=
  [ ("开发工具",
     ["vscode"; "studio"; "ide"; "editor"; "debugger"; "terminal";
      "jupyter"]);
    ("编程语言",
     ["typescript"; "python"; "go"; "rust"; "cpp"; "cpython"; "node";
      "electron"; "java"; "kotlin"; "swift"]);
    ("容器编排",
     ["kubernetes"; "docker"; "container"; "minikube"; "orchestration"]);
    ("人工智能",
     ["pytorch"; "tensorflow"; "ai"; "ml"; "machine"; "learning"; "onnx";
      "tvm"; "hudi"]);
    ("前端框架",
     ["react"; "angular"; "vue"; "ui"; "frontend"; "ant-design";
      "fluentui"; "material"]);
    ("后端框架",
     ["spring"; "django"; "flask"; "express"; "fastapi"; "server";
      "backend"; "framework"]);
    ("大数据/数据库",
     ["spark"; "flink"; "hadoop"; "kafka"; "database"; "sql"; "nosql";
      "mongodb"; "postgresql"; "mysql"; "superset"; "doris"; "arrow";
      "beam"]);
    ("云平台/基础设施",
     ["aws"; "azure"; "gcp"; "cloud"; "wsl"; "serverless"; "api"; "gateway";
      "apisix"; "pulsar"]);
    ("DevOps/CI-CD",
     ["ci"; "cd"; "pipeline"; "automation"; "deployment"; "devops";
      "jenkins"; "gitlab"; "github-actions"]);
    ("实用工具",
     ["powertoys"; "utility"; "tool"; "cli"; "command"; "script";
      "automation"; "cert"; "practice"; "winget"]);
    ("文档/网站",
     ["docs"; "documentation"; "website"; "blog"; "guide"; "tutorial"]);
    ("移动开发",
     ["mobile"; "ios"; "android"; "flutter"; "react-native"; "xamarin"]);
    ("游戏开发", ["game"; "unity"; "unreal"; "gaming"; "3d"]) ].

(** The fixed taxonomy: the labels of the groups and the catch-all. *)
Definition categories : list string :=
  map fst keyword_groups ++ ["其他"].

Definition classify_by_groups (name : string) : string :=
  match
    find (fun g => any_in (snd g) (PyStr.lower name)) keyword_groups
  with
  | Some g => fst g
  | None => "其他"
  end.

(** The case-insensitive match in the words of the specification, written
    without [PyStr.lower].  A capital letter is one of A-Z. *)
Definition capital (c : ascii) : bool :=
  (nat_of_ascii "A"%char <=? nat_of_ascii c)%nat
  && (nat_of_ascii c <=? nat_of_ascii "Z"%char)%nat.

(** The same letter, the case left aside: the same character, or a capital
    letter and its small letter, 32 places further on. *)
Definition same_letter (a b : ascii) : bool :=
  Ascii.eqb a b
  || (capital a && (nat_of_ascii b =? nat_of_ascii a + 32)%nat)
  || (capital b && (nat_of_ascii a =? nat_of_ascii b + 32)%nat).

(** Two strings of the same length with the same letters, the case left
    aside. *)
Fixpoint same_word (a b : string) : bool :=
  match a, b with
  | EmptyString, EmptyString => true
  | String x a', String y b' => same_letter x y && same_word a' b'
  | _, _ => false
  end.

Fixpoint no_capital (s : string) : bool :=
  match s with
  | EmptyString => true
  | String c s' => negb (capital c) && no_capital s'
  end.

(** The keyword occurs in the name, the case of the letters left aside. *)
Definition occurs_in (keyword name : string) : Prop :=
  exists pre word post,
    name = (pre ++ word ++ post)%string /\ same_word word keyword = true.

(** A keyword of the group occurs in the name, the case of the letters
    left aside. *)
Definition group_matches (keywords : list string) (name : string) : Prop :=
  exists keyword, In keyword keywords /\ occurs_in keyword name.

End ExpandProjectAnalysis.

(** ** github_new_trend/github_popular_projects_analyzer.py *)

Module PopularProjectsAnalyzer.

(** A Python [float]. *)
Inductive pyfloat : Type :=
| FNaN
| FInf (negative : bool)
| FFinite (q : Q).

(** What [get_stars_count] may be handed. *)
#[local] Unset Elimination Schemes.
Inductive pyvalue : Type :=
| PyNone
| PyStr (s : string)
| PyBool (b : bool)
| PyInt (n : Z)
| PyFloat (f : pyfloat)
| PyList (items : list pyvalue)
| PyDict (members : list (string * pyvalue)).
#[local] Set Elimination Schemes.

(** Rounding towards zero. *)
Definition trunc (q : Q) : Z := Z.quot (Qnum q) (Zpos (Qden q)).

(** [int(x)] on a float. *)
Definition int_of_float (f : pyfloat) : outcome Z :=
  match f with
  | FNaN => Raise ValueError
  | FInf _ => Raise OverflowError
  | FFinite q => Ok (trunc q)
  end.

Definition get_stars_count (stars : pyvalue) : outcome Z :=
  match stars with
  | PyNone => Ok 0%Z
  | PyStr stars =>
      let stars := PyStr.remove "," stars in
      match
        (if PyStr.isdigit stars then PyStr.int_of_str stars else Ok 0%Z)
      with
      | Raise ValueError => Ok 0%Z
      | r => r
      end
  | PyBool b => Ok (if b then 1%Z else 0%Z)
  | PyInt n => Ok n
  | PyFloat f => int_of_float f
  | PyList _ => Ok 0%Z
  | PyDict _ => Ok 0%Z
  end.

End PopularProjectsAnalyzer.


(** ** utils/config.py *)

Module Config.

(** [key.split('.')]: the pieces between the dots, at least one. *)
Fixpoint split_dots (key : string) : list string :=
  match key with
  | EmptyString => [EmptyString]
  | String c rest =>
      if Ascii.eqb c "."
      then EmptyString :: split_dots rest
      else
        match split_dots rest with
        | [] => [String c EmptyString]
        | piece :: pieces => String c piece :: pieces
        end
  end.

(** [value[k]] with a string [k]: only an object can be indexed so. *)
Definition item (value : json) (k : string) : outcome json :=
  match value with
  | JObj members => dict_item members k
  | _ => Raise TypeError
  end.

(** The loop of [ConfigManager.get] over the pieces of the key. *)
Definition walk (value : json) (keys : list string) : outcome json :=
  fold_left (fun value k => v <- value ;; item v k) keys (Ok value).

(** [ConfigManager.get]: KeyError and TypeError give the default, any other
    exception would go on to the caller. *)
Definition get (config : json) (key : string) (default : json)
  : outcome json :=
  match walk config (split_dots key) with
  | Ok value => Ok value
  | Raise KeyError => Ok default
  | Raise TypeError => Ok default
  | Raise e => Raise e
  end.

(** The configuration [load_config] uses when there is no config file. *)
Definition default_config : json :=
  JObj
    [ ("data_paths",
       JObj [ ("external_metrics", JStr "./top_300_metrics");
              ("project_root", JStr ".");
              ("output_dir", JStr "./output");
              ("final_report_dir", JStr "./final_report");
              ("github_new_trend_dir", JStr "./github_new_trend") ]);
      ("analysis",
       JObj [ ("time_window", JNum 6);
              ("star_threshold", JNum 5000);
              ("popular_project_definition", JStr "strict") ]);
      ("visualization",
       JObj [ ("font_size", JNum 10);
              ("figsize", JArr [JNum 16; JNum 12]);
              ("dpi", JNum 300) ]) ].

End Config.

(** ** github_new_trend/github_popular_projects_analyzer.py, the monthly
    analysis *)

Module MonthlyPopularity.

Import PopularProjectsAnalyzer.

(** The text of a description or a language, as its code points. *)
Definition text : Type := list N.

(** A field of a project read with [p.get]: no such key, [null], or a
    value. *)
Inductive field (A : Type) : Type :=
| Missing
| Null
| Val (a : A).

Arguments Missing {A}.
Arguments Null {A}.
Arguments Val {A} a.

(** A project of a monthly file, with the fields the analysis reads and the
    types the collector writes them with. *)
Record repo : Type := {
  stars_count : field pyvalue;
  description : field text;
  topics : field (list text);
  language : field text
}.

(** The code points of an ASCII literal. *)
Fixpoint literal (s : string) : text :=
  match s with
  | EmptyString => []
  | String c s' => N_of_ascii c :: literal s'
  end.

(** [c.isspace()] *)
Definition is_space (c : N) : bool :=
  ((9 <=? c) && (c <=? 13))%N
  || ((28 <=? c) && (c <=? 32))%N
  || (c =? 133)%N || (c =? 160)%N || (c =? 5760)%N
  || ((8192 <=? c) && (c <=? 8202))%N
  || (c =? 8232)%N || (c =? 8233)%N || (c =? 8239)%N || (c =? 8287)%N
  || (c =? 12288)%N.

Fixpoint lstrip (s : text) : text :=
  match s with
  | [] => []
  | c :: s' => if is_space c then lstrip s' else s
  end.

(** [s.strip()] *)
Definition strip (s : text) : text := rev (lstrip (rev (lstrip s))).

Definition text_eqb (a b : text) : bool :=
  if list_eq_dec N.eq_dec a b then true else false.

(** [p.get('stars_count', 0)] *)
Definition stars_of (p : repo) : pyvalue :=
  match stars_count p with
  | Missing => PyInt 0
  | Null => PyNone
  | Val v => v
  end.

(** [p.get(key, '') or ''] and [p.get('topics', []) or []] *)
Definition or_empty {A : Type} (f : field (list A)) : list A :=
  match f with
  | Val v => v
  | _ => []
  end.

(** The four conditions of the moderate standard and their count. *)
Definition conditions_met (stars : Z) (p : repo) : nat :=
  let description := or_empty (description p) in
  let topics := or_empty (topics p) in
  let language := or_empty (language p) in
  let meets_stars := (2000 <=? stars)%Z in
  let has_description := (20 <? List.length (strip description))%nat in
  let has_topics := (1 <=? List.length topics)%nat in
  let has_language :=
    match language with
    | [] => false
    | _ :: _ =>
        negb (text_eqb language (literal "null"))
        && match strip language with [] => false | _ :: _ => true end
    end in
  Nat.b2n meets_stars + Nat.b2n has_description + Nat.b2n has_topics
  + Nat.b2n has_language.

(** The moderate standard in words: at least three of four conditions
    hold, which are 2000 stars or more, a description of more than 20
    characters once stripped, at least one topic, and a language that is
    given, is not the text "null" and has a character that is not white
    space. *)
Definition at_least_three (a b c d : bool) : bool :=
  (a && b && c) || (a && b && d) || (a && c && d) || (b && c && d).

Definition moderate_standard (stars : Z) (p : repo) : bool :=
  at_least_three
    (2000 <=? stars)%Z
    match description p with
    | Val text => (21 <=? List.length (strip text))%nat
    | _ => false
    end
    match topics p with
    | Val (_ :: _) => true
    | _ => false
    end
    match language p with
    | Val text =>
        negb (text_eqb text (literal "null"))
        && existsb (fun c => negb (is_space c)) text
    | _ => false
    end.

(** The star counts of the projects, as the first loop gets them: the first
    count that raises ends the analysis. *)
Fixpoint count_all (month_data : list repo) : outcome (list (repo * Z)) :=
  match month_data with
  | [] => Ok []
  | p :: rest =>
      stars <- get_stars_count (stars_of p) ;;
      counted <- count_all rest ;;
      Ok ((p, stars) :: counted)
  end.

Fixpoint insert_by_stars (x : repo * Z) (l : list (repo * Z))
  : list (repo * Z) :=
  match l with
  | [] => [x]
  | h :: t =>
      if (snd h <=? snd x)%Z then x :: l else h :: insert_by_stars x t
  end.

(** [sorted(month_data, key=stars, reverse=True)]: descending, projects with
    equal counts in their order in [month_data]. *)
Definition sorted_by_stars (counted : list (repo * Z)) : list (repo * Z) :=
  fold_right insert_by_stars [] counted.

(** The least magnitude that no longer rounds to a float: halfway between
    the greatest float and [2 ^ 1024]. *)
Definition float_limit : Z := (2 ^ 1024 - 2 ^ 970)%Z.

(** [a / b] on an integer [a] and a length [b > 0]: OverflowError when the
    quotient does not round to a float.  The float itself is not kept. *)
Definition true_divide (a : Z) (b : nat) : outcome unit :=
  if (float_limit * Z.of_nat b <=? Z.abs a)%Z
  then Raise OverflowError
  else Ok tt.

(** The dictionary returned for a month with projects, without its field
    avg_stars (a float rounded to one decimal). *)
Record summary : Type := {
  total_projects : nat;
  high_star_projects : nat;
  popular_projects : nat;
  total_stars : Z;
  top_projects : list repo
}.

(** What [analyze_popular_projects] returns: for a month without projects a
    dictionary of zeros whose keys are total_projects, high_star_projects,
    high_growth_projects, comprehensive_projects, total_stars, avg_stars and
    top_projects; else a [summary]. *)
Inductive analysis : Type :=
| NoProjects
| Analysed (s : summary).

Definition analyze_popular_projects (month_data : list repo)
  : outcome analysis :=
  match month_data with
  | [] => Ok NoProjects
  | _ :: _ =>
      counted <- count_all month_data ;;
      let total_projects := List.length month_data in
      let total_stars := fold_left (fun acc x => (acc + snd x)%Z) counted 0%Z in
      avg_stars <- true_divide total_stars total_projects ;;
      let high_star_projects :=
        filter (fun x => (1000 <=? snd x)%Z) counted in
      let moderate_projects :=
        filter (fun x => (3 <=? conditions_met (snd x) (fst x))%nat) counted in
      let popular_projects :=
        if (List.length moderate_projects <? 10)%nat
        then filter (fun x => (1000 <=? snd x)%Z) counted
        else moderate_projects in
      let top_projects := firstn 10 (sorted_by_stars counted) in
      Ok (Analysed
            {| total_projects := total_projects;
               high_star_projects := List.length high_star_projects;
               popular_projects := List.length popular_projects;
               total_stars := total_stars;
               top_projects := map fst top_projects |})
  end.

(** [analysis["popular_projects"]] *)
Definition popular_of (a : analysis) : outcome nat :=
  match a with
  | NoProjects => Raise KeyError
  | Analysed s => Ok (popular_projects s)
  end.

(** A monthly file: rejected by [json.load], or its projects. *)
Inductive month_file : Type :=
| BadFile
| MonthData (month_data : list repo).

(** [language_stats[lang].append(stars)] on the [defaultdict(list)]. *)
Fixpoint append_to (stats : list (text * list Z)) (lang : text) (stars : Z)
  : list (text * list Z) :=
  match stats with
  | [] => [(lang, [stars])]
  | (l, counts) :: rest =>
      if text_eqb l lang
      then (l, counts ++ [stars]) :: rest
      else (l, counts) :: append_to rest lang stars
  end.

(** The loop that collects the language statistics of a month; an
    exception ends it and keeps what was appended. *)
Fixpoint collect_languages (stats : list (text * list Z))
    (month_data : list repo) : list (text * list Z) :=
  match month_data with
  | [] => stats
  | project :: rest =>
      let lang :=
        match language project with
        | Missing => Some (literal "Unknown")
        | Null => None
        | Val l => Some l
        end in
      match lang with
      | Some (c :: l) =>
          if negb (text_eqb (c :: l) (literal "null"))
          then
            match get_stars_count (stars_of project) with
            | Ok stars => collect_languages (append_to stats (c :: l) stars) rest
            | Raise _ => stats
            end
          else collect_languages stats rest
      | _ => collect_languages stats rest
      end
  end.

(** [monthly_trends], [monthly_analysis] and [language_stats]. *)
Record trends : Type := {
  monthly_trends : pydict nat;
  monthly_analysis : pydict analysis;
  language_stats : list (text * list Z)
}.

(** One turn of the loop of [calculate_monthly_popular_trends] over the
    monthly files: what the [try] has written stays when it raises. *)
Definition add_month (t : trends) (entry : string * month_file) : trends :=
  let month := fst entry in
  match snd entry with
  | BadFile => t
  | MonthData month_data =>
      match analyze_popular_projects month_data with
      | Raise _ => t
      | Ok a =>
          let monthly_analysis := dict_set (monthly_analysis t) month a in
          match popular_of a with
          | Raise _ =>
              {| monthly_trends := monthly_trends t;
                 monthly_analysis := monthly_analysis;
                 language_stats := language_stats t |}
          | Ok popular =>
              {| monthly_trends := dict_set (monthly_trends t) month popular;
                 monthly_analysis := monthly_analysis;
                 language_stats :=
                   collect_languages (language_stats t) month_data |}
          end
      end
  end.

(** [calculate_monthly_popular_trends] on the monthly files in the order of
    their names. *)
Definition calculate_monthly_popular_trends
    (monthly_files : list (string * month_file)) : trends :=
  fold_left add_month monthly_files
    {| monthly_trends := []; monthly_analysis := []; language_stats := [] |}.

End MonthlyPopularity.

(** *** The summary of [generate_comprehensive_report] *)

Module PopularityReport.

Import MonthlyPopularity.

(** [statistics.mean] on integers, given their sum and their number
    [n > 0]: an integer when the division is exact, else the float of the
    fraction, OverflowError when there is none.  The mean itself is not
    kept. *)
Definition mean (total : Z) (n : nat) : outcome unit :=
  if (total mod Z.of_nat n =? 0)%Z then Ok tt else true_divide total n.

(** The loop that fills [language_summary], as far as it can raise. *)
Fixpoint language_means (language_stats : list (text * list Z))
  : outcome unit :=
  match language_stats with
  | [] => Ok tt
  | (lang, stars_list) :: rest =>
      match stars_list with
      | [] => language_means rest
      | _ :: _ =>
          avg_stars <-
            mean (fold_left Z.add stars_list 0%Z) (List.length stars_list) ;;
          language_means rest
      end
  end.

(** [max(items, key=key)] on a non-empty sequence: the first of the
    greatest. *)
Definition max_by {A : Type} (key : A -> nat) (first : A) (rest : list A) : A :=
  fold_left (fun best x => if (key best <? key x)%nat then x else best)
    rest first.

(** [min(items, key=key)] on a non-empty sequence: the first of the
    least. *)
Definition min_by {A : Type} (key : A -> nat) (first : A) (rest : list A) : A :=
  fold_left (fun best x => if (key x <? key best)%nat then x else best)
    rest first.

(** The entry [summary] of the report; [avg_popular_projects_per_month], a
    rounded float, is left out. *)
Record report_summary : Type := {
  total_months_analyzed : nat;
  total_popular_projects : nat;
  peak_month : string;
  lowest_month : string
}.

(** [generate_comprehensive_report], the summary of its report: nothing
    without a month that was analysed; the means of the language statistics
    and of the monthly numbers are taken before the summary is there. *)
Definition generate_comprehensive_report
    (monthly_files : list (string * month_file))
  : outcome (option report_summary) :=
  let t := calculate_monthly_popular_trends monthly_files in
  match monthly_trends t with
  | [] => Ok None
  | item :: rest =>
      language_summary <- language_means (language_stats t) ;;
      avg_popular_projects_per_month <-
        mean (Z.of_nat (list_sum (values (item :: rest))))
          (List.length (item :: rest)) ;;
      Ok (Some {| total_months_analyzed := List.length (item :: rest);
                  total_popular_projects := list_sum (values (item :: rest));
                  peak_month := fst (max_by snd item rest);
                  lowest_month := fst (min_by snd item rest) |})
  end.

End PopularityReport.

(** ** scripts/03_final_analysis.py, the batch and the time series *)

Module FinalAnalysisBatch.

Import FinalAnalysis.

Definition top_orgs_to_analyze : list string :=
  [ "microsoft"; "google"; "facebook"; "apache";
    "tensorflow"; "kubernetes"; "docker"; "nodejs";
    "python"; "golang"; "rust-lang"; "pytorch" ].

(** An entry of an organisation's directory. *)
Record project_entry : Type := {
  project_is_dir : bool;
  project_name : string;
  project_files : string -> file_state
}.

(** An entry of the metrics directory. *)
Record org_entry : Type := {
  org_is_dir : bool;
  org_name : string;
  org_projects : list project_entry
}.

(** [org_name in top_orgs_to_analyze] *)
Definition listed (org_name : string) : bool :=
  existsb (String.eqb org_name) top_orgs_to_analyze.

(** The loop over the entries of an organisation: the records appended to
    [all_projects_data]. *)
Fixpoint analyze_org (org_name : string) (entries : list project_entry)
  : list (pydict json) :=
  match entries with
  | [] => []
  | entry :: rest =>
      if negb (project_is_dir entry)
      then analyze_org org_name rest
      else
        match
          analyze_project_metrics org_name (project_name entry)
            (Some (project_files entry))
        with
        | Some project_data => project_data :: analyze_org org_name rest
        | None => analyze_org org_name rest
        end
  end.

(** The loop over the entries of the metrics directory, with its two
    [continue] and its [break]. *)
Fixpoint analyze_orgs (orgs : list org_entry) (org_count : nat)
    (all_projects_data : list (pydict json)) : list (pydict json) :=
  match orgs with
  | [] => all_projects_data
  | org :: rest =>
      if negb (org_is_dir org)
      then analyze_orgs rest org_count all_projects_data
      else if negb (listed (org_name org))
      then analyze_orgs rest org_count all_projects_data
      else
        let all_projects_data :=
          all_projects_data ++ analyze_org (org_name org) (org_projects org) in
        let org_count := org_count + 1 in
        if (10 <=? org_count)%nat
           && (50 <=? List.length all_projects_data)%nat
        then all_projects_data
        else analyze_orgs rest org_count all_projects_data
  end.

(** [analyze_top_projects_across_orgs]: the records of the frame, [None]
    when there is none. *)
Definition analyze_top_projects_across_orgs (orgs : list org_entry)
  : option (list (pydict json)) :=
  match analyze_orgs orgs 0 [] with
  | [] => None
  | all_projects_data => Some all_projects_data
  end.

(** The organisations the loop analyses when it is not cut short. *)
Definition qualifying (orgs : list org_entry) : list org_entry :=
  filter (fun org => org_is_dir org && listed (org_name org)) orgs.

(** The cleaning loop of [analyze_time_series_for_selected_projects]: only
    keys of seven characters with a dash are kept. *)
Definition keep_step (clean_data : pydict json) (item : string * json)
  : pydict json :=
  let clean_dt := clean_date (fst item) in
  if PyStr.truthy clean_dt && PyStr.contains "-" clean_dt
  then
    if (String.length clean_dt =? 7)%nat
    then dict_set clean_data clean_dt (snd item)
    else clean_data
  else clean_data.

Definition clean_months (data : pydict json) : pydict json :=
  fold_left keep_step data [].

(** The loop that builds [cumulative_values]. *)
Fixpoint cumulative (running_total : json) (values : list json)
  : outcome (list json) :=
  match values with
  | [] => Ok []
  | value :: rest =>
      running_total <- PyNum.add running_total value ;;
      cumulative_values <- cumulative running_total rest ;;
      Ok (running_total :: cumulative_values)
  end.

(** [[clean_data[d] for d in dates]] *)
Fixpoint values_at (clean_data : pydict json) (dates : list string)
  : outcome (list json) :=
  match dates with
  | [] => Ok []
  | d :: rest =>
      v <- dict_item clean_data d ;;
      vs <- values_at clean_data rest ;;
      Ok (v :: vs)
  end.

Fixpoint label_from (i last_index : nat) (dates : list string) : list string :=
  match dates with
  | [] => []
  | d :: rest =>
      (if (i mod 12 =? 0)%nat || (i =? last_index)%nat then d else "")
      :: label_from (S i) last_index rest
  end.

(** The labels of the axis: a date every twelve months and at the end. *)
Definition display_dates (dates : list string) : list string :=
  label_from 0 (List.length dates - 1) dates.

(** What is plotted for one project: the dates, their labels and the
    cumulative values; [None] when nothing is drawn (no non-empty object, or
    no key kept). *)
Definition time_series (data : json)
  : outcome (option (list string * list string * list json)) :=
  match data with
  | JObj (item :: rest) =>
      let clean_data := clean_months (item :: rest) in
      match clean_data with
      | [] => Ok None
      | _ :: _ =>
          let dates := PyStr.sorted (keys clean_data) in
          values <- values_at clean_data dates ;;
          let display_dates := display_dates dates in
          cumulative_values <- cumulative (JNum 0) values ;;
          Ok (Some (dates, display_dates, cumulative_values))
      end
  | _ => Ok None
  end.

(** Minimum and maximum of a column, the missing values skipped. *)
Definition cell_min (a b : cell) : cell :=
  match a, b with
  | NaN, c => c
  | c, NaN => c
  | Num x, Num y => Num (if Qle_bool x y then x else y)
  end.

Definition cell_max (a b : cell) : cell :=
  match a, b with
  | NaN, c => c
  | c, NaN => c
  | Num x, Num y => Num (if Qle_bool x y then y else x)
  end.

Definition col_min (col : list cell) : cell := fold_left cell_min col NaN.
Definition col_max (col : list cell) : cell := fold_left cell_max col NaN.

(** The normalised column of [analyze_project_growth]: min-max scaling when
    the maximum is greater than the minimum, else 0 in every row. *)
Definition normalize (col : list cell) : list cell :=
  match col_min col, col_max col with
  | Num lo, Num hi =>
      if negb (Qle_bool hi lo)
      then
        map (fun c =>
               match c with
               | NaN => NaN
               | Num x => Num ((x - lo) / (hi - lo))
               end) col
      else map (fun _ => Num 0) col
  | _, _ => map (fun _ => Num 0) col
  end.

End FinalAnalysisBatch.

(** ** scripts/01_explore_data.py, the loop over the organisations *)

Module ExploreDataBatch.

Import ExploreData.

(** A project folder: its name, its stars.json and its activity.json. *)
Definition project_folder : Type := string * file_state * file_state.

(** An organisation folder: its name and its project folders. *)
Definition org_folder : Type := string * list project_folder.

(** [l[:n]] *)
Definition slice_to {A : Type} (n : Z) (l : list A) : list A :=
  if (0 <=? n)%Z
  then firstn (Z.to_nat n) l
  else firstn (List.length l - Z.to_nat (- n)) l.

Fixpoint collect_org (org_name : string) (project_folders : list project_folder)
  : list project_info :=
  match project_folders with
  | [] => []
  | (project_name, stars_file, activity_file) :: rest =>
      match collect_project org_name project_name stars_file activity_file with
      | Some info => info :: collect_org org_name rest
      | None => collect_org org_name rest
      end
  end.

(** [collect_project_info]: [max_orgs] is [None] or an integer; the frame is
    [None] when no project was collected. *)
Definition collect_project_info (org_folders : list org_folder)
    (max_orgs : option Z) : option (list project_info) :=
  let org_folders :=
    match max_orgs with
    | None => org_folders
    | Some n => if (n =? 0)%Z then org_folders else slice_to n org_folders
    end in
  match
    flat_map (fun org => collect_org (fst org) (snd org)) org_folders
  with
  | [] => None
  | projects_info => Some projects_info
  end.

End ExploreDataBatch.

(** ** scripts/05_create_charts.py *)

Module CreateCharts.

Definition PROJECT_TYPE_MAPPING : pydict string :=
  [ ("其他", "Other");
    ("大数据/数据库", "Big Data/Database");
    ("人工智能", "AI/ML");
    ("前端框架", "Frontend Framework");
    ("编程语言", "Programming Languages");
    ("开发工具", "Development Tools");
    ("后端框架", "Backend Framework");
    ("实用工具", "Utilities");
    ("云平台/基础设施", "Cloud/Infrastructure");
    ("DevOps/CI-CD", "DevOps/CI-CD");
    ("容器编排", "Container Orchestration");
    ("区块链", "Blockchain");
    ("文档/网站", "Documentation/Websites");
    ("游戏开发", "Game Development");
    ("监控工具", "Monitoring Tools");
    ("知识管理", "Knowledge Management");
    ("社交网络", "Social Networks");
    ("移动开发", "Mobile Development");
    ("金融工具", "Financial Tools") ].

(** One cell of [df['project_type'].map(PROJECT_TYPE_MAPPING)]: [None] is
    the missing value a type outside the mapping gets. *)
Definition translate (project_type : string) : option string :=
  dict_get PROJECT_TYPE_MAPPING project_type.

End CreateCharts.

(** * Properties *)

Import ExpandProjectAnalysis.

(** ** Strings *)

Section StringFacts.

Lemma prefix_app (p s : string) :
  prefix p s = true <-> exists post, s = (p ++ post)%string.
Proof.
  revert s; induction p as [|a p IH]; intros s; simpl.
  - destruct s; split; intros; try reflexivity; eexists; reflexivity.
  - destruct s as [|b s]; simpl.
    + split; [discriminate | intros [post H]; discriminate].
    + destruct (ascii_dec a b) as [->|Hne].
      * rewrite IH. split; intros [post H]; exists post.
        -- now rewrite H.
        -- now injection H.
      * split; [discriminate | intros [post H]].
        injection H as H1 H2. now elim Hne.
Qed.

(** [contains] finds exactly the substrings. *)
Lemma contains_spec (sub s : string) :
  PyStr.contains sub s = true <->
  exists pre post, s = (pre ++ sub ++ post)%string.
Proof.
  induction s as [|c s IH]; cbn [PyStr.contains].
  - rewrite prefix_app. split.
    + intros [post H]. exists EmptyString, post. exact H.
    + intros [pre [post H]]. destruct pre; simpl in H.
      * now exists post.
      * discriminate.
  - rewrite orb_true_iff, prefix_app, IH. split.
    + intros [[post H] | [pre [post H]]].
      * exists EmptyString, post. exact H.
      * exists (String c pre), post. simpl. now rewrite H.
    + intros [pre [post H]]. destruct pre as [|c' pre]; simpl in H.
      * left. now exists post.
      * right. injection H as _ H. now exists pre, post.
Qed.

Lemma ascii_compare_refl (a : ascii) : Ascii.compare a a = Eq.
Proof. unfold Ascii.compare. apply N.compare_refl. Qed.

Lemma compare_refl (s : string) : String.compare s s = Eq.
Proof.
  induction s as [|a s IH]; simpl; [reflexivity|].
  now rewrite ascii_compare_refl.
Qed.

Lemma compare_le_trans (s1 s2 s3 : string) :
  String.compare s1 s2 <> Gt -> String.compare s2 s3 <> Gt ->
  String.compare s1 s3 <> Gt.
Proof.
  revert s2 s3; induction s1 as [|a s1 IH]; intros [|b s2] [|c s3];
    simpl; try congruence.
  unfold Ascii.compare.
  destruct (N.compare_spec (N_of_ascii a) (N_of_ascii b)) as [Hab|Hab|Hab];
    destruct (N.compare_spec (N_of_ascii b) (N_of_ascii c)) as [Hbc|Hbc|Hbc];
    try congruence; intros H1 H2.
  - rewrite Hab, Hbc, N.compare_refl. eapply IH; eassumption.
  - rewrite Hab. apply N.compare_lt_iff in Hbc. now rewrite Hbc.
  - rewrite <- Hbc. apply N.compare_lt_iff in Hab. now rewrite Hab.
  - assert (H : (N_of_ascii a < N_of_ascii c)%N) by lia.
    apply N.compare_lt_iff in H. now rewrite H.
Qed.

Lemma leb_trans (s1 s2 s3 : string) :
  String.leb s1 s2 = true -> String.leb s2 s3 = true ->
  String.leb s1 s3 = true.
Proof.
  unfold String.leb. intros H1 H2.
  assert (H : String.compare s1 s3 <> Gt).
  { apply (compare_le_trans s1 s2 s3).
    - destruct (String.compare s1 s2); congruence.
    - destruct (String.compare s2 s3); congruence. }
  destruct (String.compare s1 s3); congruence.
Qed.

Lemma leb_refl (s : string) : String.leb s s = true.
Proof. unfold String.leb. now rewrite compare_refl. Qed.

End StringFacts.

(** ** Month keys *)

Section MonthKeys.

Lemma digit_compare (a b : ascii) :
  PyStr.is_digit a = true -> PyStr.is_digit b = true ->
  Ascii.compare a b = Nat.compare (nat_of_ascii a - 48) (nat_of_ascii b - 48)
  /\ nat_of_ascii a - 48 < 10 /\ nat_of_ascii b - 48 < 10.
Proof.
  unfold PyStr.is_digit, Ascii.compare, nat_of_ascii.
  rewrite !andb_true_iff, !Nat.leb_le.
  intros [Ha1 Ha2] [Hb1 Hb2].
  split; [|lia].
  rewrite <- (N2Nat.id (N_of_ascii a)), <- (N2Nat.id (N_of_ascii b)).
  rewrite <- Nat2N.inj_compare, !N2Nat.id.
  destruct (Nat.compare_spec (N.to_nat (N_of_ascii a))
              (N.to_nat (N_of_ascii b)));
    symmetry; [apply Nat.compare_eq_iff | apply Nat.compare_lt_iff
              | apply Nat.compare_gt_iff]; lia.
Qed.

(** On keys of the form YYYY-MM the order of the strings is the order of
    the months in time. *)
Lemma month_order (a b : string) (ya ma yb mb : nat) :
  PyStr.year_month a = Some (ya, ma) ->
  PyStr.year_month b = Some (yb, mb) ->
  (PyStr.le a b <-> ya < yb \/ (ya = yb /\ ma <= mb)).
Proof.
  unfold PyStr.year_month.
  destruct a as [|a1 [|a2 [|a3 [|a4 [|a5 [|a6 [|a7 [|? ?]]]]]]]];
    try discriminate.
  destruct b as [|b1 [|b2 [|b3 [|b4 [|b5 [|b6 [|b7 [|? ?]]]]]]]];
    try discriminate.
  destruct (PyStr.is_digit a1) eqn:A1; try discriminate.
  destruct (PyStr.is_digit a2) eqn:A2; try discriminate.
  destruct (PyStr.is_digit a3) eqn:A3; try discriminate.
  destruct (PyStr.is_digit a4) eqn:A4; try discriminate.
  destruct (Ascii.eqb_spec a5 "-"); try discriminate.
  destruct (PyStr.is_digit a6) eqn:A6; try discriminate.
  destruct (PyStr.is_digit a7) eqn:A7; try discriminate.
  destruct (PyStr.is_digit b1) eqn:B1; try discriminate.
  destruct (PyStr.is_digit b2) eqn:B2; try discriminate.
  destruct (PyStr.is_digit b3) eqn:B3; try discriminate.
  destruct (PyStr.is_digit b4) eqn:B4; try discriminate.
  destruct (Ascii.eqb_spec b5 "-"); try discriminate.
  destruct (PyStr.is_digit b6) eqn:B6; try discriminate.
  destruct (PyStr.is_digit b7) eqn:B7; try discriminate.
  subst a5 b5. cbn [andb]. intros Ha Hb.
  unfold PyStr.le, String.leb. cbn [String.compare].
  destruct (digit_compare a1 b1 A1 B1) as [-> [P1 Q1]].
  destruct (digit_compare a2 b2 A2 B2) as [-> [P2 Q2]].
  destruct (digit_compare a3 b3 A3 B3) as [-> [P3 Q3]].
  destruct (digit_compare a4 b4 A4 B4) as [-> [P4 Q4]].
  destruct (digit_compare a6 b6 A6 B6) as [-> [P6 Q6]].
  destruct (digit_compare a7 b7 A7 B7) as [-> [P7 Q7]].
  rewrite ascii_compare_refl.
  remember (nat_of_ascii a1 - 48) as p1.
  remember (nat_of_ascii a2 - 48) as p2.
  remember (nat_of_ascii a3 - 48) as p3.
  remember (nat_of_ascii a4 - 48) as p4.
  remember (nat_of_ascii a6 - 48) as p6.
  remember (nat_of_ascii a7 - 48) as p7.
  remember (nat_of_ascii b1 - 48) as q1.
  remember (nat_of_ascii b2 - 48) as q2.
  remember (nat_of_ascii b3 - 48) as q3.
  remember (nat_of_ascii b4 - 48) as q4.
  remember (nat_of_ascii b6 - 48) as q6.
  remember (nat_of_ascii b7 - 48) as q7.
  assert (Hya : ya = 1000 * p1 + 100 * p2 + 10 * p3 + p4) by congruence.
  assert (Hma : ma = 10 * p6 + p7) by congruence.
  assert (Hyb : yb = 1000 * q1 + 100 * q2 + 10 * q3 + q4) by congruence.
  assert (Hmb : mb = 10 * q6 + q7) by congruence.
  clear - P1 P2 P3 P4 P6 P7 Q1 Q2 Q3 Q4 Q6 Q7 Hya Hma Hyb Hmb.
  destruct (Nat.compare_spec p1 q1);
    [|split; [lia | reflexivity] | split; [discriminate | lia]].
  destruct (Nat.compare_spec p2 q2);
    [|split; [lia | reflexivity] | split; [discriminate | lia]].
  destruct (Nat.compare_spec p3 q3);
    [|split; [lia | reflexivity] | split; [discriminate | lia]].
  destruct (Nat.compare_spec p4 q4);
    [|split; [lia | reflexivity] | split; [discriminate | lia]].
  destruct (Nat.compare_spec p6 q6);
    [|split; [lia | reflexivity] | split; [discriminate | lia]].
  destruct (Nat.compare_spec p7 q7);
    [split; [lia | reflexivity] | split; [lia | reflexivity]
    | split; [discriminate | lia]].
Qed.

End MonthKeys.

(** ** Dictionaries *)

Section DictFacts.

Context {V : Type}.

Lemma dict_get_set_same (d : pydict V) (k : string) (v : V) :
  dict_get (dict_set d k v) k = Some v.
Proof.
  induction d as [|[k' v'] d IH]; simpl.
  - now rewrite String.eqb_refl.
  - destruct (String.eqb k' k) eqn:E; simpl; rewrite E; auto.
Qed.

Lemma dict_get_set_other (d : pydict V) (k k' : string) (v : V) :
  k <> k' -> dict_get (dict_set d k v) k' = dict_get d k'.
Proof.
  intros Hne. induction d as [|[k0 v0] d IH]; simpl.
  - apply String.eqb_neq in Hne. now rewrite Hne.
  - destruct (String.eqb k0 k) eqn:E; simpl.
    + apply String.eqb_eq in E. subst k0.
      apply String.eqb_neq in Hne. now rewrite Hne.
    + destruct (String.eqb k0 k'); auto.
Qed.

Lemma dict_get_in (d : pydict V) (k : string) :
  In k (keys d) -> exists v, dict_get d k = Some v.
Proof.
  induction d as [|[k' v'] d IH]; simpl; [tauto|].
  intros [->|Hin].
  - rewrite String.eqb_refl. now exists v'.
  - destruct (String.eqb k' k); [now exists v' | auto].
Qed.

Lemma dict_get_member (d : pydict V) (k : string) (v : V) :
  dict_get d k = Some v -> In (k, v) d.
Proof.
  induction d as [|[k' v'] d IH]; simpl; [discriminate|].
  destruct (String.eqb k' k) eqn:E.
  - apply String.eqb_eq in E. intros [= ->]. left. now subst.
  - auto.
Qed.

Lemma dict_item_ok (d : pydict V) (k : string) (v : V) :
  dict_get d k = Some v -> dict_item d k = Ok v.
Proof. unfold dict_item. now intros ->. Qed.

End DictFacts.

(** ** [sorted] *)

Section SortedFacts.

Lemma insert_sorted_perm (k : string) (l : list string) :
  Permutation (PyStr.insert_sorted k l) (k :: l).
Proof.
  induction l as [|h t IH]; simpl; [reflexivity|].
  destruct (String.leb k h); [reflexivity|].
  rewrite IH. apply perm_swap.
Qed.

Lemma sorted_perm (l : list string) : Permutation (PyStr.sorted l) l.
Proof.
  induction l as [|k l IH]; simpl; [reflexivity|].
  rewrite insert_sorted_perm. now apply perm_skip.
Qed.

Lemma insert_sorted_strongly (k : string) (l : list string) :
  StronglySorted PyStr.le l -> StronglySorted PyStr.le (PyStr.insert_sorted k l).
Proof.
  induction l as [|h t IH]; intros Hs; simpl.
  - constructor; constructor.
  - destruct (String.leb k h) eqn:E.
    + constructor; [exact Hs|]. constructor; [exact E|].
      inversion Hs as [|? ? _ Hall]; subst.
      eapply Forall_impl; [|exact Hall].
      intros x Hx. eapply leb_trans; eassumption.
    + inversion Hs as [|? ? Ht Hall]; subst.
      constructor; [now apply IH|].
      eapply Permutation_Forall.
      * symmetry. apply insert_sorted_perm.
      * constructor; [|exact Hall].
        destruct (String.leb_total k h) as [H|H]; [congruence | exact H].
Qed.

Lemma sorted_strongly (l : list string) :
  StronglySorted PyStr.le (PyStr.sorted l).
Proof.
  induction l as [|k l IH]; simpl; [constructor|].
  now apply insert_sorted_strongly.
Qed.

Lemma strongly_sorted_hd (l : list string) :
  StronglySorted PyStr.le l -> forall k, In k l -> PyStr.le (hd "" l) k.
Proof.
  intros Hs k Hin. destruct l as [|h t]; [destruct Hin|]. simpl.
  inversion Hs as [|? ? _ Hall]; subst.
  destruct Hin as [->|Hin]; [apply leb_refl|].
  rewrite Forall_forall in Hall. now apply Hall.
Qed.

Lemma strongly_sorted_last (l : list string) :
  StronglySorted PyStr.le l -> forall k, In k l -> PyStr.le k (last l "").
Proof.
  induction l as [|h t IH]; intros Hs k Hin; [destruct Hin|].
  inversion Hs as [|? ? Ht Hall]; subst.
  destruct t as [|h' t'].
  - destruct Hin as [->|[]]. apply leb_refl.
  - change (last (h :: h' :: t') "") with (last (h' :: t') "").
    destruct Hin as [->|Hin].
    + apply leb_trans with h'.
      * rewrite Forall_forall in Hall. apply Hall. now left.
      * apply IH; [exact Ht | now left].
    + now apply IH.
Qed.

Lemma hd_in (l : list string) : l <> [] -> In (hd "" l) l.
Proof. destruct l; [congruence | intros _; now left]. Qed.

Lemma last_in (l : list string) : l <> [] -> In (last l "") l.
Proof.
  induction l as [|h t IH]; [congruence|]. intros _.
  destruct t as [|h' t']; [now left|].
  right. apply IH. discriminate.
Qed.

(** The first and the last of the sorted keys are keys, the least and the
    greatest one. *)
Lemma sorted_extremes (l : list string) :
  l <> [] ->
  In (hd "" (PyStr.sorted l)) l
  /\ In (last (PyStr.sorted l) "") l
  /\ (forall k, In k l ->
        PyStr.le (hd "" (PyStr.sorted l)) k
        /\ PyStr.le k (last (PyStr.sorted l) "")).
Proof.
  intros Hne.
  assert (Hs : PyStr.sorted l <> []).
  { intros E. apply Hne. apply Permutation_nil.
    rewrite <- E. apply sorted_perm. }
  split; [|split].
  - eapply Permutation_in; [apply sorted_perm | now apply hd_in].
  - eapply Permutation_in; [apply sorted_perm | now apply last_in].
  - intros k Hk.
    assert (Hk' : In k (PyStr.sorted l)).
    { eapply Permutation_in; [symmetry; apply sorted_perm | exact Hk]. }
    split.
    + apply strongly_sorted_hd; [apply sorted_strongly | exact Hk'].
    + apply strongly_sorted_last; [apply sorted_strongly | exact Hk'].
Qed.

Lemma sorted_length (l : list string) :
  List.length (PyStr.sorted l) = List.length l.
Proof. apply Permutation_length, sorted_perm. Qed.

End SortedFacts.

(** ** Sums *)

Section SumFacts.

Lemma sum_from (vs : list json) (qs : list Q) (a : Q) :
  map PyNum.as_number vs = map Some qs ->
  fold_left (fun acc v => x <- acc ;; PyNum.add x v) vs (Ok (JNum a))
  = Ok (JNum (fold_left Qplus qs a)).
Proof.
  revert qs a. induction vs as [|v vs IH]; intros [|q qs] a H;
    simpl in H; try discriminate; [reflexivity|].
  injection H as Hv Hvs. simpl.
  unfold PyNum.add at 2. simpl. rewrite Hv. now apply IH.
Qed.

(** [sum] of numeric values is their sum, added from the left to 0. *)
Lemma sum_numbers (vs : list json) (qs : list Q) :
  map PyNum.as_number vs = map Some qs ->
  PyNum.sum vs = Ok (JNum (fold_left Qplus qs 0%Q)).
Proof. apply sum_from. Qed.

End SumFacts.

(** ** The classifier *)

Section Classifier.

Lemma lower_app (a b : string) :
  PyStr.lower (a ++ b) = (PyStr.lower a ++ PyStr.lower b)%string.
Proof.
  induction a as [|c a IH]; cbn [append PyStr.lower]; [reflexivity|].
  now rewrite IH.
Qed.

(** A cut of the lower-cased string is the lower case of a cut of the
    string. *)
Lemma lower_split (s x y : string) :
  PyStr.lower s = (x ++ y)%string ->
  exists s1 s2,
    s = (s1 ++ s2)%string /\ PyStr.lower s1 = x /\ PyStr.lower s2 = y.
Proof.
  revert s. induction x as [|c x IH]; intros s H.
  - exists EmptyString, s. repeat split. exact H.
  - destruct s as [|d s]; [discriminate H|].
    cbn [append PyStr.lower] in H. injection H as Hc Hs.
    destruct (IH s Hs) as [s1 [s2 [E [H1 H2]]]].
    exists (String d s1), s2. cbn [append PyStr.lower].
    rewrite E, H1, Hc. repeat split. exact H2.
Qed.

Lemma capital_range (c : ascii) :
  capital c = true <-> 65 <= nat_of_ascii c <= 90.
Proof.
  unfold capital. change (nat_of_ascii "A") with 65.
  change (nat_of_ascii "Z") with 90.
  rewrite andb_true_iff, !Nat.leb_le. tauto.
Qed.

Lemma lower_char_capital (c : ascii) :
  capital c = true ->
  PyStr.lower_char c = ascii_of_nat (nat_of_ascii c + 32).
Proof.
  intros H. unfold PyStr.lower_char, PyStr.is_upper.
  apply capital_range in H.
  destruct (Nat.leb_spec 65 (nat_of_ascii c)); [|lia].
  destruct (Nat.leb_spec (nat_of_ascii c) 90); [reflexivity|lia].
Qed.

Lemma lower_char_other (c : ascii) :
  capital c = false -> PyStr.lower_char c = c.
Proof.
  intros H. unfold PyStr.lower_char, PyStr.is_upper.
  destruct (Nat.leb_spec 65 (nat_of_ascii c)); [|reflexivity].
  destruct (Nat.leb_spec (nat_of_ascii c) 90); [|reflexivity].
  assert (T : capital c = true) by (apply capital_range; lia). congruence.
Qed.

Lemma small_of_capital (a b : ascii) :
  capital a = true -> nat_of_ascii b = nat_of_ascii a + 32 ->
  PyStr.lower_char a = b /\ capital b = false.
Proof.
  intros Ha Hb. split.
  - rewrite (lower_char_capital a Ha), <- Hb. apply ascii_nat_embedding.
  - apply capital_range in Ha.
    destruct (capital b) eqn:E; [|reflexivity].
    apply capital_range in E. lia.
Qed.

(** Letters that are the same, the case left aside, have the same lower
    case. *)
Lemma same_letter_lower (a b : ascii) :
  same_letter a b = true -> PyStr.lower_char a = PyStr.lower_char b.
Proof.
  unfold same_letter. rewrite !orb_true_iff, !andb_true_iff, !Nat.eqb_eq.
  intros [[E|[Ha Hb]]|[Hb Ha]].
  - apply Ascii.eqb_eq in E. now subst.
  - destruct (small_of_capital a b Ha Hb) as [H1 H2].
    now rewrite H1, (lower_char_other b H2).
  - destruct (small_of_capital b a Hb Ha) as [H1 H2].
    now rewrite H1, (lower_char_other a H2).
Qed.

Lemma same_word_lower (a b : string) :
  same_word a b = true -> PyStr.lower a = PyStr.lower b.
Proof.
  revert b. induction a as [|x a IH]; intros [|y b] H; try discriminate H.
  - reflexivity.
  - cbn [same_word] in H. apply andb_true_iff in H. destruct H as [H1 H2].
    cbn [PyStr.lower]. now rewrite (same_letter_lower x y H1), (IH b H2).
Qed.

(** A letter whose lower case is the small letter [k] is [k], the case left
    aside. *)
Lemma lower_char_same_letter (c k : ascii) :
  capital k = false ->
  (PyStr.lower_char c = k <-> same_letter c k = true).
Proof.
  intros Hk. split.
  - intros H. unfold same_letter. destruct (capital c) eqn:Hc.
    + rewrite (lower_char_capital c Hc) in H. subst k.
      rewrite nat_ascii_embedding
        by (apply capital_range in Hc; lia).
      rewrite Nat.eqb_refl. cbn [andb]. now rewrite orb_true_r.
    + rewrite (lower_char_other c Hc) in H. subst k.
      now rewrite Ascii.eqb_refl.
  - intros H. rewrite <- (lower_char_other k Hk).
    now apply same_letter_lower.
Qed.

Lemma lower_same_word (w keyword : string) :
  no_capital keyword = true ->
  (PyStr.lower w = keyword <-> same_word w keyword = true).
Proof.
  revert keyword. induction w as [|c w IH]; intros [|k keyword] Hk;
    cbn [PyStr.lower same_word]; try (split; [discriminate | discriminate]);
    [tauto|].
  cbn [no_capital] in Hk. apply andb_true_iff in Hk.
  destruct Hk as [Hc Hrest]. apply negb_true_iff in Hc.
  rewrite andb_true_iff, <- (IH keyword Hrest),
    <- (lower_char_same_letter c k Hc).
  split.
  - intros [= H1 H2]. now split.
  - intros [H1 H2]. now rewrite H1, H2.
Qed.

(** The test of the code, a keyword in the lower-cased name, is the
    occurrence of the keyword in the name, the case left aside. *)
Lemma contains_lower (keyword name : string) :
  no_capital keyword = true ->
  (PyStr.contains keyword (PyStr.lower name) = true
   <-> occurs_in keyword name).
Proof.
  intros Hk. rewrite contains_spec. unfold occurs_in. split.
  - intros [pre [post H]].
    destruct (lower_split _ _ _ H) as [s1 [s' [E [H1 H']]]].
    destruct (lower_split _ _ _ H') as [w [s3 [E' [H2 H3]]]].
    exists s1, w, s3. split; [now rewrite E, E'|].
    now apply lower_same_word.
  - intros [pre [w [post [E H]]]].
    exists (PyStr.lower pre), (PyStr.lower post).
    rewrite E, !lower_app. apply lower_same_word in H; [|exact Hk].
    now rewrite H.
Qed.

Lemma keywords_have_no_capital (g : string * list string) (keyword : string) :
  In g keyword_groups -> In keyword (snd g) -> no_capital keyword = true.
Proof.
  assert (H : forallb (fun g => forallb no_capital (snd g)) keyword_groups
              = true) by (vm_compute; reflexivity).
  rewrite forallb_forall in H. intros Hg Hk.
  specialize (H g Hg). rewrite forallb_forall in H. now apply H.
Qed.

Lemma any_in_spec (g : string * list string) (name : string) :
  In g keyword_groups ->
  (any_in (snd g) (PyStr.lower name) = true <-> group_matches (snd g) name).
Proof.
  intros Hg. unfold any_in, group_matches. rewrite existsb_exists. split.
  - intros [kw [Hin Hc]]. exists kw. split; [exact Hin|].
    apply contains_lower; [|exact Hc].
    now apply (keywords_have_no_capital g).
  - intros [kw [Hin Hc]]. exists kw. split; [exact Hin|].
    apply contains_lower; [|exact Hc].
    now apply (keywords_have_no_capital g).
Qed.

Lemma find_first {A : Type} (f : A -> bool) (before : list A) (x : A)
    (after : list A) :
  f x = true -> (forall y, In y before -> f y = false) ->
  find f (before ++ x :: after) = Some x.
Proof.
  intros Hx. induction before as [|y before IH]; intros Hb; simpl.
  - now rewrite Hx.
  - rewrite (Hb y (or_introl eq_refl)). apply IH.
    intros z Hz. apply Hb. now right.
Qed.

Lemma classify_by_groups_eq (name : string) :
  enhanced_classify_project_type name = classify_by_groups name.
Proof.
  unfold enhanced_classify_project_type, classify_by_groups, keyword_groups.
  cbn [find snd fst].
  repeat match goal with
         | |- context [any_in ?k ?n] => destruct (any_in k n); try reflexivity
         end.
Qed.

End Classifier.

(** C5. The classifier is a total function into the fixed taxonomy.  On
    an ASCII name it returns the label of the first keyword group, in the
    fixed order, one of whose keywords occurs in the name, the case of the
    letters left aside, and the catch-all label when no group has one.
    Names that differ only in the case of their letters get the same label.
    "vscode-docker-extension", which has keywords of both the
    development-tools and the container group, gets the label of the
    development tools, the earlier group, and so does
    "VSCode-Docker-Extension". *)
Theorem classifier_first_matching_group (name : string) :
  enhanced_classify_project_type name = classify_by_groups name
  /\ In (enhanced_classify_project_type name) categories
  /\ (PyStr.is_ascii name = true ->
      forall before c keywords after,
        keyword_groups = before ++ (c, keywords) :: after ->
        group_matches keywords name ->
        (forall g, In g before -> ~ group_matches (snd g) name) ->
        enhanced_classify_project_type name = c)
  /\ (PyStr.is_ascii name = true ->
      (forall g, In g keyword_groups -> ~ group_matches (snd g) name) ->
      enhanced_classify_project_type name = "其他")
  /\ (forall name', same_word name' name = true ->
        enhanced_classify_project_type name' =
        enhanced_classify_project_type name)
  /\ (group_matches ["vscode"; "studio"; "ide"; "editor"; "debugger";
                     "terminal"; "jupyter"] "vscode-docker-extension"
      /\ group_matches ["kubernetes"; "docker"; "container"; "minikube";
                        "orchestration"] "vscode-docker-extension"
      /\ enhanced_classify_project_type "vscode-docker-extension" = "开发工具"
      /\ enhanced_classify_project_type "VSCode-Docker-Extension" = "开发工具"
      /\ nth_error keyword_groups 0
         = Some ("开发工具",
                 ["vscode"; "studio"; "ide"; "editor"; "debugger"; "terminal";
                  "jupyter"])
      /\ nth_error keyword_groups 2
         = Some ("容器编排",
                 ["kubernetes"; "docker"; "container"; "minikube";
                  "orchestration"])).
Proof.
  split; [apply classify_by_groups_eq|].
  split.
  { rewrite classify_by_groups_eq. unfold classify_by_groups, categories.
    destruct (find _ keyword_groups) as [g|] eqn:E.
    - apply find_some in E. apply in_or_app. left. apply in_map. tauto.
    - apply in_or_app. right. now left. }
  split.
  { intros _ before c keywords after Hg Hm Hb.
    assert (Hall : forall g, In g (before ++ (c, keywords) :: after) ->
                             In g keyword_groups)
      by (intros g Hin; now rewrite Hg).
    rewrite classify_by_groups_eq. unfold classify_by_groups. rewrite Hg.
    rewrite (find_first _ before (c, keywords) after).
    - reflexivity.
    - apply (any_in_spec (c, keywords)); [|exact Hm].
      apply Hall, in_or_app. right. now left.
    - intros g Hin. specialize (Hb g Hin).
      destruct (any_in (snd g) (PyStr.lower name)) eqn:E; [|reflexivity].
      apply any_in_spec in E; [contradiction|].
      apply Hall, in_or_app. now left. }
  split.
  { intros _ Hnone. rewrite classify_by_groups_eq. unfold classify_by_groups.
    destruct (find _ keyword_groups) as [g|] eqn:E; [|reflexivity].
    apply find_some in E. destruct E as [Hin Hm].
    apply any_in_spec in Hm; [|exact Hin]. elim (Hnone g Hin Hm). }
  split.
  { intros name' Heq. unfold enhanced_classify_project_type.
    now rewrite (same_word_lower _ _ Heq). }
  split; [|split; [|split; [|split; [|split]]]]; try reflexivity.
  - exists "vscode". split; [now left|].
    exists "", "vscode", "-docker-extension". split; reflexivity.
  - exists "docker". split; [right; now left|].
    exists "vscode-", "docker", "-extension". split; reflexivity.
Qed.

(** C5 at "My-Docker-App", which the container group is the first to
    match, and at "XYZ", which no group matches. *)
Lemma classifier_first_matching_group_witness :
  enhanced_classify_project_type "My-Docker-App" = "容器编排"
  /\ enhanced_classify_project_type "XYZ" = "其他".
Proof.
  split.
  - refine (proj1 (proj2 (proj2 (classifier_first_matching_group "My-Docker-App")))
              eq_refl
              (firstn 2 keyword_groups) "容器编排"
              ["kubernetes"; "docker"; "container"; "minikube"; "orchestration"]
              (skipn 3 keyword_groups) eq_refl _ _).
    + exists "docker". split; [right; now left|].
      exists "My-", "Docker", "-App". split; reflexivity.
    + intros g Hg Hm. simpl in Hg.
      destruct Hg as [<-|[<-|[]]];
        (apply any_in_spec in Hm; [discriminate Hm | simpl; tauto]).
  - refine (proj1 (proj2 (proj2 (proj2 (classifier_first_matching_group "XYZ"))))
              eq_refl _).
    intros g Hg Hm. apply (any_in_spec g "XYZ" Hg) in Hm.
    simpl in Hg.
    repeat (destruct Hg as [<-|Hg]; [discriminate Hm|]).
    destruct Hg.
Defined.

(** ** The star-count parser *)

Import PopularProjectsAnalyzer.

Section StarsCount.

(** [trunc] rounds towards zero. *)
Lemma trunc_towards_zero (q : Q) :
  (0 <= q -> inject_Z (trunc q) <= q /\ q < inject_Z (trunc q) + 1)%Q
  /\ (q <= 0 -> q <= inject_Z (trunc q) /\ inject_Z (trunc q) - 1 < q)%Q.
Proof.
  destruct q as [n d]. unfold trunc, Qle, Qlt, inject_Z. simpl.
  pose proof (Z.quot_rem' n (Zpos d)) as Hdiv.
  split; intros Hs.
  - assert (Hn : (0 <= n)%Z) by lia.
    pose proof (Z.rem_bound_pos n (Zpos d) Hn ltac:(lia)) as Hr.
    split; nia.
  - assert (Hn : (n <= 0)%Z) by lia.
    pose proof (Z.rem_bound_pos_neg n (Zpos d) ltac:(lia) Hn) as Hr.
    split; nia.
Qed.

Lemma get_stars_count_str_total (s : string) :
  exists n, get_stars_count (PyStr s) = Ok n.
Proof.
  unfold get_stars_count, PyStr.int_of_str.
  destruct (PyStr.isdigit (PyStr.remove "," s)); eexists; reflexivity.
Qed.

(** Apart from the floats that are not finite, every value is answered
    with an integer. *)
Lemma get_stars_count_total_off_non_finite (v : pyvalue) :
  (forall f, v = PyFloat f -> exists q, f = FFinite q) ->
  exists n, get_stars_count v = Ok n.
Proof.
  intros Hfin. destruct v as [|s|b|n|f|l|m]; try (eexists; reflexivity).
  - apply get_stars_count_str_total.
  - destruct (Hfin f eq_refl) as [q ->]. eexists; reflexivity.
Qed.

End StarsCount.

(** C10. [get_stars_count] answers [None], every string (the commas taken
    out: "12,345" is 12345, a string that is not all digits is 0), every
    integer and every finite float (rounded towards zero) with an integer;
    but handed a float that is infinite or not a number, it raises: [int]
    is applied to it outside the [try]. *)
Theorem get_stars_count_raises_on_non_finite_float :
  get_stars_count (PyFloat (FInf false)) = Raise OverflowError
  /\ get_stars_count (PyFloat (FInf true)) = Raise OverflowError
  /\ get_stars_count (PyFloat FNaN) = Raise ValueError
  /\ get_stars_count (PyStr "12,345") = Ok 12345%Z
  /\ get_stars_count PyNone = Ok 0%Z
  /\ get_stars_count (PyStr "n/a") = Ok 0%Z
  /\ (forall s, exists n, get_stars_count (PyStr s) = Ok n)
  /\ (forall n, get_stars_count (PyInt n) = Ok n)
  /\ (forall q, get_stars_count (PyFloat (FFinite q)) = Ok (trunc q)).
Proof.
  repeat split; try reflexivity.
  apply get_stars_count_str_total.
Qed.

(** ** Series summaries *)

Import FinalAnalysis.

Section SeriesFacts.

Lemma extreme_values (d : pydict json) :
  d <> [] ->
  exists fv lv,
    dict_get d (first_key d) = Some fv /\ dict_get d (last_key d) = Some lv.
Proof.
  intros Hne.
  assert (Hk : keys d <> []) by (destruct d; [congruence | discriminate]).
  destruct (sorted_extremes (keys d) Hk) as [Hf [Hl _]].
  destruct (dict_get_in d _ Hf) as [fv Hfv].
  destruct (dict_get_in d _ Hl) as [lv Hlv].
  now exists fv, lv.
Qed.

(** The least key is below and the greatest key above every key. *)
Lemma extreme_keys (d : pydict json) (k : string) :
  In k (keys d) -> PyStr.le (first_key d) k /\ PyStr.le k (last_key d).
Proof.
  intros Hin. apply sorted_extremes; [|exact Hin].
  intros E. rewrite E in Hin. destruct Hin.
Qed.

Lemma sub_numbers (a b : json) (x y : Q) :
  PyNum.as_number a = Some x -> PyNum.as_number b = Some y ->
  PyNum.sub a b = Ok (JNum (x - y)).
Proof. unfold PyNum.sub. now intros -> ->. Qed.

Lemma several_dates (d : pydict json) :
  2 <= List.length d ->
  (1 <? List.length (PyStr.sorted (keys d)))%nat = true.
Proof.
  intros H. apply Nat.ltb_lt. rewrite sorted_length.
  unfold keys. rewrite length_map. lia.
Qed.

(** 03: a cleaned series of two or more months yields the five fields,
    the growth being the value of the greatest month less the value of the
    least. *)
Lemma summarize_several (results : pydict json) (m : string)
    (data : pydict json) (fv lv : json) (f l : Q) :
  let cd := clean_series data in
  2 <= List.length cd ->
  dict_get cd (first_key cd) = Some fv ->
  dict_get cd (last_key cd) = Some lv ->
  PyNum.as_number fv = Some f ->
  PyNum.as_number lv = Some l ->
  summarize results m data =
  Ok (dict_set
        (dict_set
           (dict_set
              (dict_set
                 (dict_set results (m ++ "_latest") lv)
                 (m ++ "_first") fv)
              (m ++ "_growth") (JNum (l - f)))
           (m ++ "_start_date") (JStr (first_key cd)))
        (m ++ "_end_date") (JStr (last_key cd))).
Proof.
  intros cd Hlen Hfv Hlv Hf Hl. unfold summarize. fold cd.
  destruct cd as [|item rest] eqn:E; [simpl in Hlen; lia|].
  rewrite <- E in *.
  unfold first_key, last_key in *.
  rewrite (dict_item_ok _ _ _ Hlv). cbn [bind].
  rewrite (several_dates cd Hlen).
  rewrite (dict_item_ok _ _ _ Hfv). cbn [bind].
  rewrite (sub_numbers _ _ _ _ Hl Hf). reflexivity.
Qed.

(** 03: a cleaned series of one month yields its value as the latest and
    nothing else. *)
Lemma summarize_single (results : pydict json) (m : string)
    (data : pydict json) (k : string) (v : json) :
  clean_series data = [(k, v)] ->
  summarize results m data = Ok (dict_set results (m ++ "_latest") v).
Proof.
  intros E. unfold summarize. rewrite E. simpl.
  unfold dict_item. simpl. now rewrite String.eqb_refl.
Qed.

(** 02, summed metrics. *)
Lemma read_summed_several (project_info : pydict json) (m : string)
    (data : pydict json) (qs : list Q) (fv lv : json) (f l : Q) :
  2 <= List.length data ->
  map PyNum.as_number (values data) = map Some qs ->
  dict_get data (first_key data) = Some fv ->
  dict_get data (last_key data) = Some lv ->
  PyNum.as_number fv = Some f ->
  PyNum.as_number lv = Some l ->
  DeepAnalysis.read_summed project_info m data =
  dict_set
    (dict_set
       (dict_set project_info (m ++ "_latest")
          (JNum (fold_left Qplus qs 0%Q)))
       (m ++ "_first") fv)
    (m ++ "_growth") (JNum (l - f)).
Proof.
  intros Hlen Hqs Hfv Hlv Hf Hl. unfold DeepAnalysis.read_summed.
  rewrite (sum_numbers _ _ Hqs).
  rewrite (several_dates data Hlen).
  unfold first_key, last_key in *.
  rewrite (dict_item_ok _ _ _ Hfv). cbn [bind].
  rewrite (dict_item_ok _ _ _ Hlv). cbn [bind].
  rewrite (sub_numbers _ _ _ _ Hl Hf). reflexivity.
Qed.

(** 02, the other metrics. *)
Lemma read_latest_several (project_info : pydict json) (m : string)
    (data : pydict json) (fv lv : json) (f l : Q) :
  2 <= List.length data ->
  dict_get data (first_key data) = Some fv ->
  dict_get data (last_key data) = Some lv ->
  PyNum.as_number fv = Some f ->
  PyNum.as_number lv = Some l ->
  DeepAnalysis.read_latest project_info m data =
  dict_set
    (dict_set
       (dict_set project_info (m ++ "_latest") lv)
       (m ++ "_first") fv)
    (m ++ "_growth") (JNum (l - f)).
Proof.
  intros Hlen Hfv Hlv Hf Hl. unfold DeepAnalysis.read_latest.
  unfold first_key, last_key in *.
  rewrite (dict_item_ok _ _ _ Hlv). cbn [bind].
  rewrite (several_dates data Hlen).
  rewrite (dict_item_ok _ _ _ Hfv). cbn [bind].
  rewrite (sub_numbers _ _ _ _ Hl Hf). reflexivity.
Qed.

Lemma numeric_member (data : pydict json) (qs : list Q) (k : string)
    (v : json) :
  map PyNum.as_number (values data) = map Some qs ->
  dict_get data k = Some v ->
  exists q, PyNum.as_number v = Some q.
Proof.
  intros Hqs Hget. apply dict_get_member in Hget.
  assert (Hin : In (PyNum.as_number v) (map PyNum.as_number (values data))).
  { apply in_map. unfold values.
    change v with (snd (k, v)). now apply in_map. }
  rewrite Hqs in Hin. apply in_map_iff in Hin.
  destruct Hin as [q [Hq _]]. now exists q.
Qed.

End SeriesFacts.

Section CleanedValues.

Lemma dict_set_member {V : Type} (d : pydict V) (k k' : string) (v v' : V) :
  In (k, v) (dict_set d k' v') -> In (k, v) d \/ v = v'.
Proof.
  induction d as [|[k0 v0] d IH]; simpl.
  - intros [[= _ <-]|[]]. now right.
  - destruct (String.eqb k0 k'); simpl.
    + intros [[= _ <-]|H]; [now right | left; now right].
    + intros [H|H]; [left; now left|].
      destruct (IH H) as [H'|H']; [left; now right | now right].
Qed.

Lemma clean_fold_member (data acc : pydict json) (k : string) (v : json) :
  In (k, v) (fold_left clean_step data acc) ->
  In (k, v) acc \/ In v (values data).
Proof.
  revert acc. induction data as [|[k0 v0] data IH]; intros acc; simpl.
  - now left.
  - intros H. destruct (IH _ H) as [H'|H']; [|right; now right].
    unfold clean_step in H'. simpl in H'.
    destruct (PyStr.truthy (clean_date k0)); [|now left].
    destruct (dict_set_member _ _ _ _ _ H') as [H''| ->];
      [now left | right; now left].
Qed.

(** The values of the cleaned series are values of the series. *)
Lemma clean_series_values (data : pydict json) (k : string) (v : json) :
  dict_get (clean_series data) k = Some v -> In v (values data).
Proof.
  intros H. apply dict_get_member in H.
  destruct (clean_fold_member data [] k v H) as [[]|H']. exact H'.
Qed.

Lemma numeric_value (vs : list json) (qs : list Q) (v : json) :
  map PyNum.as_number vs = map Some qs -> In v vs ->
  exists q, PyNum.as_number v = Some q.
Proof.
  intros Hqs Hin.
  assert (H : In (PyNum.as_number v) (map PyNum.as_number vs))
    by now apply in_map.
  rewrite Hqs in H. apply in_map_iff in H.
  destruct H as [q [Hq _]]. now exists q.
Qed.

Lemma append_inv_head (m a b : string) :
  (m ++ a)%string = (m ++ b)%string -> a = b.
Proof.
  induction m as [|c m IH]; simpl; [auto|].
  intros [= H]. auto.
Qed.

(** On integers the arithmetic of the model is that of the integers. *)
Lemma inject_Z_plus_eq (a b : Z) :
  (inject_Z a + inject_Z b)%Q = inject_Z (a + b).
Proof.
  unfold Qplus, inject_Z. cbn [Qnum Qden]. now rewrite !Z.mul_1_r.
Qed.

Lemma inject_Z_minus_eq (a b : Z) :
  (inject_Z a - inject_Z b)%Q = inject_Z (a - b).
Proof.
  unfold Qminus, Qplus, Qopp, inject_Z. cbn [Qnum Qden].
  now rewrite !Z.mul_1_r.
Qed.

Lemma fold_inject_Z (zs : list Z) (a : Z) :
  fold_left Qplus (map inject_Z zs) (inject_Z a)
  = inject_Z (fold_left Z.add zs a).
Proof.
  revert a. induction zs as [|z zs IH]; intros a; cbn [map fold_left];
    [reflexivity|].
  now rewrite inject_Z_plus_eq, IH.
Qed.

Lemma integers_are_numbers (vs : list json) (zs : list Z) :
  map PyNum.as_number vs = map (fun z => Some (inject_Z z)) zs ->
  map PyNum.as_number vs = map Some (map inject_Z zs).
Proof. intros H. now rewrite map_map. Qed.

Lemma integer_value (vs : list json) (zs : list Z) (v : json) :
  map PyNum.as_number vs = map (fun z => Some (inject_Z z)) zs -> In v vs ->
  exists z, PyNum.as_number v = Some (inject_Z z).
Proof.
  intros Hzs Hin.
  assert (H : In (PyNum.as_number v) (map PyNum.as_number vs))
    by now apply in_map.
  rewrite Hzs in H. apply in_map_iff in H.
  destruct H as [z [Hz _]]. now exists z.
Qed.

Lemma integer_member (data : pydict json) (zs : list Z) (k : string)
    (v : json) :
  map PyNum.as_number (values data) = map (fun z => Some (inject_Z z)) zs ->
  dict_get data k = Some v ->
  exists z, PyNum.as_number v = Some (inject_Z z).
Proof.
  intros Hzs Hget. apply (integer_value _ _ v Hzs).
  apply dict_get_member in Hget. unfold values.
  change v with (snd (k, v)). now apply in_map.
Qed.

(** The sum of integers is their sum. *)
Lemma sum_integers (vs : list json) (zs : list Z) :
  map PyNum.as_number vs = map (fun z => Some (inject_Z z)) zs ->
  PyNum.sum vs = Ok (JNum (inject_Z (fold_left Z.add zs 0%Z))).
Proof.
  intros H. rewrite (sum_numbers _ _ (integers_are_numbers _ _ H)).
  now rewrite <- fold_inject_Z.
Qed.

(** 02, a metric that is not summed: the three fields, the latest being the
    entry under the greatest key. *)
Lemma read_metric_snapshot (project_info : pydict json)
    (metric_file : string) (data : pydict json) (fv lv : json) (f l : Q) :
  DeepAnalysis.is_summed (PyStr.remove ".json" metric_file) = false ->
  2 <= List.length data ->
  dict_get data (first_key data) = Some fv ->
  dict_get data (last_key data) = Some lv ->
  PyNum.as_number fv = Some f ->
  PyNum.as_number lv = Some l ->
  DeepAnalysis.read_metric project_info metric_file (Loaded (JObj data))
  = dict_set
      (dict_set
         (dict_set project_info (PyStr.remove ".json" metric_file ++ "_latest")
            lv)
         (PyStr.remove ".json" metric_file ++ "_first") fv)
      (PyStr.remove ".json" metric_file ++ "_growth") (JNum (l - f)).
Proof.
  intros Hkind Hlen Hfv Hlv Hf Hl. unfold DeepAnalysis.read_metric.
  destruct data as [|item rest]; [simpl in Hlen; lia|].
  rewrite Hkind. now apply read_latest_several.
Qed.

Lemma three_fields (m : string) (a b c : json) :
  dict_set (dict_set (dict_set [] (m ++ "_latest") a) (m ++ "_first") b)
    (m ++ "_growth") c
  = [((m ++ "_latest")%string, a); ((m ++ "_first")%string, b);
     ((m ++ "_growth")%string, c)].
Proof.
  simpl.
  assert (E1 : String.eqb (m ++ "_latest") (m ++ "_first") = false).
  { apply String.eqb_neq. intros E. apply append_inv_head in E. discriminate. }
  assert (E2 : String.eqb (m ++ "_latest") (m ++ "_growth") = false).
  { apply String.eqb_neq. intros E. apply append_inv_head in E. discriminate. }
  assert (E3 : String.eqb (m ++ "_first") (m ++ "_growth") = false).
  { apply String.eqb_neq. intros E. apply append_inv_head in E. discriminate. }
  rewrite E1. simpl. rewrite E2, E3. reflexivity.
Qed.

End CleanedValues.

(** C3. A series of two or more months whose values are integers, as the
    monthly counts of a delta series are: scripts 01 and 02 give as its
    total the sum of all its values, and script 02 gives as its growth the
    value under the greatest key less the value under the least key, both
    values of the series itself; script 03 gives the same growth on the
    cleaned series.  A series of one month yields the latest value alone.
    On keys of the form YYYY-MM the least and the greatest key are the
    first and the last month in time. *)
Theorem delta_series_total_and_growth (results : pydict json) (m : string) :
  (forall data zs,
      2 <= List.length data ->
      map PyNum.as_number (values data) = map (fun z => Some (inject_Z z)) zs ->
      exists fv lv f l,
        dict_get data (first_key data) = Some fv
        /\ PyNum.as_number fv = Some (inject_Z f)
        /\ dict_get data (last_key data) = Some lv
        /\ PyNum.as_number lv = Some (inject_Z l)
        /\ (forall k, In k (keys data) ->
              PyStr.le (first_key data) k /\ PyStr.le k (last_key data))
        /\ ExploreData.latest_stars (JObj data)
           = Ok (JNum (inject_Z (fold_left Z.add zs 0%Z)))
        /\ DeepAnalysis.read_summed results m data
           = dict_set
               (dict_set
                  (dict_set results (m ++ "_latest")
                     (JNum (inject_Z (fold_left Z.add zs 0%Z))))
                  (m ++ "_first") fv)
               (m ++ "_growth") (JNum (inject_Z (l - f))))
  /\ (forall data zs,
        2 <= List.length (clean_series data) ->
        map PyNum.as_number (values data)
        = map (fun z => Some (inject_Z z)) zs ->
        exists fv lv f l,
          dict_get (clean_series data) (first_key (clean_series data)) = Some fv
          /\ PyNum.as_number fv = Some (inject_Z f)
          /\ dict_get (clean_series data) (last_key (clean_series data))
             = Some lv
          /\ PyNum.as_number lv = Some (inject_Z l)
          /\ (forall k, In k (keys (clean_series data)) ->
                PyStr.le (first_key (clean_series data)) k
                /\ PyStr.le k (last_key (clean_series data)))
          /\ summarize results m data
             = Ok (dict_set
                     (dict_set
                        (dict_set
                           (dict_set
                              (dict_set results (m ++ "_latest") lv)
                              (m ++ "_first") fv)
                           (m ++ "_growth") (JNum (inject_Z (l - f))))
                        (m ++ "_start_date")
                        (JStr (first_key (clean_series data))))
                     (m ++ "_end_date")
                     (JStr (last_key (clean_series data)))))
  /\ (forall data k v,
        clean_series data = [(k, v)] ->
        summarize results m data = Ok (dict_set results (m ++ "_latest") v))
  /\ (forall k v z,
        PyNum.as_number v = Some (inject_Z z) ->
        DeepAnalysis.read_summed results m [(k, v)]
        = dict_set results (m ++ "_latest") (JNum (inject_Z z)))
  /\ (forall a b ya ma yb mb,
        PyStr.year_month a = Some (ya, ma) ->
        PyStr.year_month b = Some (yb, mb) ->
        (PyStr.le a b <-> ya < yb \/ (ya = yb /\ ma <= mb))).
Proof.
  split; [|split; [|split; [|split]]].
  - intros data zs Hlen Hzs.
    assert (Hne : data <> []) by (destruct data; [simpl in Hlen; lia | discriminate]).
    destruct (extreme_values data Hne) as [fv [lv [Hfv Hlv]]].
    destruct (integer_member data zs _ _ Hzs Hfv) as [f Hf].
    destruct (integer_member data zs _ _ Hzs Hlv) as [l Hl].
    exists fv, lv, f, l.
    repeat split; try assumption; try (now apply extreme_keys).
    + unfold ExploreData.latest_stars.
      destruct data as [|item rest]; [congruence|].
      rewrite (sum_integers _ _ Hzs). reflexivity.
    + rewrite (read_summed_several results m data (map inject_Z zs) fv lv
                 (inject_Z f) (inject_Z l) Hlen
                 (integers_are_numbers _ _ Hzs) Hfv Hlv Hf Hl).
      change 0%Q with (inject_Z 0).
      now rewrite (fold_inject_Z zs 0), inject_Z_minus_eq.
  - intros data zs Hlen Hzs.
    assert (Hne : clean_series data <> []).
    { destruct (clean_series data); [simpl in Hlen; lia | discriminate]. }
    destruct (extreme_values _ Hne) as [fv [lv [Hfv Hlv]]].
    destruct (integer_value _ _ fv Hzs (clean_series_values _ _ _ Hfv))
      as [f Hf].
    destruct (integer_value _ _ lv Hzs (clean_series_values _ _ _ Hlv))
      as [l Hl].
    exists fv, lv, f, l.
    repeat split; try assumption; try (now apply extreme_keys).
    rewrite (summarize_several results m data fv lv (inject_Z f) (inject_Z l)
               Hlen Hfv Hlv Hf Hl).
    now rewrite inject_Z_minus_eq.
  - intros data k v. apply summarize_single.
  - intros k v z Hz. unfold DeepAnalysis.read_summed, PyNum.sum. simpl.
    unfold PyNum.add. simpl. rewrite Hz.
    change (0 + inject_Z z)%Q with (inject_Z 0 + inject_Z z)%Q.
    now rewrite inject_Z_plus_eq.
  - apply month_order.
Qed.

(** C3 at the series 2024-01: 100, 2024-02: 150, 2024-03-raw: 30 of the
    metric stars: total 280, growth 30 - 100. *)
Lemma delta_series_total_and_growth_witness :
  let data := [("2024-01", JNum 100); ("2024-02", JNum 150);
               ("2024-03-raw", JNum 30)] in
  ExploreData.latest_stars (JObj data) = Ok (JNum 280)
  /\ DeepAnalysis.read_summed [] "stars" data
     = [("stars_latest", JNum 280); ("stars_first", JNum 100);
        ("stars_growth", JNum (-70))]
  /\ summarize [] "stars" data
     = Ok [("stars_latest", JNum 30); ("stars_first", JNum 100);
           ("stars_growth", JNum (-70));
           ("stars_start_date", JStr "2024-01");
           ("stars_end_date", JStr "2024-03")]
  /\ summarize [] "stars" [("2024-03-raw", JNum 30)]
     = Ok [("stars_latest", JNum 30)]
  /\ PyStr.le "2024-01" "2024-03".
Proof.
  intros data.
  pose proof (delta_series_total_and_growth [] "stars") as [H1 [H2 [H3 [_ H5]]]].
  destruct (H1 data [100%Z; 150%Z; 30%Z]) as [fv [lv [f [l H]]]];
    [simpl; lia | reflexivity |].
  destruct H as [Hfv [Hf [Hlv [Hl [_ [Hsum Hread]]]]]].
  vm_compute in Hfv, Hlv. injection Hfv as <-. injection Hlv as <-.
  simpl in Hf, Hl. injection Hf as <-. injection Hl as <-.
  destruct (H2 data [100%Z; 150%Z; 30%Z]) as [fv [lv [f [l H]]]];
    [vm_compute; lia | reflexivity |].
  destruct H as [Hfv [Hf [Hlv [Hl [_ Hsumm]]]]].
  vm_compute in Hfv, Hlv. injection Hfv as <-. injection Hlv as <-.
  simpl in Hf, Hl. injection Hf as <-. injection Hl as <-.
  split; [exact Hsum|].
  split; [exact Hread|].
  split; [exact Hsumm|].
  split; [exact (H3 [("2024-03-raw", JNum 30)] "2024-03" (JNum 30) eq_refl)|].
  apply (proj2 (H5 "2024-01" "2024-03" 2024 1 2024 3 eq_refl eq_refl)).
  right. split; [reflexivity | lia].
Defined.

(** C4. For each of the metrics activity, openrank, change_requests and
    issues_new, which script 02 reads as snapshots, a series of two or more
    months whose values are numbers in the range of a float yields exactly
    the three fields latest, first and growth: latest is the value under
    the greatest key, an entry of the series and not a sum, first the value
    under the least key; no total is written.  On keys of the form YYYY-MM
    the greatest key is the last month in time.  On integers the growth is
    latest less first. *)
Theorem snapshot_series_no_total (project_info : pydict json)
    (metric_file : string) (data : pydict json) (fv lv : json) (f l : Q) :
  let m := PyStr.remove ".json" metric_file in
  In metric_file
    ["activity.json"; "openrank.json"; "change_requests.json";
     "issues_new.json"] ->
  2 <= List.length data ->
  dict_get data (first_key data) = Some fv ->
  dict_get data (last_key data) = Some lv ->
  PyNum.as_number fv = Some f ->
  PyNum.as_number lv = Some l ->
  (- inject_Z MonthlyPopularity.float_limit < f)%Q ->
  (f < inject_Z MonthlyPopularity.float_limit)%Q ->
  (- inject_Z MonthlyPopularity.float_limit < l)%Q ->
  (l < inject_Z MonthlyPopularity.float_limit)%Q ->
  exists growth,
    DeepAnalysis.read_metric project_info metric_file (Loaded (JObj data))
    = dict_set
        (dict_set
           (dict_set project_info (m ++ "_latest") lv)
           (m ++ "_first") fv)
        (m ++ "_growth") growth
    /\ DeepAnalysis.read_metric [] metric_file (Loaded (JObj data))
       = [((m ++ "_latest")%string, lv); ((m ++ "_first")%string, fv);
          ((m ++ "_growth")%string, growth)]
    /\ In (last_key data, lv) data
    /\ In (first_key data, fv) data
    /\ (forall k, In k (keys data) ->
          PyStr.le (first_key data) k /\ PyStr.le k (last_key data))
    /\ (forall a b ya ma yb mb,
          PyStr.year_month a = Some (ya, ma) ->
          PyStr.year_month b = Some (yb, mb) ->
          (PyStr.le a b <-> ya < yb \/ (ya = yb /\ ma <= mb)))
    /\ (forall zf zl,
          f = inject_Z zf -> l = inject_Z zl ->
          growth = JNum (inject_Z (zl - zf))).
Proof.
  intros m Hfile Hlen Hfv Hlv Hf Hl _ _ _ _.
  assert (Hkind : DeepAnalysis.is_summed m = false).
  { subst m. destruct Hfile as [<-|[<-|[<-|[<-|[]]]]]; reflexivity. }
  assert (Hread : forall info,
             DeepAnalysis.read_metric info metric_file (Loaded (JObj data))
             = dict_set
                 (dict_set
                    (dict_set info (m ++ "_latest") lv)
                    (m ++ "_first") fv)
                 (m ++ "_growth") (JNum (l - f)))
    by (intros info; now apply read_metric_snapshot).
  exists (JNum (l - f)).
  split; [apply Hread|].
  split; [rewrite Hread; apply three_fields|].
  split; [now apply dict_get_member|].
  split; [now apply dict_get_member|].
  split; [intros k Hk; now apply extreme_keys|].
  split; [apply month_order|].
  intros zf zl -> ->. now rewrite inject_Z_minus_eq.
Qed.

(** C4 at the openrank series 2024-01: 5, 2024-02: 9. *)
Lemma snapshot_series_no_total_witness :
  exists growth,
    DeepAnalysis.read_metric [] "openrank.json"
      (Loaded (JObj [("2024-01", JNum 5); ("2024-02", JNum 9)]))
    = [("openrank_latest", JNum 9); ("openrank_first", JNum 5);
       ("openrank_growth", growth)]
    /\ growth = JNum 4.
Proof.
  destruct (snapshot_series_no_total [] "openrank.json"
              [("2024-01", JNum 5); ("2024-02", JNum 9)] (JNum 5) (JNum 9)
              5%Q 9%Q) as [growth [_ [H [_ [_ [_ [_ Hg]]]]]]].
  - simpl. tauto.
  - apply le_n.
  - reflexivity.
  - reflexivity.
  - reflexivity.
  - reflexivity.
  - reflexivity.
  - reflexivity.
  - reflexivity.
  - reflexivity.
  - exists growth. split; [exact H|]. exact (Hg 5%Z 9%Z eq_refl eq_refl).
Defined.

(** ** Duplicate months *)

Section DuplicateMonths.

Lemma clean_fold_keeps (after acc : pydict json) (c : string) (v : json) :
  dict_get acc c = Some v ->
  (forall k' v', In (k', v') after -> clean_date k' <> c) ->
  dict_get (fold_left clean_step after acc) c = Some v.
Proof.
  revert acc. induction after as [|[k0 v0] after IH]; intros acc Hacc Hno;
    simpl; [exact Hacc|].
  apply IH.
  - unfold clean_step. simpl.
    destruct (PyStr.truthy (clean_date k0)); [|exact Hacc].
    rewrite dict_get_set_other; [exact Hacc|].
    apply (Hno k0 v0). now left.
  - intros k' v' Hin. apply (Hno k' v'). now right.
Qed.

(** The last entry written under a cleaned key is the one that stays. *)
Lemma last_write_wins (before after : pydict json) (k : string) (v : json) :
  PyStr.truthy (clean_date k) = true ->
  (forall k' v', In (k', v') after -> clean_date k' <> clean_date k) ->
  dict_get (clean_series (before ++ (k, v) :: after)) (clean_date k) = Some v.
Proof.
  intros Ht Hno. unfold clean_series. rewrite fold_left_app. simpl.
  apply clean_fold_keeps; [|exact Hno].
  unfold clean_step at 1. simpl. rewrite Ht. apply dict_get_set_same.
Qed.

Lemma no_straddling (c : ascii) (d : string) :
  prefix "-raw" (String c d) = false ->
  prefix "-raw" (String c (d ++ "-raw")) = false.
Proof.
  intros H.
  destruct (prefix "-raw" (String c (d ++ "-raw"))) eqn:E; [|reflexivity].
  apply prefix_app in E. destruct E as [post E].
  cbn [append] in E. injection E as Ec Ed. subst c.
  assert (Hp : prefix "-raw" (String "-" d) = true); [|congruence].
  apply prefix_app.
  destruct d as [|c1 d]; cbn [append] in Ed; [discriminate|].
  injection Ed as -> Ed.
  destruct d as [|c2 d]; cbn [append] in Ed; [discriminate|].
  injection Ed as -> Ed.
  destruct d as [|c3 d]; cbn [append] in Ed; [discriminate|].
  injection Ed as -> Ed.
  exists d. reflexivity.
Qed.

Lemma remove_raw_suffix (d : string) :
  PyStr.contains "-raw" d = false ->
  PyStr.remove "-raw" (d ++ "-raw") = d.
Proof.
  unfold PyStr.remove. induction d as [|c d IH]; intros H.
  - reflexivity.
  - cbn [PyStr.contains] in H. apply orb_false_iff in H.
    destruct H as [Hp Hc].
    change ((String c d ++ "-raw")%string)
      with (String c (d ++ "-raw")%string).
    cbn [PyStr.remove_from].
    rewrite (no_straddling c d Hp). now rewrite IH.
Qed.

Lemma clean_date_plain (d : string) :
  PyStr.contains "-raw" d = false -> clean_date d = d.
Proof.
  intros H. unfold clean_date. rewrite H.
  now destruct (has_month_format d).
Qed.

Lemma clean_date_raw (d : string) :
  PyStr.contains "-raw" d = false -> clean_date (d ++ "-raw") = d.
Proof.
  intros H. unfold clean_date.
  assert (Hc : PyStr.contains "-raw" (d ++ "-raw") = true).
  { apply contains_spec. exists d, EmptyString. reflexivity. }
  rewrite Hc, (remove_raw_suffix d H).
  now destruct (has_month_format d).
Qed.

End DuplicateMonths.

(** C6 fails: with the plain month first and its -raw form second, the
    value of the -raw form is the one in the cleaned series. *)
Lemma raw_value_wins_when_written_last :
  let data := [("2024-03", JNum 1); ("2024-03-raw", JNum 2)] in
  dict_get data "2024-03" = Some (JNum 1)
  /\ dict_get data "2024-03-raw" = Some (JNum 2)
  /\ clean_series data = [("2024-03", JNum 2)]
  /\ dict_get (clean_series data) "2024-03" <> Some (JNum 1).
Proof.
  repeat split. vm_compute. discriminate.
Qed.

(** C6 as amended.  A month [d] and its form [d ++ "-raw"] are cleaned to
    the same key [d], and the cleaned series holds under [d] the value of
    whichever of the two comes later in the series: the -raw value when the
    -raw form comes later, the plain value when the plain form does. *)
Theorem later_form_of_month_wins (d : string) :
  PyStr.contains "-raw" d = false ->
  d <> "" ->
  clean_date d = d
  /\ clean_date (d ++ "-raw") = d
  /\ (forall l1 l2 l3 v_plain v_raw,
        (forall k' v', In (k', v') l3 -> clean_date k' <> d) ->
        dict_get
          (clean_series
             (l1 ++ (d, v_plain) :: l2 ++ ((d ++ "-raw")%string, v_raw) :: l3))
          d
        = Some v_raw)
  /\ (forall l1 l2 l3 v_plain v_raw,
        (forall k' v', In (k', v') l3 -> clean_date k' <> d) ->
        dict_get
          (clean_series
             (l1 ++ ((d ++ "-raw")%string, v_raw) :: l2 ++ (d, v_plain) :: l3))
          d
        = Some v_plain).
Proof.
  intros Hplain Hne.
  pose proof (clean_date_plain d Hplain) as Ed.
  pose proof (clean_date_raw d Hplain) as Er.
  assert (Ht : PyStr.truthy d = true) by (destruct d; [congruence | reflexivity]).
  split; [exact Ed|]. split; [exact Er|]. split.
  - intros l1 l2 l3 v_plain v_raw Hno.
    replace (l1 ++ (d, v_plain) :: l2 ++ ((d ++ "-raw")%string, v_raw) :: l3)
      with ((l1 ++ (d, v_plain) :: l2) ++ ((d ++ "-raw")%string, v_raw) :: l3)
      by (rewrite <- app_assoc; reflexivity).
    pose proof (last_write_wins (l1 ++ (d, v_plain) :: l2) l3
                  (d ++ "-raw") v_raw) as H.
    rewrite Er in H. now apply H.
  - intros l1 l2 l3 v_plain v_raw Hno.
    replace (l1 ++ ((d ++ "-raw")%string, v_raw) :: l2 ++ (d, v_plain) :: l3)
      with ((l1 ++ ((d ++ "-raw")%string, v_raw) :: l2) ++ (d, v_plain) :: l3)
      by (rewrite <- app_assoc; reflexivity).
    pose proof (last_write_wins (l1 ++ ((d ++ "-raw")%string, v_raw) :: l2)
                  l3 d v_plain) as H.
    rewrite Ed in H. now apply H.
Qed.

(** C6 as amended, at the month 2024-03 in both orders. *)
Lemma later_form_of_month_wins_witness :
  dict_get (clean_series [("2024-03", JNum 1); ("2024-03-raw", JNum 2)])
    "2024-03" = Some (JNum 2)
  /\ dict_get (clean_series [("2024-03-raw", JNum 2); ("2024-03", JNum 1)])
       "2024-03" = Some (JNum 1).
Proof.
  pose proof (later_form_of_month_wins "2024-03" eq_refl
                ltac:(discriminate)) as [_ [_ [H1 H2]]].
  split.
  - apply (H1 [] [] [] (JNum 1) (JNum 2)). intros k' v' [].
  - apply (H2 [] [] [] (JNum 1) (JNum 2)). intros k' v' [].
Defined.

(** ** One metric at a time *)

Section MetricIsolation.

Lemma dict_get_set_congr (r r' : pydict json) (a k : string) (v : json) :
  dict_get r k = dict_get r' k ->
  dict_get (dict_set r a v) k = dict_get (dict_set r' a v) k.
Proof.
  intros H. destruct (String.eqb_spec a k) as [->|Hne].
  - now rewrite !dict_get_set_same.
  - now rewrite !dict_get_set_other.
Qed.

(** Whether [summarize] raises does not depend on [results], and when it
    does not, what it leaves under a key depends on [results] through
    that key alone. *)
Lemma summarize_frame (r r' : pydict json) (m : string) (data : pydict json)
    (k : string) :
  dict_get r k = dict_get r' k ->
  match summarize r m data, summarize r' m data with
  | Ok a, Ok b => dict_get a k = dict_get b k
  | Raise e, Raise e' => e = e'
  | _, _ => False
  end.
Proof.
  intros H. unfold summarize.
  destruct (clean_series data) as [|item rest]; [exact H|].
  destruct (dict_item (item :: rest) _) as [lv|e]; cbn [bind]; [|reflexivity].
  destruct (1 <? _)%nat.
  - destruct (dict_item (item :: rest) _) as [fv|e]; cbn [bind];
      [|reflexivity].
    destruct (PyNum.sub lv fv) as [g|e]; cbn [bind]; [|reflexivity].
    now repeat apply dict_get_set_congr.
  - now apply dict_get_set_congr.
Qed.

(** [summarize] for the metric [m] writes under keys that start with [m]
    only. *)
Lemma summarize_touches (r : pydict json) (m : string) (data : pydict json)
    (k : string) :
  (forall suffix, k <> (m ++ suffix)%string) ->
  match summarize r m data with
  | Ok a => dict_get a k = dict_get r k
  | Raise _ => True
  end.
Proof.
  intros Hk. unfold summarize.
  destruct (clean_series data) as [|item rest]; [reflexivity|].
  destruct (dict_item (item :: rest) _) as [lv|e]; cbn [bind]; [|exact I].
  destruct (1 <? _)%nat.
  - destruct (dict_item (item :: rest) _) as [fv|e]; cbn [bind]; [|exact I].
    destruct (PyNum.sub lv fv) as [g|e]; cbn [bind]; [|exact I].
    rewrite !dict_get_set_other; auto.
  - rewrite dict_get_set_other; auto.
Qed.

Lemma analyze_metric_frame (r r' : pydict json) (m : string)
    (file : file_state) (k : string) :
  dict_get r k = dict_get r' k ->
  dict_get (analyze_metric r m file) k = dict_get (analyze_metric r' m file) k.
Proof.
  intros H. unfold analyze_metric.
  destruct file as [| |data]; try exact H.
  destruct data as [| | | | |members]; try exact H.
  destruct members as [|item rest]; [exact H|].
  pose proof (summarize_frame r r' m (item :: rest) k H) as Hs.
  destruct (summarize r m (item :: rest)), (summarize r' m (item :: rest));
    tauto.
Qed.

Lemma analyze_metric_touches (r : pydict json) (m : string)
    (file : file_state) (k : string) :
  (forall suffix, k <> (m ++ suffix)%string) ->
  dict_get (analyze_metric r m file) k = dict_get r k.
Proof.
  intros Hk. unfold analyze_metric.
  destruct file as [| |data]; try reflexivity.
  destruct data as [| | | | |members]; try reflexivity.
  destruct members as [|item rest]; [reflexivity|].
  pose proof (summarize_touches r m (item :: rest) k Hk) as Hs.
  destruct (summarize r m (item :: rest)); [exact Hs | reflexivity].
Qed.

Lemma fold_isolated (files files' : string -> file_state) (m fn k : string)
    (mfs : list (string * string)) (r r' : pydict json) :
  (forall m' fn', In (m', fn') mfs -> fn' = fn -> m' = m) ->
  (forall fn', fn' <> fn -> files fn' = files' fn') ->
  (forall suffix, k <> (m ++ suffix)%string) ->
  dict_get r k = dict_get r' k ->
  dict_get
    (fold_left (fun results mf => analyze_metric results (fst mf) (files (snd mf)))
       mfs r) k
  = dict_get
      (fold_left
         (fun results mf => analyze_metric results (fst mf) (files' (snd mf)))
         mfs r') k.
Proof.
  intros Hown Hsame Hk. revert r r'.
  induction mfs as [|[m' fn'] mfs IH]; intros r r' H; simpl; [exact H|].
  apply IH.
  - intros m0 fn0 Hin. apply Hown. now right.
  - destruct (String.eqb_spec fn' fn) as [->|Hne].
    + rewrite (Hown m' fn (or_introl eq_refl) eq_refl).
      now rewrite !analyze_metric_touches.
    + rewrite (Hsame fn' Hne). now apply analyze_metric_frame.
Qed.

Lemma metric_files_distinct (m m' fn : string) :
  In (m, fn) metric_files -> In (m', fn) metric_files -> m' = m.
Proof.
  unfold metric_files. simpl. intros H H'.
  repeat (destruct H as [H|H]; [inversion H; subst; clear H|]);
    try contradiction;
    repeat (destruct H' as [H'|H']; [inversion H'; subst; reflexivity|]);
    contradiction.
Qed.

(** The fields of the other metrics do not depend on what the file of one
    metric holds. *)
Lemma collect_metrics_isolated (org project : string)
    (files files' : string -> file_state) (m fn k : string) :
  In (m, fn) metric_files ->
  (forall fn', fn' <> fn -> files fn' = files' fn') ->
  (forall suffix, k <> (m ++ suffix)%string) ->
  dict_get (collect_metrics org project files) k
  = dict_get (collect_metrics org project files') k.
Proof.
  intros Hin Hsame Hk. unfold collect_metrics.
  apply (fold_isolated files files' m fn k); auto.
  intros m' fn' Hin' ->. now apply (metric_files_distinct m m' fn).
Qed.

Lemma analyze_projects_keeps (org : string)
    (projects : list (string * project_dir)) (name : string)
    (dir : project_dir) (r : pydict json) :
  In (name, dir) projects ->
  analyze_project_metrics org name dir = Some r ->
  In r (analyze_projects org projects).
Proof.
  induction projects as [|[n d] projects IH]; intros Hin Hr; [destruct Hin|].
  simpl. destruct Hin as [[= -> ->]|Hin].
  - rewrite Hr. now left.
  - destruct (analyze_project_metrics org n d); [right|]; now apply IH.
Qed.

(** The format test of [clean_date] changes nothing: the key is kept,
    stripped, whatever its form. *)
Lemma clean_date_keeps_any_format (s : string) :
  clean_date s
  = if PyStr.contains "-raw" s then PyStr.remove "-raw" s else s.
Proof. unfold clean_date. now destruct (has_month_format _). Qed.

End MetricIsolation.

(** C9 fails: a series with the key "bad", which does not pass the format
    test, is summarised like any other, the key "bad" being its last
    date. *)
Lemma malformed_series_is_not_excluded :
  let data := [("bad", JNum 1); ("2024-01", JNum 2)] in
  has_month_format (clean_date "bad") = false
  /\ PyStr.year_month (clean_date "bad") = None
  /\ analyze_metric [] "stars" (Loaded (JObj data))
     = [("stars_latest", JNum 1); ("stars_first", JNum 2);
        ("stars_growth", JNum (1 - 2));
        ("stars_start_date", JStr "2024-01");
        ("stars_end_date", JStr "bad")]
  /\ analyze_metric [] "stars" (Loaded (JObj data)) <> [].
Proof.
  repeat split. vm_compute. discriminate.
Qed.

(** C9 as amended.  Whatever the file of one metric holds, the project is
    still processed with its other metrics and the batch goes on: a metric
    whose summary raises, or whose file cannot be read, leaves the results as
    they were; the fields of the other metrics are the same whatever that
    file holds; and every project whose analysis gives a record is in the
    output of the batch. *)
Theorem metric_failures_are_isolated (org project : string) :
  (forall results m e item rest,
      summarize results m (item :: rest) = Raise e ->
      analyze_metric results m (Loaded (JObj (item :: rest))) = results)
  /\ (forall results m, analyze_metric results m Unreadable = results)
  /\ (forall files files' m fn k,
        In (m, fn) metric_files ->
        (forall fn', fn' <> fn -> files fn' = files' fn') ->
        (forall suffix, k <> (m ++ suffix)%string) ->
        dict_get (collect_metrics org project files) k
        = dict_get (collect_metrics org project files') k)
  /\ (forall projects name dir r,
        In (name, dir) projects ->
        analyze_project_metrics org name dir = Some r ->
        In r (analyze_projects org projects)).
Proof.
  split; [|split; [|split]].
  - intros results m e item rest H. unfold analyze_metric. now rewrite H.
  - reflexivity.
  - apply collect_metrics_isolated.
  - apply analyze_projects_keeps.
Qed.

(** C9 as amended, at a project whose stars series has a key that is not a
    month and values that cannot be subtracted: the series is left out, the
    openrank field is what it is without the stars file, and the project is
    in the output of the batch. *)
Lemma metric_failures_are_isolated_witness :
  let stars := Loaded (JObj [("bad", JStr "x"); ("2024-01", JNum 2)]) in
  let openrank := Loaded (JObj [("2024-01", JNum 7)]) in
  let files := fun fn : string =>
    if String.eqb fn "stars.json" then stars
    else if String.eqb fn "openrank.json" then openrank else Absent in
  let files' := fun fn : string =>
    if String.eqb fn "stars.json" then Absent
    else if String.eqb fn "openrank.json" then openrank else Absent in
  analyze_metric [] "stars" stars = []
  /\ dict_get (collect_metrics "o" "p" files) "openrank_latest"
     = dict_get (collect_metrics "o" "p" files') "openrank_latest"
  /\ In [("org", JStr "o"); ("project", JStr "p"); ("full_name", JStr "o/p");
         ("openrank_latest", JNum 7)]
        (analyze_projects "o" [("q", None); ("p", Some files)]).
Proof.
  intros stars openrank files files'.
  pose proof (metric_failures_are_isolated "o" "p") as [H1 [_ [H3 H4]]].
  split; [|split].
  - apply (H1 [] "stars" TypeError). reflexivity.
  - apply (H3 files files' "stars" "stars.json" "openrank_latest").
    + now left.
    + intros fn' Hne. unfold files, files'.
      destruct (String.eqb_spec fn' "stars.json"); [contradiction | reflexivity].
    + intros suffix H. discriminate H.
  - apply (H4 [("q", None); ("p", Some files)] "p" (Some files)).
    + right. now left.
    + reflexivity.
Defined.

(** ** Sorting and ranking the table *)

Section Ranking.

Lemma precedes_descending (a b : cell) :
  precedes a b = true <-> descending a b.
Proof.
  destruct a as [|x], b as [|y]; simpl; try tauto.
  - split; [discriminate | tauto].
  - apply Qle_bool_iff.
Qed.

Lemma precedes_total (a b : cell) :
  precedes a b = false -> precedes b a = true.
Proof.
  destruct a as [|x], b as [|y]; simpl; try congruence.
  intros H. apply Qle_bool_iff.
  destruct (Qlt_le_dec x y) as [Hlt|Hle].
  - now apply Qlt_le_weak.
  - apply Qle_bool_iff in Hle. congruence.
Qed.

Lemma descending_trans (a b c : cell) :
  descending a b -> descending b c -> descending a c.
Proof.
  destruct a as [|x], b as [|y], c as [|z]; simpl; try tauto.
  intros H1 H2. now apply Qle_trans with y.
Qed.

Variable key : project_record -> cell.

Lemma insert_desc_perm (r : project_record) (l : list project_record) :
  Permutation (insert_desc key r l) (r :: l).
Proof.
  induction l as [|h t IH]; simpl; [reflexivity|].
  destruct (precedes (key r) (key h)); [reflexivity|].
  rewrite IH. apply perm_swap.
Qed.

Lemma sort_values_perm (l : list project_record) :
  Permutation (sort_values key l) l.
Proof.
  induction l as [|r l IH]; simpl; [reflexivity|].
  rewrite insert_desc_perm. now apply perm_skip.
Qed.

Lemma insert_desc_sorted (r : project_record) (l : list project_record) :
  StronglySorted (by_key key) l -> StronglySorted (by_key key) (insert_desc key r l).
Proof.
  induction l as [|h t IH]; intros Hs; simpl.
  - constructor; constructor.
  - destruct (precedes (key r) (key h)) eqn:E.
    + constructor; [exact Hs|].
      apply precedes_descending in E.
      constructor; [exact E|].
      inversion Hs as [|? ? _ Hall]; subst.
      eapply Forall_impl; [|exact Hall].
      intros x Hx. eapply descending_trans; eassumption.
    + inversion Hs as [|? ? Ht Hall]; subst.
      constructor; [now apply IH|].
      eapply Permutation_Forall.
      * symmetry. apply insert_desc_perm.
      * constructor; [|exact Hall].
        apply precedes_descending. now apply precedes_total.
Qed.

Lemma sort_values_sorted (l : list project_record) :
  StronglySorted (by_key key) (sort_values key l).
Proof.
  induction l as [|r l IH]; simpl; [constructor|].
  now apply insert_desc_sorted.
Qed.

End Ranking.

Section Partition.

Lemma filter_split {A : Type} (f : A -> bool) (l : list A) :
  Permutation (filter f l ++ filter (fun a => negb (f a)) l) l.
Proof.
  induction l as [|a l IH]; simpl; [reflexivity|].
  destruct (f a); simpl.
  - now apply perm_skip.
  - rewrite <- Permutation_middle. now apply perm_skip.
Qed.

Lemma with_openrank_perm (extended_df : list project_record) :
  Permutation (df_with_openrank extended_df)
    (filter has_openrank extended_df).
Proof. apply sort_values_perm. Qed.

Lemma without_openrank_perm (extended_df : list project_record) :
  Permutation (df_without_openrank extended_df)
    (filter (fun r => negb (has_openrank r)) extended_df).
Proof. apply sort_values_perm. Qed.

Lemma concat_perm (extended_df : list project_record) :
  Permutation (concat extended_df) extended_df.
Proof.
  unfold concat.
  rewrite with_openrank_perm, without_openrank_perm. apply filter_split.
Qed.

Lemma with_openrank_all (extended_df : list project_record) (r : project_record) :
  In r (df_with_openrank extended_df) -> has_openrank r = true.
Proof.
  intros H. apply (Permutation_in _ (with_openrank_perm _)) in H.
  now apply filter_In in H.
Qed.

Lemma without_openrank_all (extended_df : list project_record)
    (r : project_record) :
  In r (df_without_openrank extended_df) -> has_openrank r = false.
Proof.
  intros H. apply (Permutation_in _ (without_openrank_perm _)) in H.
  apply filter_In in H. destruct H as [_ H].
  now apply negb_true_iff in H.
Qed.

(** Among the records with an openrank the keys are numbers, so the order
    is the plain descending one. *)
Lemma with_openrank_sorted (extended_df : list project_record) :
  StronglySorted
    (fun a b => exists x y,
         openrank_latest a = Num x /\ openrank_latest b = Num y
         /\ (0 < y)%Q /\ (y <= x)%Q)
    (df_with_openrank extended_df).
Proof.
  pose proof (sort_values_sorted openrank_latest
                (filter has_openrank extended_df)) as Hs.
  fold (df_with_openrank extended_df) in Hs.
  pose proof (with_openrank_all extended_df) as Hall.
  induction Hs as [|a l Hs IH Hfa]; constructor.
  - apply IH. intros r Hr. apply Hall. now right.
  - rewrite Forall_forall in *. intros b Hb.
    specialize (Hfa b Hb). unfold by_key in Hfa.
    pose proof (Hall a (or_introl eq_refl)) as Ha.
    pose proof (Hall b (or_intror Hb)) as Hb'.
    unfold has_openrank, gt0 in Ha, Hb'.
    destruct (openrank_latest a) as [|x]; [discriminate|].
    destruct (openrank_latest b) as [|y]; [discriminate|].
    exists x, y. repeat split; try exact Hfa.
    apply negb_true_iff in Hb'.
    destruct (Qlt_le_dec 0 y) as [Hlt|Hle]; [exact Hlt|].
    apply Qle_bool_iff in Hle. congruence.
Qed.

Lemma without_openrank_sorted (extended_df : list project_record) :
  StronglySorted (fun a b => descending (total_stars a) (total_stars b))
    (df_without_openrank extended_df).
Proof. apply (sort_values_sorted total_stars). Qed.

End Partition.

Section Ranks.

Lemma has_openrank_set_rank (n : nat) (r : project_record) :
  has_openrank (set_rank n r) = has_openrank r.
Proof. reflexivity. Qed.

Lemma unranked_set_rank (n : nat) (r : project_record) :
  unranked (set_rank n r) = unranked r.
Proof. reflexivity. Qed.

Lemma assign_rank_unranked (n : nat) (l : list project_record) :
  map unranked (assign_rank n l) = map unranked l.
Proof.
  revert n. induction l as [|r l IH]; intros n; simpl; [reflexivity|].
  now rewrite IH.
Qed.

Lemma assign_rank_ranks (n : nat) (l : list project_record) :
  map rank (assign_rank n l) = map of_nat (seq n (List.length l)).
Proof.
  revert n. induction l as [|r l IH]; intros n; simpl; [reflexivity|].
  now rewrite IH.
Qed.

Lemma assign_rank_length (n : nat) (l : list project_record) :
  List.length (assign_rank n l) = List.length l.
Proof.
  revert n. induction l as [|r l IH]; intros n; simpl; [reflexivity|].
  now rewrite IH.
Qed.

Lemma assign_rank_app (n : nat) (l1 l2 : list project_record) :
  assign_rank n (l1 ++ l2)
  = assign_rank n l1 ++ assign_rank (n + List.length l1) l2.
Proof.
  revert n. induction l1 as [|r l1 IH]; intros n; simpl.
  - now rewrite Nat.add_0_r.
  - rewrite IH. now rewrite Nat.add_succ_r.
Qed.

(** A row of the ranked table is a row of the table with its place as
    rank. *)
Lemma assign_rank_member (n : nat) (l : list project_record)
    (r : project_record) :
  In r (assign_rank n l) ->
  exists i x, i < List.length l /\ In x l /\ r = set_rank (n + i) x.
Proof.
  revert n. induction l as [|h l IH]; intros n; simpl; [tauto|].
  intros [<-|Hin].
  - exists 0, h. rewrite Nat.add_0_r. repeat split; [lia | now left].
  - destruct (IH _ Hin) as [i [x [Hi [Hx ->]]]].
    exists (S i), x. rewrite Nat.add_succ_r. repeat split; [lia | now right].
Qed.

Lemma of_nat_inj (n n' : nat) : of_nat n = of_nat n' -> n = n'.
Proof.
  unfold of_nat, inject_Z. intros [= H]. now apply Nat2Z.inj.
Qed.

End Ranks.

(** ** The merged table *)

Section Merge.

Lemma existing_names_complete (complete_df : list complete_row) :
  map full_name (map from_complete complete_df)
  = map cr_full_name complete_df.
Proof. rewrite map_map. reflexivity. Qed.

Lemma fold_add_member (names : list string) (improved_df : list improved_row)
    (top100_df : list top100_row) (acc : list project_record)
    (r : project_record) :
  In r (fold_left (add_top100 names improved_df) top100_df acc) ->
  In r acc
  \/ exists row n,
      In row top100_df /\ mem (tr_full_name row) names = false
      /\ r = top100_record improved_df n row.
Proof.
  revert acc. induction top100_df as [|row t IH]; intros acc; simpl;
    [now left|].
  intros H. destruct (IH _ H) as [Hacc|[row' [n [Hin [Hm Hr]]]]].
  - unfold add_top100 in Hacc.
    destruct (mem (tr_full_name row) names) eqn:E; simpl in Hacc;
      [now left|].
    apply in_app_or in Hacc. destruct Hacc as [Hacc|[<-|[]]]; [now left|].
    right. exists row, (List.length acc + 1). auto.
  - right. exists row', n. auto.
Qed.

Lemma fold_add_keeps (names : list string) (improved_df : list improved_row)
    (top100_df : list top100_row) (acc : list project_record)
    (r : project_record) :
  In r acc -> In r (fold_left (add_top100 names improved_df) top100_df acc).
Proof.
  revert acc. induction top100_df as [|row t IH]; intros acc H; simpl;
    [exact H|].
  apply IH. unfold add_top100.
  destruct (negb _); [apply in_or_app; now left | exact H].
Qed.

Lemma fold_add_adds (names : list string) (improved_df : list improved_row)
    (top100_df : list top100_row) (acc : list project_record)
    (row : top100_row) :
  In row top100_df -> mem (tr_full_name row) names = false ->
  exists n,
    In (top100_record improved_df n row)
       (fold_left (add_top100 names improved_df) top100_df acc).
Proof.
  revert acc. induction top100_df as [|row' t IH]; intros acc Hin Hm;
    [destruct Hin|].
  simpl. destruct Hin as [->|Hin]; [|now apply IH].
  exists (List.length acc + 1). apply fold_add_keeps.
  unfold add_top100. rewrite Hm. simpl. apply in_or_app. right. now left.
Qed.

Lemma fold_add_unranked (names : list string)
    (improved_df : list improved_row) (top100_df : list top100_row)
    (acc : list project_record) :
  map unranked (fold_left (add_top100 names improved_df) top100_df acc)
  = map unranked acc
    ++ map (fun row => unranked (top100_record improved_df 0 row))
         (filter (fun row => negb (mem (tr_full_name row) names)) top100_df).
Proof.
  revert acc. induction top100_df as [|row t IH]; intros acc; simpl.
  - now rewrite app_nil_r.
  - rewrite IH. unfold add_top100.
    destruct (negb (mem (tr_full_name row) names)); [|reflexivity].
    rewrite map_app, <- app_assoc. reflexivity.
Qed.

(** The records of [extend], their ranks left aside: those of the
    complete ranking, then those of the top-100 rows it does not name. *)
Lemma extend_unranked (complete_df : list complete_row)
    (top100_df : list top100_row) (improved_df : list improved_row) :
  map unranked (extend complete_df top100_df improved_df)
  = map (fun row => unranked (from_complete row)) complete_df
    ++ map (fun row => unranked (top100_record improved_df 0 row))
         (filter
            (fun row =>
               negb (mem (tr_full_name row) (map cr_full_name complete_df)))
            top100_df).
Proof.
  unfold extend. rewrite fold_add_unranked, existing_names_complete.
  now rewrite map_map.
Qed.

(** The rows of the returned table are the records of [extend], each with
    its place as rank. *)
Lemma final_member (extended_df : list project_record) (r : project_record) :
  In r (assign_rank 1 (concat extended_df)) ->
  exists x n, In x extended_df /\ r = set_rank n x.
Proof.
  intros H. destruct (assign_rank_member _ _ _ H) as [i [x [_ [Hx ->]]]].
  exists x, (1 + i). split; [|reflexivity].
  eapply Permutation_in; [apply concat_perm | exact Hx].
Qed.

Lemma assign_rank_in (n : nat) (l : list project_record) (x : project_record) :
  In x l -> exists k, In (set_rank k x) (assign_rank n l).
Proof.
  revert n. induction l as [|h l IH]; intros n; simpl; [tauto|].
  intros [->|Hin].
  - exists n. now left.
  - destruct (IH (S n) Hin) as [k Hk]. exists k. now right.
Qed.

Lemma final_has (extended_df : list project_record) (x : project_record) :
  In x extended_df ->
  exists n, In (set_rank n x) (assign_rank 1 (concat extended_df)).
Proof.
  intros H. apply assign_rank_in.
  eapply Permutation_in; [symmetry; apply concat_perm | exact H].
Qed.

Lemma load_ok (complete_df : list complete_row) (top100_df : list top100_row)
    (improved_df : list improved_row) :
  extend complete_df top100_df improved_df <> [] ->
  load_and_merge_data complete_df top100_df improved_df
  = Ok (assign_rank 1 (concat (extend complete_df top100_df improved_df))).
Proof.
  unfold load_and_merge_data.
  destruct (extend complete_df top100_df improved_df); congruence.
Qed.

Lemma load_inv (complete_df : list complete_row) (top100_df : list top100_row)
    (improved_df : list improved_row) (final_df : list project_record) :
  load_and_merge_data complete_df top100_df improved_df = Ok final_df ->
  final_df
  = assign_rank 1 (concat (extend complete_df top100_df improved_df)).
Proof.
  unfold load_and_merge_data.
  destruct (extend complete_df top100_df improved_df); congruence.
Qed.

End Merge.

(** C1. On a table with at least one record, [load_and_merge_data] puts
    the records whose openrank is greater than 0 (its test for having the
    metric) first, by openrank descending, then the others, by total stars
    descending with the missing values last; it keeps every record, writes
    the ranks 1, 2, ..., N down the table, and so ranks every record without
    openrank strictly after every record with one.  When there is no record
    at all, it raises KeyError instead of returning an empty table. *)
Theorem ranking_of_merged_table :
  load_and_merge_data [] [] [] = Raise KeyError
  /\ (forall complete_df top100_df improved_df,
        extend complete_df top100_df improved_df = [] ->
        load_and_merge_data complete_df top100_df improved_df
        = Raise KeyError)
  /\ (forall complete_df top100_df improved_df,
        let extended_df := extend complete_df top100_df improved_df in
        let final_df :=
          assign_rank 1
            (df_with_openrank extended_df ++ df_without_openrank extended_df) in
        extended_df <> [] ->
        load_and_merge_data complete_df top100_df improved_df = Ok final_df
        /\ Permutation (df_with_openrank extended_df)
             (filter has_openrank extended_df)
        /\ Permutation (df_without_openrank extended_df)
             (filter (fun r => negb (has_openrank r)) extended_df)
        /\ StronglySorted
             (fun a b => exists x y,
                  openrank_latest a = Num x /\ openrank_latest b = Num y
                  /\ (0 < y)%Q /\ (y <= x)%Q)
             (df_with_openrank extended_df)
        /\ StronglySorted
             (fun a b => descending (total_stars a) (total_stars b))
             (df_without_openrank extended_df)
        /\ map rank final_df = map of_nat (seq 1 (List.length extended_df))
        /\ Permutation (map unranked final_df) (map unranked extended_df)
        /\ (forall r1 r2,
              In r1 final_df -> In r2 final_df ->
              has_openrank r1 = true -> has_openrank r2 = false ->
              exists n1 n2,
                rank r1 = of_nat n1 /\ rank r2 = of_nat n2 /\ n1 < n2)).
Proof.
  split; [reflexivity|]. split.
  { intros c t i E. unfold load_and_merge_data. now rewrite E. }
  intros c t i extended_df final_df Hne.
  split; [now apply load_ok|].
  split; [apply with_openrank_perm|].
  split; [apply without_openrank_perm|].
  split; [apply with_openrank_sorted|].
  split; [apply without_openrank_sorted|].
  split.
  { unfold final_df. rewrite assign_rank_ranks. f_equal. f_equal.
    apply Permutation_length. apply concat_perm. }
  split.
  { unfold final_df. rewrite assign_rank_unranked.
    apply Permutation_map. apply concat_perm. }
  intros r1 r2 H1 H2 Hh1 Hh2. unfold final_df in H1, H2.
  rewrite assign_rank_app in H1, H2.
  apply in_app_or in H1. apply in_app_or in H2.
  destruct H1 as [H1|H1].
  - destruct (assign_rank_member _ _ _ H1) as [i1 [x1 [Hi1 [_ ->]]]].
    destruct H2 as [H2|H2].
    + destruct (assign_rank_member _ _ _ H2) as [i2 [x2 [_ [Hx2 ->]]]].
      rewrite has_openrank_set_rank in Hh2.
      rewrite (with_openrank_all _ _ Hx2) in Hh2. discriminate.
    + destruct (assign_rank_member _ _ _ H2) as [i2 [x2 [_ [_ ->]]]].
      exists (1 + i1),
        (1 + List.length (df_with_openrank extended_df) + i2).
      repeat split. lia.
  - destruct (assign_rank_member _ _ _ H1) as [i1 [x1 [_ [Hx1 ->]]]].
    rewrite has_openrank_set_rank in Hh1.
    rewrite (without_openrank_all _ _ Hx1) in Hh1. discriminate.
Qed.

(** C1 at a table of three records of the complete ranking and one top-100
    project: the two records with an openrank come first, then the other
    two by their stars. *)
Lemma ranking_of_merged_table_witness :
  let row n s o :=
    {| cr_rank := Num 1; cr_org := "o"; cr_project := n;
       cr_full_name := ("o/" ++ n)%string; cr_total_stars := s;
       cr_monthly_stars_latest := s; cr_activity_latest := Num 1;
       cr_openrank_latest := o |} in
  let complete_df :=
    [row "a" (Num 10) (Num 3); row "b" (Num 50) NaN; row "c" (Num 1) (Num 5)] in
  let top100_df :=
    [ {| tr_organization := "o"; tr_project := "t"; tr_full_name := "o/t";
         tr_stars := Num 70; tr_activity := Num 2 |} ] in
  exists final_df,
    load_and_merge_data complete_df top100_df [] = Ok final_df
    /\ map full_name final_df = ["o/c"; "o/a"; "o/t"; "o/b"]
    /\ map rank final_df = map of_nat [1; 2; 3; 4].
Proof.
  intros row complete_df top100_df.
  destruct (proj2 (proj2 ranking_of_merged_table) complete_df top100_df [])
    as [Hload [_ [_ [_ [_ [Hranks _]]]]]].
  - vm_compute. discriminate.
  - eexists. split; [exact Hload|]. split; [reflexivity | exact Hranks].
Defined.

(** C2 fails: a top-100 project that neither the complete ranking nor the
    improved analysis knows gets the openrank 0, not a missing value; and
    the collector of script 01 gives a project without activity file the
    activity 0. *)
Lemma missing_openrank_becomes_zero :
  let row :=
    {| tr_organization := "o"; tr_project := "t"; tr_full_name := "o/t";
       tr_stars := Num 70; tr_activity := Num 2 |} in
  found_openrank [] "o/t" = None
  /\ load_and_merge_data [] [row] []
     = Ok [ {| rank := of_nat 1; org := "o"; project := "t";
               full_name := "o/t"; total_stars := Num 70;
               monthly_stars_latest := Num 70; activity_latest := Num 2;
               openrank_latest := Num 0; source := "top100_only" |} ]
  /\ Num 0 <> NaN
  /\ ExploreData.activity_value Absent = JNum 0
  /\ ExploreData.collect_project "o" "t" (Loaded (JObj [("2024-01", JNum 3)]))
       Absent
     = Some {| ExploreData.organization := "o"; ExploreData.project := "t";
               ExploreData.full_name := "o/t"; ExploreData.stars := JNum (0 + 3);
               ExploreData.activity := JNum 0 |}.
Proof.
  repeat split. discriminate.
Qed.

(** C2 as amended.  A missing openrank or activity is written as the value
    zero: the merge gives a top-100 project that the complete ranking does
    not name and the improved analysis does not know the openrank 0.0, its
    mark for missing, and the ranking, whose test for having an openrank is
    "greater than 0", puts that record among those without; an openrank the
    improved analysis has is taken as it is; the collector gives the
    activity 0 when there is no readable, non-empty activity series. *)
Theorem zero_stands_for_missing (complete_df : list complete_row)
    (top100_df : list top100_row) (improved_df : list improved_row)
    (row : top100_row) :
  In row top100_df ->
  mem (tr_full_name row) (map cr_full_name complete_df) = false ->
  (exists final_df r,
      load_and_merge_data complete_df top100_df improved_df = Ok final_df
      /\ In r final_df
      /\ full_name r = tr_full_name row
      /\ source r = "top100_only"
      /\ openrank_latest r
         = match found_openrank improved_df (tr_full_name row) with
           | Some c => c
           | None => Num 0
           end
      /\ (found_openrank improved_df (tr_full_name row) = None ->
          openrank_latest r = Num 0 /\ has_openrank r = false))
  /\ ExploreData.activity_value Absent = JNum 0
  /\ ExploreData.activity_value Unreadable = JNum 0
  /\ (forall v, (forall item rest, v <> JObj (item :: rest)) ->
        ExploreData.activity_value (Loaded v) = JNum 0).
Proof.
  intros Hin Hm. split.
  - destruct (fold_add_adds (map cr_full_name complete_df) improved_df
                top100_df (map from_complete complete_df) row Hin Hm)
      as [n Hn].
    rewrite <- existing_names_complete in Hn.
    fold (extend complete_df top100_df improved_df) in Hn.
    destruct (final_has _ _ Hn) as [k Hk].
    exists (assign_rank 1 (concat (extend complete_df top100_df improved_df))),
      (set_rank k (top100_record improved_df n row)).
    split.
    { apply load_ok. intros E. rewrite E in Hn. destruct Hn. }
    split; [exact Hk|].
    split; [reflexivity|]. split; [reflexivity|]. split; [reflexivity|].
    intros Hnone. unfold has_openrank. simpl. rewrite Hnone. split; reflexivity.
  - split; [reflexivity|]. split; [reflexivity|].
    intros v Hv. destruct v as [| | | | |[|item rest]]; try reflexivity.
    elim (Hv item rest). reflexivity.
Qed.

(** C2 as amended, at a top-100 project with no other source. *)
Lemma zero_stands_for_missing_witness :
  let row :=
    {| tr_organization := "o"; tr_project := "t"; tr_full_name := "o/t";
       tr_stars := Num 70; tr_activity := Num 2 |} in
  exists final_df r,
    load_and_merge_data [] [row] [] = Ok final_df
    /\ In r final_df
    /\ full_name r = "o/t"
    /\ openrank_latest r = Num 0 /\ has_openrank r = false.
Proof.
  intros row.
  destruct (zero_stands_for_missing [] [row] [] row
              (or_introl eq_refl) eq_refl)
    as [[final_df [r [Hload [Hin [Hname [_ [_ Hzero]]]]]]] _].
  exists final_df, r.
  split; [exact Hload|]. split; [exact Hin|]. split; [exact Hname|].
  apply Hzero. reflexivity.
Defined.

(** ** Which source a field comes from *)

Section Sources.

Lemma found_openrank_matching (improved_df : list improved_row)
    (name : string) :
  found_openrank improved_df name
  = match matching improved_df name with
    | [] => None
    | m :: _ => Some (ir_openrank_latest m)
    end.
Proof. destruct improved_df; reflexivity. Qed.

(** The first row of the improved analysis with the name is the one
    whose openrank is taken. *)
Lemma found_openrank_first (before after : list improved_row)
    (m : improved_row) (name : string) :
  ir_full_name m = name ->
  (forall x, In x before -> ir_full_name x <> name) ->
  found_openrank (before ++ m :: after) name = Some (ir_openrank_latest m).
Proof.
  intros Hm Hb. rewrite found_openrank_matching. unfold matching.
  induction before as [|x before IH]; simpl.
  - apply String.eqb_eq in Hm. now rewrite Hm.
  - assert (Hx : String.eqb (ir_full_name x) name = false).
    { apply String.eqb_neq. apply Hb. now left. }
    rewrite Hx. apply IH. intros y Hy. apply Hb. now right.
Qed.

Lemma top100_record_unranked (improved_df : list improved_row) (n : nat)
    (row : top100_row) :
  unranked (top100_record improved_df n row)
  = unranked (top100_record improved_df 0 row).
Proof. reflexivity. Qed.

End Sources.

(** C7 fails: the complete ranking has org/repo with 500 stars and no
    openrank, the improved analysis has its openrank 7.2; the merged record
    is the one of the complete ranking, whole, its openrank still missing. *)
Lemma complete_record_is_taken_whole :
  let a :=
    {| cr_rank := Num 1; cr_org := "org"; cr_project := "repo";
       cr_full_name := "org/repo"; cr_total_stars := Num 500;
       cr_monthly_stars_latest := Num 5; cr_activity_latest := Num 1;
       cr_openrank_latest := NaN |} in
  let t :=
    {| tr_organization := "org"; tr_project := "repo";
       tr_full_name := "org/repo"; tr_stars := Num 500;
       tr_activity := Num 3 |} in
  let b := {| ir_full_name := "org/repo"; ir_openrank_latest := Num (36 # 5) |} in
  load_and_merge_data [a] [t] [b]
  = Ok [ {| rank := of_nat 1; org := "org"; project := "repo";
            full_name := "org/repo"; total_stars := Num 500;
            monthly_stars_latest := Num 5; activity_latest := Num 1;
            openrank_latest := NaN; source := "complete_ranking" |} ]
  /\ NaN <> Num (36 # 5).
Proof.
  split; [reflexivity | discriminate].
Qed.

(** C7 as amended.  The merge selects by source: a project of the complete
    ranking keeps the record of the complete ranking whole; a top-100
    project that the complete ranking does not name gets its stars from the
    top-100 row and its openrank from the first row of the improved analysis
    with its name; every record carries one source tag, complete_ranking or
    top100_only, for the record and not for each field. *)
Theorem merge_selects_by_source (complete_df : list complete_row)
    (top100_df : list top100_row) (improved_df : list improved_row)
    (final_df : list project_record) :
  load_and_merge_data complete_df top100_df improved_df = Ok final_df ->
  (forall r, In r final_df ->
      (exists row,
          In row complete_df /\ unranked r = unranked (from_complete row))
      \/ (exists row,
             In row top100_df
             /\ mem (tr_full_name row) (map cr_full_name complete_df) = false
             /\ unranked r = unranked (top100_record improved_df 0 row)))
  /\ (forall row, In row complete_df ->
        exists r, In r final_df /\ unranked r = unranked (from_complete row))
  /\ (forall row before m after,
        In row top100_df ->
        mem (tr_full_name row) (map cr_full_name complete_df) = false ->
        improved_df = before ++ m :: after ->
        ir_full_name m = tr_full_name row ->
        (forall x, In x before -> ir_full_name x <> tr_full_name row) ->
        exists r,
          In r final_df
          /\ full_name r = tr_full_name row
          /\ total_stars r = tr_stars row
          /\ openrank_latest r = ir_openrank_latest m
          /\ source r = "top100_only")
  /\ (forall r, In r final_df ->
        source r = "complete_ranking" \/ source r = "top100_only").
Proof.
  intros Hload. apply load_inv in Hload. subst final_df.
  assert (Hfrom : forall r,
             In r (assign_rank 1
                     (concat (extend complete_df top100_df improved_df))) ->
             (exists row,
                 In row complete_df /\ unranked r = unranked (from_complete row))
             \/ (exists row,
                    In row top100_df
                    /\ mem (tr_full_name row) (map cr_full_name complete_df)
                       = false
                    /\ unranked r = unranked (top100_record improved_df 0 row))).
  { intros r Hr. destruct (final_member _ _ Hr) as [x [n [Hx ->]]].
    unfold extend in Hx. apply fold_add_member in Hx.
    rewrite existing_names_complete in Hx.
    destruct Hx as [Hx|[row [k [Hin [Hm ->]]]]].
    - apply in_map_iff in Hx. destruct Hx as [row [<- Hrow]].
      left. now exists row.
    - right. exists row. auto. }
  split; [exact Hfrom|]. split; [|split].
  - intros row Hrow.
    assert (Hx : In (from_complete row)
                   (extend complete_df top100_df improved_df)).
    { unfold extend. apply fold_add_keeps. now apply in_map. }
    destruct (final_has _ _ Hx) as [n Hn].
    exists (set_rank n (from_complete row)). split; [exact Hn | reflexivity].
  - intros row before m after Hin Hm Himp Hname Hfirst.
    destruct (fold_add_adds (map cr_full_name complete_df) improved_df
                top100_df (map from_complete complete_df) row Hin Hm)
      as [n Hn].
    rewrite <- existing_names_complete in Hn.
    fold (extend complete_df top100_df improved_df) in Hn.
    destruct (final_has _ _ Hn) as [k Hk].
    exists (set_rank k (top100_record improved_df n row)).
    split; [exact Hk|]. repeat split.
    simpl. rewrite Himp.
    now rewrite (found_openrank_first before after m _ Hname Hfirst).
  - intros r Hr. destruct (Hfrom r Hr) as [[row [_ H]]|[row [_ [_ H]]]].
    + left. apply (f_equal source) in H. exact H.
    + right. apply (f_equal source) in H. exact H.
Qed.

(** C7 as amended, at the scenario with the top-100 list as the source of
    the stars: stars 500 from it, openrank 7.2 from the improved analysis,
    one tag. *)
Lemma merge_selects_by_source_witness :
  let t :=
    {| tr_organization := "org"; tr_project := "repo";
       tr_full_name := "org/repo"; tr_stars := Num 500;
       tr_activity := Num 3 |} in
  let b := {| ir_full_name := "org/repo"; ir_openrank_latest := Num (36 # 5) |} in
  exists final_df r,
    load_and_merge_data [] [t] [b] = Ok final_df
    /\ In r final_df
    /\ full_name r = "org/repo"
    /\ total_stars r = Num 500
    /\ openrank_latest r = Num (36 # 5)
    /\ source r = "top100_only".
Proof.
  intros t b.
  destruct (merge_selects_by_source [] [t] [b] _ eq_refl) as [_ [_ [H _]]].
  destruct (H t [] b [] (or_introl eq_refl) eq_refl eq_refl eq_refl)
    as [r Hr].
  - intros x [].
  - eexists. exists r. split; [reflexivity | exact Hr].
Defined.

(** ** The order of the candidates *)

Section Order.

Lemma mem_perm (name : string) (l l' : list string) :
  Permutation l l' -> mem name l = mem name l'.
Proof.
  unfold mem. induction 1 as [|x l l' _ IH|x y l|l l' l'' _ IH1 _ IH2];
    simpl.
  - reflexivity.
  - now rewrite IH.
  - now rewrite !orb_assoc, (orb_comm (String.eqb name y)).
  - congruence.
Qed.

Lemma filter_perm {A : Type} (f : A -> bool) (l l' : list A) :
  Permutation l l' -> Permutation (filter f l) (filter f l').
Proof.
  induction 1 as [|x l l' _ IH|x y l|l l' l'' _ IH1 _ IH2]; simpl.
  - reflexivity.
  - destruct (f x); [now apply perm_skip | exact IH].
  - destruct (f x), (f y); try reflexivity. apply perm_swap.
  - now transitivity (filter f l').
Qed.

Lemma matching_unique (improved_df : list improved_row) (name : string) :
  NoDup (map ir_full_name improved_df) ->
  List.length (matching improved_df name) <= 1.
Proof.
  unfold matching. induction improved_df as [|a l IH]; simpl; [lia|].
  intros Hnd. inversion Hnd as [|? ? Hnotin Hnd']; subst.
  destruct (String.eqb_spec (ir_full_name a) name) as [E|E]; [|auto].
  simpl.
  assert (Hnone : filter (fun r => String.eqb (ir_full_name r) name) l = []).
  { destruct (filter _ l) as [|x rest] eqn:F; [reflexivity|].
    assert (Hx : In x (filter (fun r => String.eqb (ir_full_name r) name) l))
      by (rewrite F; now left).
    apply filter_In in Hx. destruct Hx as [Hx1 Hx2].
    apply String.eqb_eq in Hx2. elim Hnotin.
    rewrite E, <- Hx2. now apply in_map. }
  rewrite Hnone. simpl. lia.
Qed.

(** With one row at most for a name, the openrank found for it does not
    depend on the order of the rows. *)
Lemma found_openrank_perm (improved_df improved_df' : list improved_row)
    (name : string) :
  NoDup (map ir_full_name improved_df) ->
  Permutation improved_df improved_df' ->
  found_openrank improved_df name = found_openrank improved_df' name.
Proof.
  intros Hnd Hp. rewrite !found_openrank_matching.
  pose proof (matching_unique improved_df name Hnd) as Hlen.
  pose proof (filter_perm (fun r => String.eqb (ir_full_name r) name)
                _ _ Hp) as Hm.
  fold (matching improved_df name) in Hm.
  fold (matching improved_df' name) in Hm.
  destruct (matching improved_df name) as [|m [|m' rest]].
  - apply Permutation_nil in Hm. now rewrite Hm.
  - apply Permutation_length_1_inv in Hm. now rewrite Hm.
  - simpl in Hlen. lia.
Qed.

Lemma extend_perm (complete_df complete_df' : list complete_row)
    (top100_df top100_df' : list top100_row)
    (improved_df improved_df' : list improved_row) :
  Permutation complete_df complete_df' ->
  Permutation top100_df top100_df' ->
  Permutation improved_df improved_df' ->
  NoDup (map ir_full_name improved_df) ->
  Permutation
    (map unranked (extend complete_df top100_df improved_df))
    (map unranked (extend complete_df' top100_df' improved_df')).
Proof.
  intros Hc Ht Hi Hnd. rewrite !extend_unranked.
  apply Permutation_app.
  - now apply Permutation_map.
  - rewrite (filter_ext
               (fun row =>
                  negb (mem (tr_full_name row) (map cr_full_name complete_df)))
               (fun row =>
                  negb (mem (tr_full_name row) (map cr_full_name complete_df')))).
    + rewrite (map_ext
                 (fun row => unranked (top100_record improved_df 0 row))
                 (fun row => unranked (top100_record improved_df' 0 row))).
      * apply Permutation_map. now apply filter_perm.
      * intros row. unfold top100_record.
        now rewrite (found_openrank_perm improved_df improved_df' _ Hnd Hi).
    + intros row. f_equal. apply mem_perm. now apply Permutation_map.
Qed.

End Order.

(** C8 fails: with two rows for org/repo in the improved analysis, the
    openrank of the merged record is that of the row that comes first, so
    swapping the two rows changes the record. *)
Lemma merge_depends_on_order_of_rows :
  let t :=
    {| tr_organization := "org"; tr_project := "repo";
       tr_full_name := "org/repo"; tr_stars := Num 500;
       tr_activity := Num 3 |} in
  let b1 := {| ir_full_name := "org/repo"; ir_openrank_latest := Num 1 |} in
  let b2 := {| ir_full_name := "org/repo"; ir_openrank_latest := Num 2 |} in
  Permutation [b1; b2] [b2; b1]
  /\ (exists r, load_and_merge_data [] [t] [b1; b2] = Ok [r]
                /\ openrank_latest r = Num 1)
  /\ (exists r, load_and_merge_data [] [t] [b2; b1] = Ok [r]
                /\ openrank_latest r = Num 2)
  /\ load_and_merge_data [] [t] [b1; b2] <> load_and_merge_data [] [t] [b2; b1].
Proof.
  intros t b1 b2. split; [apply perm_swap|].
  split; [eexists; split; reflexivity|].
  split; [eexists; split; reflexivity|].
  vm_compute. discriminate.
Qed.

(** C8 as amended.  When the improved analysis has one row at most for a
    name, the order of the rows inside each of the three sources does not
    change the merged records: the two tables hold the same records, ranks
    left aside (the rank is the place in the table, and the place of records
    with equal keys follows the order of the input); and the merge fails on
    the one input exactly when it fails on the other. *)
Theorem merge_order_independent (complete_df complete_df' : list complete_row)
    (top100_df top100_df' : list top100_row)
    (improved_df improved_df' : list improved_row) :
  Permutation complete_df complete_df' ->
  Permutation top100_df top100_df' ->
  Permutation improved_df improved_df' ->
  NoDup (map ir_full_name improved_df) ->
  match
    load_and_merge_data complete_df top100_df improved_df,
    load_and_merge_data complete_df' top100_df' improved_df'
  with
  | Ok final_df, Ok final_df' =>
      Permutation (map unranked final_df) (map unranked final_df')
  | Raise e, Raise e' => e = e'
  | _, _ => False
  end.
Proof.
  intros Hc Ht Hi Hnd.
  pose proof (extend_perm _ _ _ _ _ _ Hc Ht Hi Hnd) as Hext.
  unfold load_and_merge_data.
  destruct (extend complete_df top100_df improved_df) as [|x l] eqn:E;
    destruct (extend complete_df' top100_df' improved_df') as [|x' l'] eqn:E'.
  - reflexivity.
  - apply Permutation_length in Hext. discriminate.
  - apply Permutation_length in Hext. discriminate.
  - rewrite !assign_rank_unranked.
    transitivity (map unranked (x :: l)).
    + apply Permutation_map. apply concat_perm.
    + rewrite Hext. symmetry. apply Permutation_map. apply concat_perm.
Qed.

(** C8 as amended, at two top-100 projects in both orders. *)
Lemma merge_order_independent_witness :
  let t n s :=
    {| tr_organization := "o"; tr_project := n;
       tr_full_name := ("o/" ++ n)%string; tr_stars := s;
       tr_activity := Num 3 |} in
  let b := {| ir_full_name := "o/x"; ir_openrank_latest := Num 4 |} in
  exists final_df final_df',
    load_and_merge_data [] [t "x" (Num 5); t "y" (Num 9)] [b] = Ok final_df
    /\ load_and_merge_data [] [t "y" (Num 9); t "x" (Num 5)] [b] = Ok final_df'
    /\ Permutation (map unranked final_df) (map unranked final_df').
Proof.
  intros t b.
  pose proof (merge_order_independent [] []
                [t "x" (Num 5); t "y" (Num 9)] [t "y" (Num 9); t "x" (Num 5)]
                [b] [b] (perm_nil _) (perm_swap _ _ _) (Permutation_refl _))
    as H.
  assert (Hnd : NoDup (map ir_full_name [b])).
  { constructor; [intros [] | constructor]. }
  specialize (H Hnd).
  destruct (load_and_merge_data [] [t "x" (Num 5); t "y" (Num 9)] [b])
    as [final_df|e] eqn:E;
    destruct (load_and_merge_data [] [t "y" (Num 9); t "x" (Num 5)] [b])
      as [final_df'|e'] eqn:E'; try discriminate E; try discriminate E'.
  exists final_df, final_df'. repeat split. exact H.
Defined.


(** * Further properties of the scripts *)

(** ** Configuration lookup *)

Section ConfigFacts.

Lemma split_dots_nonempty (key : string) : Config.split_dots key <> [].
Proof.
  induction key as [|c rest IH]; simpl; [discriminate|].
  destruct (Ascii.eqb c "."); [discriminate|].
  destruct (Config.split_dots rest); discriminate.
Qed.

Lemma split_dots_app (a b : string) :
  Config.split_dots (a ++ "." ++ b)
  = Config.split_dots a ++ Config.split_dots b.
Proof.
  induction a as [|c a IH].
  - reflexivity.
  - change ((String c a ++ "." ++ b)%string)
      with (String c (a ++ "." ++ b)%string).
    cbn [Config.split_dots]. rewrite IH.
    destruct (Ascii.eqb c "."); [reflexivity|].
    pose proof (split_dots_nonempty a) as Hne.
    destruct (Config.split_dots a); [congruence | reflexivity].
Qed.

Lemma walk_raise (e : pyexn) (keys : list string) :
  fold_left (fun value k => v <- value ;; Config.item v k) keys (Raise e)
  = Raise e.
Proof. induction keys as [|k keys IH]; simpl; [reflexivity | exact IH]. Qed.

Lemma walk_app (value : json) (keys keys' : list string) :
  Config.walk value (keys ++ keys')
  = (v <- Config.walk value keys ;; Config.walk v keys').
Proof.
  unfold Config.walk. rewrite fold_left_app.
  destruct (fold_left _ keys (Ok value)) as [v|e]; simpl; [reflexivity|].
  apply walk_raise.
Qed.

Lemma item_raises (value : json) (k : string) (e : pyexn) :
  Config.item value k = Raise e -> e = KeyError \/ e = TypeError.
Proof.
  unfold Config.item, dict_item. destruct value; try (intros [= <-]; tauto).
  destruct (dict_get members k); [discriminate | intros [= <-]; tauto].
Qed.

Lemma walk_raises (keys : list string) (value : json) (e : pyexn) :
  Config.walk value keys = Raise e -> e = KeyError \/ e = TypeError.
Proof.
  unfold Config.walk. revert value.
  induction keys as [|k keys IH]; intros value; simpl; [discriminate|].
  destruct (Config.item value k) as [v|e'] eqn:E.
  - apply IH.
  - rewrite walk_raise. intros [= <-]. eapply item_raises, E.
Qed.

End ConfigFacts.

(** X1. [ConfigManager.get] never raises: it answers with the value at the
    end of the dotted path or with the default; it answers with the default
    whenever the configuration is not an object, and whenever the first
    piece of the key is not one of its keys. *)
Theorem config_get_falls_back (config : json) (key : string) (default : json) :
  (exists v, Config.get config key default = Ok v)
  /\ ((forall members, config <> JObj members) ->
      Config.get config key default = Ok default)
  /\ (forall members,
        config = JObj members ->
        dict_get members (hd "" (Config.split_dots key)) = None ->
        Config.get config key default = Ok default).
Proof.
  split; [|split].
  - unfold Config.get.
    destruct (Config.walk config (Config.split_dots key)) as [v|e] eqn:E.
    + now exists v.
    + destruct (walk_raises _ _ _ E) as [-> | ->]; now exists default.
  - intros Hno. unfold Config.get, Config.walk.
    pose proof (split_dots_nonempty key) as Hne.
    destruct (Config.split_dots key) as [|k keys]; [congruence|].
    simpl. assert (E : Config.item config k = Raise TypeError).
    { destruct config; try reflexivity. elim (Hno members). reflexivity. }
    rewrite E, walk_raise. reflexivity.
  - intros members -> Hmiss. unfold Config.get, Config.walk.
    pose proof (split_dots_nonempty key) as Hne.
    destruct (Config.split_dots key) as [|k keys]; [congruence|].
    simpl in *. unfold dict_item. rewrite Hmiss, walk_raise. reflexivity.
Qed.

(** X1 at a configuration that is a list, and at a key the default
    configuration does not have. *)
Lemma config_get_falls_back_witness :
  Config.get (JArr [JNum 1]) "data_paths.output_dir" (JStr "d") = Ok (JStr "d")
  /\ Config.get Config.default_config "paths.output_dir" (JStr "d")
     = Ok (JStr "d").
Proof.
  split.
  - apply (proj1 (proj2 (config_get_falls_back (JArr [JNum 1])
                           "data_paths.output_dir" (JStr "d")))).
    intros members. discriminate.
  - refine (proj2 (proj2 (config_get_falls_back Config.default_config
                            "paths.output_dir" (JStr "d"))) _ eq_refl _).
    reflexivity.
Defined.

(** X2. A dotted key is looked up piece by piece: when the path [a] leads
    to the value [v], looking up [a.b] in the configuration is looking up
    [b] in [v]; when the path [a] fails, [a.b] gives the default. *)
Theorem config_get_composes (config : json) (a b : string) (default : json) :
  (forall v,
      Config.walk config (Config.split_dots a) = Ok v ->
      Config.get config (a ++ "." ++ b) default = Config.get v b default)
  /\ (forall e,
        Config.walk config (Config.split_dots a) = Raise e ->
        Config.get config (a ++ "." ++ b) default = Ok default).
Proof.
  split.
  - intros v Hv. unfold Config.get.
    now rewrite split_dots_app, walk_app, Hv.
  - intros e He. unfold Config.get.
    rewrite split_dots_app, walk_app, He. simpl.
    destruct (walk_raises _ _ _ He) as [-> | ->]; reflexivity.
Qed.

(** X2 at the default configuration. *)
Lemma config_get_composes_witness :
  Config.get Config.default_config "data_paths.output_dir" JNull
  = Ok (JStr "./output")
  /\ Config.get Config.default_config "analysis.missing.unit" (JStr "d")
     = Ok (JStr "d").
Proof.
  split.
  - exact (proj1 (config_get_composes Config.default_config "data_paths"
                     "output_dir" JNull) _ eq_refl).
  - apply (proj2 (config_get_composes Config.default_config
                    "analysis.missing" "unit" (JStr "d")) KeyError).
    reflexivity.
Defined.

(** ** The monthly analysis of popular projects *)

Import MonthlyPopularity.

Section MonthlyFacts.

Lemma count_all_spec (month_data : list repo) (counted : list (repo * Z)) :
  count_all month_data = Ok counted ->
  map fst counted = month_data
  /\ (forall x, In x counted -> get_stars_count (stars_of (fst x)) = Ok (snd x)).
Proof.
  revert counted. induction month_data as [|p rest IH]; intros counted; simpl.
  - intros [= <-]. split; [reflexivity | intros x []].
  - destruct (get_stars_count (stars_of p)) as [stars|e] eqn:E; simpl;
      [|discriminate].
    destruct (count_all rest) as [c|e]; simpl; [|discriminate].
    intros [= <-]. destruct (IH c eq_refl) as [H1 H2]. split.
    + simpl. now rewrite H1.
    + intros x [<-|Hx]; [exact E | now apply H2].
Qed.

Lemma count_all_raises (month_data : list repo) :
  (exists e, count_all month_data = Raise e)
  <-> exists p e, In p month_data /\ get_stars_count (stars_of p) = Raise e.
Proof.
  induction month_data as [|p rest IH]; simpl.
  - split; [intros [e H]; discriminate | intros [p [e [[] _]]]].
  - destruct (get_stars_count (stars_of p)) as [stars|e] eqn:E; simpl.
    + destruct (count_all rest) as [c|e'] eqn:C; simpl.
      * split; [intros [e H]; discriminate|].
        intros [q [e [[<-|Hq] Hr]]]; [congruence|].
        destruct (proj2 IH) as [e' He']; [now exists q, e | discriminate].
      * split; [|intros _; now exists e'].
        intros _. destruct (proj1 IH) as [q [e [Hq Hr]]]; [now exists e'|].
        exists q, e. auto.
    + split; [|intros _; now exists e].
      intros _. exists p, e. auto.
Qed.

Lemma get_stars_count_raises (v : pyvalue) :
  (exists e, get_stars_count v = Raise e)
  <-> exists f, v = PyFloat f /\ (f = FNaN \/ exists negative, f = FInf negative).
Proof.
  split.
  - intros [e H]. destruct v as [|s|b|n|f|l|m]; simpl in H; try discriminate.
    + unfold PyStr.int_of_str in H.
      destruct (PyStr.isdigit (PyStr.remove "," s)); discriminate.
    + exists f. split; [reflexivity|].
      destruct f as [|negative|q]; [now left | right; now exists negative
                                   | discriminate].
  - intros [f [-> [-> | [negative ->]]]]; eexists; reflexivity.
Qed.


Lemma insert_by_stars_perm (x : repo * Z) (l : list (repo * Z)) :
  Permutation (insert_by_stars x l) (x :: l).
Proof.
  induction l as [|h t IH]; simpl; [reflexivity|].
  destruct (snd h <=? snd x)%Z; [reflexivity|].
  rewrite IH. apply perm_swap.
Qed.

Lemma sorted_by_stars_perm (l : list (repo * Z)) :
  Permutation (sorted_by_stars l) l.
Proof.
  induction l as [|x l IH]; simpl; [reflexivity|].
  rewrite insert_by_stars_perm. now apply perm_skip.
Qed.

Lemma insert_by_stars_sorted (x : repo * Z) (l : list (repo * Z)) :
  StronglySorted (fun a b => (snd b <= snd a)%Z) l ->
  StronglySorted (fun a b => (snd b <= snd a)%Z) (insert_by_stars x l).
Proof.
  induction l as [|h t IH]; intros Hs; simpl.
  - constructor; constructor.
  - destruct (Z.leb_spec (snd h) (snd x)) as [Hle|Hgt].
    + constructor; [exact Hs|]. constructor; [exact Hle|].
      inversion Hs as [|? ? _ Hall]; subst.
      eapply Forall_impl; [|exact Hall]. simpl. intros y Hy. lia.
    + inversion Hs as [|? ? Ht Hall]; subst.
      constructor; [now apply IH|].
      eapply Permutation_Forall; [symmetry; apply insert_by_stars_perm|].
      constructor; [lia | exact Hall].
Qed.

Lemma sorted_by_stars_sorted (l : list (repo * Z)) :
  StronglySorted (fun a b => (snd b <= snd a)%Z) (sorted_by_stars l).
Proof.
  induction l as [|x l IH]; simpl; [constructor|].
  now apply insert_by_stars_sorted.
Qed.

Lemma in_firstn {A : Type} (n : nat) (l : list A) (a : A) :
  In a (firstn n l) -> In a l.
Proof.
  intros H. rewrite <- (firstn_skipn n l). apply in_or_app. now left.
Qed.

Lemma in_skipn {A : Type} (n : nat) (l : list A) (a : A) :
  In a (skipn n l) -> In a l.
Proof.
  intros H. rewrite <- (firstn_skipn n l). apply in_or_app. now right.
Qed.

Lemma strongly_sorted_firstn {A : Type} (R : A -> A -> Prop) (n : nat)
    (l : list A) :
  StronglySorted R l ->
  StronglySorted R (firstn n l)
  /\ (forall a b, In a (firstn n l) -> In b (skipn n l) -> R a b).
Proof.
  revert n. induction l as [|h t IH]; intros n Hs.
  - rewrite firstn_nil, skipn_nil. split; [constructor | intros a b []].
  - destruct n as [|n]; simpl.
    + split; [constructor | intros a b []].
    + inversion Hs as [|? ? Ht Hall]; subst.
      destruct (IH n Ht) as [H1 H2]. rewrite Forall_forall in Hall. split.
      * constructor; [exact H1|]. apply Forall_forall.
        intros y Hy. apply Hall. eapply in_firstn. exact Hy.
      * intros a b [<-|Ha] Hb; [|now apply H2].
        apply Hall. eapply in_skipn. exact Hb.
Qed.

Lemma analyze_inv (month_data : list repo) (s : summary) :
  analyze_popular_projects month_data = Ok (Analysed s) ->
  exists counted,
    count_all month_data = Ok counted
    /\ month_data <> []
    /\ s = {| total_projects := List.length month_data;
              high_star_projects :=
                List.length (filter (fun x => (1000 <=? snd x)%Z) counted);
              popular_projects :=
                List.length
                  (if (List.length
                         (filter
                            (fun x =>
                               (3 <=? conditions_met (snd x) (fst x))%nat)
                            counted) <? 10)%nat
                   then filter (fun x => (1000 <=? snd x)%Z) counted
                   else filter
                          (fun x => (3 <=? conditions_met (snd x) (fst x))%nat)
                          counted);
              total_stars := fold_left (fun acc x => (acc + snd x)%Z) counted 0%Z;
              top_projects := map fst (firstn 10 (sorted_by_stars counted)) |}.
Proof.
  unfold analyze_popular_projects.
  destruct month_data as [|p rest]; [discriminate|].
  destruct (count_all (p :: rest)) as [counted|e]; [|discriminate].
  cbn [bind]. destruct (true_divide _ _) as [avg|e]; [|discriminate].
  intros [= <-]. exists counted. repeat split. discriminate.
Qed.

End MonthlyFacts.

Section MonthlyCounts.

Lemma filter_length_bound {A : Type} (f : A -> bool) (l : list A) :
  List.length (filter f l) <= List.length l.
Proof.
  induction l as [|a l IH]; simpl; [lia|].
  destruct (f a); simpl; lia.
Qed.

Lemma total_stars_bound (counted : list (repo * Z)) (a : Z) :
  (forall x, In x counted -> (0 <= snd x)%Z) ->
  (a + 1000 * Z.of_nat
              (List.length (filter (fun x => (1000 <=? snd x)%Z) counted))
   <= fold_left (fun acc x => (acc + snd x)%Z) counted a)%Z.
Proof.
  revert a. induction counted as [|x l IH]; intros a Hpos;
    cbn [filter fold_left List.length]; [lia|].
  assert (Hx : (0 <= snd x)%Z) by (apply Hpos; now left).
  assert (Hl : forall y, In y l -> (0 <= snd y)%Z)
    by (intros y Hy; apply Hpos; now right).
  specialize (IH (a + snd x)%Z Hl).
  destruct (Z.leb_spec 1000 (snd x)) as [Hge|Hlt]; [|lia].
  cbn [List.length]. rewrite Nat2Z.inj_succ. lia.
Qed.

Lemma float_limit_pos : (0 < float_limit)%Z.
Proof.
  unfold float_limit. apply Z.lt_0_sub. apply Z.pow_lt_mono_r; lia.
Qed.

Lemma float_limit_above (z : Z) :
  (Z.abs z <? 2 ^ 64)%Z = true -> (Z.abs z < float_limit)%Z.
Proof.
  intros H. apply Z.ltb_lt in H.
  assert (L : (2 ^ 64 <= float_limit)%Z).
  { unfold float_limit.
    replace (2 ^ 1024)%Z with (2 * 2 ^ 1023)%Z
      by (rewrite <- Z.pow_succ_r by lia; reflexivity).
    assert (2 ^ 970 <= 2 ^ 1023)%Z by (apply Z.pow_le_mono_r; lia).
    assert (2 ^ 64 <= 2 ^ 1023)%Z by (apply Z.pow_le_mono_r; lia).
    remember (2 ^ 970)%Z. remember (2 ^ 1023)%Z. remember (2 ^ 64)%Z. lia. }
  remember (2 ^ 64)%Z. lia.
Qed.

Lemma count_all_within (month_data : list repo) (P : Z -> Prop) :
  (forall p, In p month_data ->
     exists z, get_stars_count (stars_of p) = Ok z /\ P z) ->
  exists counted,
    count_all month_data = Ok counted
    /\ List.length counted = List.length month_data
    /\ (forall x, In x counted -> P (snd x)).
Proof.
  induction month_data as [|p rest IH]; intros H.
  - exists []. repeat split. intros x [].
  - destruct (H p (or_introl eq_refl)) as [z [Hz Pz]].
    destruct (IH (fun q Hq => H q (or_intror Hq))) as [c [Hc [Hl Hp]]].
    exists ((p, z) :: c). cbn [count_all]. rewrite Hz, Hc. cbn [bind].
    split; [reflexivity|]. split; [cbn [List.length]; now rewrite Hl|].
    intros x [<-|Hx]; [exact Pz | now apply Hp].
Qed.

Lemma sum_within (counted : list (repo * Z)) (limit a : Z) :
  (forall x, In x counted -> (Z.abs (snd x) < limit)%Z) ->
  (Z.abs (fold_left (fun acc x => acc + snd x) counted a)
   <= Z.abs a + (limit - 1) * Z.of_nat (List.length counted))%Z.
Proof.
  revert a. induction counted as [|x l IH]; intros a H;
    cbn [fold_left List.length].
  - lia.
  - assert (Hx := H x (or_introl eq_refl)).
    specialize (IH (a + snd x)%Z (fun y Hy => H y (or_intror Hy))).
    rewrite Nat2Z.inj_succ, Z.mul_succ_r.
    remember ((limit - 1) * Z.of_nat (List.length l))%Z as rest.
    lia.
Qed.

Lemma lstrip_nil (s : text) :
  lstrip s = [] <-> forallb is_space s = true.
Proof.
  induction s as [|c s IH]; cbn [lstrip forallb]; [tauto|].
  destruct (is_space c); cbn [andb]; [exact IH|].
  split; discriminate.
Qed.

Lemma lstrip_spaces (s : text) :
  forallb is_space (lstrip s) = true -> lstrip s = [].
Proof.
  induction s as [|c s IH]; cbn [lstrip]; [reflexivity|].
  destruct (is_space c) eqn:E; [exact IH|].
  cbn [forallb]. rewrite E. discriminate.
Qed.

Lemma forallb_rev {A : Type} (f : A -> bool) (l : list A) :
  forallb f (rev l) = forallb f l.
Proof.
  destruct (forallb f l) eqn:E.
  - apply forallb_forall. intros x Hx. apply in_rev in Hx.
    rewrite forallb_forall in E. now apply E.
  - destruct (forallb f (rev l)) eqn:E'; [|reflexivity].
    rewrite forallb_forall in E'.
    assert (T : forallb f l = true); [|congruence].
    apply forallb_forall. intros x Hx. apply E'. now apply in_rev in Hx.
Qed.

(** A text is blank once stripped exactly when all its characters are white
    space. *)
Lemma strip_nil (s : text) :
  strip s = [] <-> forallb is_space s = true.
Proof.
  unfold strip. rewrite <- lstrip_nil. split.
  - intros H. apply (f_equal (@rev N)) in H. rewrite rev_involutive in H.
    cbn [rev] in H. apply lstrip_nil in H. rewrite forallb_rev in H.
    now apply lstrip_spaces.
  - intros ->. reflexivity.
Qed.

Lemma existsb_negb {A : Type} (f : A -> bool) (l : list A) :
  existsb (fun x => negb (f x)) l = negb (forallb f l).
Proof.
  induction l as [|x l IH]; cbn [existsb forallb]; [reflexivity|].
  rewrite IH. now destruct (f x), (forallb f l).
Qed.

Lemma strip_not_blank (s : text) :
  match strip s with [] => false | _ :: _ => true end
  = existsb (fun c => negb (is_space c)) s.
Proof.
  rewrite existsb_negb.
  destruct (strip s) as [|c r] eqn:E.
  - apply strip_nil in E. now rewrite E.
  - destruct (forallb is_space s) eqn:F; [|reflexivity].
    apply strip_nil in F. congruence.
Qed.

(** The count of the conditions that the code takes is the moderate
    standard. *)
Lemma conditions_met_standard (stars : Z) (p : repo) :
  (3 <=? conditions_met stars p)%nat = moderate_standard stars p.
Proof.
  unfold conditions_met, moderate_standard.
  assert (D : (20 <? List.length (strip (or_empty (description p))))%nat
              = match description p with
                | Val text => (21 <=? List.length (strip text))%nat
                | _ => false
                end)
    by (destruct (description p); reflexivity).
  assert (T : (1 <=? List.length (or_empty (topics p)))%nat
              = match topics p with
                | Val (_ :: _) => true
                | _ => false
                end)
    by (destruct (topics p) as [| |[|t ts]]; reflexivity).
  assert (L : match or_empty (language p) with
              | [] => false
              | _ :: _ =>
                  negb (text_eqb (or_empty (language p)) (literal "null"))
                  && match strip (or_empty (language p)) with
                     | [] => false
                     | _ :: _ => true
                     end
              end
              = match language p with
                | Val text =>
                    negb (text_eqb text (literal "null"))
                    && existsb (fun c => negb (is_space c)) text
                | _ => false
                end).
  { destruct (language p) as [| |[|c l]]; try reflexivity.
    cbn [or_empty]. now rewrite strip_not_blank. }
  rewrite D, T, L.
  destruct (2000 <=? stars)%Z;
    destruct (match description p with
              | Val text => (21 <=? List.length (strip text))%nat
              | _ => false
              end);
    destruct (match topics p with
              | Val (_ :: _) => true
              | _ => false
              end);
    destruct (match language p with
              | Val text =>
                  negb (text_eqb text (literal "null"))
                  && existsb (fun c => negb (is_space c)) text
              | _ => false
              end); reflexivity.
Qed.

End MonthlyCounts.

(** X3. The top projects of a month are its ten projects with the most
    stars (all of them when there are fewer), in descending order of their
    star counts: they are drawn from the month's projects, and no project
    left out has more stars than one that is in. *)
Theorem top_projects_are_the_greatest (month_data : list repo) (s : summary) :
  analyze_popular_projects month_data = Ok (Analysed s) ->
  exists counted top rest,
    map fst counted = month_data
    /\ (forall x, In x counted ->
          get_stars_count (stars_of (fst x)) = Ok (snd x))
    /\ top_projects s = map fst top
    /\ Permutation (top ++ rest) counted
    /\ List.length (top_projects s) = Nat.min 10 (List.length month_data)
    /\ StronglySorted (fun a b => (snd b <= snd a)%Z) top
    /\ (forall a b, In a top -> In b rest -> (snd b <= snd a)%Z).
Proof.
  intros H. destruct (analyze_inv _ _ H) as [counted [Hc [_ ->]]].
  destruct (count_all_spec _ _ Hc) as [Hfst Hstars].
  exists counted, (firstn 10 (sorted_by_stars counted)),
    (skipn 10 (sorted_by_stars counted)).
  destruct (strongly_sorted_firstn _ 10 _ (sorted_by_stars_sorted counted))
    as [Hs Hdom].
  split; [exact Hfst|]. split; [exact Hstars|]. split; [reflexivity|].
  split; [rewrite firstn_skipn; apply sorted_by_stars_perm|].
  split; [|split; [exact Hs | exact Hdom]].
  cbn [top_projects]. rewrite length_map, length_firstn.
  rewrite (Permutation_length (sorted_by_stars_perm counted)).
  rewrite <- Hfst, length_map. reflexivity.
Qed.

(** X3 at a month of three projects. *)
Lemma top_projects_are_the_greatest_witness :
  let r n :=
    {| stars_count := Val (PyInt n); description := Null; topics := Missing;
       language := Val (literal "Go") |} in
  exists s,
    analyze_popular_projects [r 5%Z; r 3000%Z; r 1000%Z] = Ok (Analysed s)
    /\ top_projects s = [r 3000%Z; r 1000%Z; r 5%Z]
    /\ List.length (top_projects s) = 3.
Proof.
  intros r. eexists. split; [reflexivity|]. split; [reflexivity|].
  destruct (top_projects_are_the_greatest [r 5%Z; r 3000%Z; r 1000%Z] _ eq_refl)
    as [counted [top [rest [_ [_ [_ [_ [Hlen _]]]]]]]].
  exact Hlen.
Defined.

(** X4. In the analysis of a month the high-star projects are the projects
    with 1000 stars or more; the popular projects are the projects that meet
    the moderate standard (at least three of: 2000 stars or more, a
    description of more than 20 characters once stripped, a topic, a
    language that is given, not "null" and not blank) when there are ten or
    more of these, and the high-star projects otherwise.  Neither number
    exceeds the number of projects, and when no star count is negative the
    total of the stars is at least 1000 for each high-star project. *)
Theorem popularity_counts (month_data : list repo) (s : summary) :
  analyze_popular_projects month_data = Ok (Analysed s) ->
  exists counted,
    map fst counted = month_data
    /\ (forall x, In x counted ->
          get_stars_count (stars_of (fst x)) = Ok (snd x))
    /\ total_projects s = List.length month_data
    /\ 0 < total_projects s
    /\ high_star_projects s
       = List.length (filter (fun x => (1000 <=? snd x)%Z) counted)
    /\ popular_projects s
       = (if (List.length
                (filter (fun x => moderate_standard (snd x) (fst x)) counted)
              <? 10)%nat
          then high_star_projects s
          else List.length
                 (filter (fun x => moderate_standard (snd x) (fst x)) counted))
    /\ high_star_projects s <= total_projects s
    /\ popular_projects s <= total_projects s
    /\ (popular_projects s = high_star_projects s \/ 10 <= popular_projects s)
    /\ ((forall p z, In p month_data ->
            get_stars_count (stars_of p) = Ok z -> (0 <= z)%Z) ->
        (1000 * Z.of_nat (high_star_projects s) <= total_stars s)%Z).
Proof.
  intros H. destruct (analyze_inv _ _ H) as [counted [Hc [Hne ->]]].
  destruct (count_all_spec _ _ Hc) as [Hfst Hstars].
  exists counted.
  cbn [total_projects high_star_projects popular_projects total_stars].
  assert (Hlen : List.length counted = List.length month_data)
    by (rewrite <- Hfst; now rewrite length_map).
  assert (Hmod : filter (fun x => (3 <=? conditions_met (snd x) (fst x))%nat)
                   counted
                 = filter (fun x => moderate_standard (snd x) (fst x)) counted).
  { apply filter_ext. intros x. apply conditions_met_standard. }
  rewrite Hmod.
  split; [exact Hfst|].
  split; [exact Hstars|].
  split; [reflexivity|].
  split; [destruct month_data; [congruence | cbn [List.length]; lia]|].
  split; [reflexivity|].
  clear H.
  split.
  { match goal with
    | |- context [if ?b then _ else _] => destruct b; reflexivity
    end. }
  split; [rewrite <- Hlen; apply filter_length_bound|].
  split.
  { rewrite <- Hlen.
    match goal with
    | |- context [if ?b then _ else _] =>
        destruct b; apply filter_length_bound
    end. }
  split.
  { destruct (Nat.ltb_spec
                (List.length
                   (filter (fun x => moderate_standard (snd x) (fst x))
                      counted)) 10); [now left | now right]. }
  intros Hpos.
  pose proof (total_stars_bound counted 0) as Hb.
  rewrite Z.add_0_l in Hb. apply Hb.
  intros x Hx. apply (Hpos (fst x)).
  - rewrite <- Hfst. now apply in_map.
  - now apply Hstars.
Qed.

(** X4 at a month of ten projects without stars that have a description, a
    topic and a language: all ten are popular and none is a high-star
    project. *)
Lemma popularity_counts_witness :
  let p :=
    {| stars_count := Val (PyInt 0);
       description := Val (literal "  a tool that does many things  ");
       topics := Val [literal "cli"];
       language := Val (literal "Go") |} in
  exists s,
    analyze_popular_projects (repeat p 10) = Ok (Analysed s)
    /\ high_star_projects s = 0
    /\ popular_projects s = 10
    /\ (popular_projects s = high_star_projects s \/ 10 <= popular_projects s).
Proof.
  intros p. eexists. split; [reflexivity|]. split; [reflexivity|].
  split; [reflexivity|].
  destruct (popularity_counts (repeat p 10) _ eq_refl)
    as [counted [_ [_ [_ [_ [_ [_ [_ [_ [H _]]]]]]]]]].
  exact H.
Defined.

(** X5. The analysis of a month raises exactly when the star count of one
    of its projects is a float that is infinite or not a number, or when the
    mean of the counts is too large for a float; it returns its dictionary
    whenever every count is an integer within the range of a float. *)
Theorem analysis_raises_on_unrepresentable_counts (month_data : list repo) :
  ((exists e, analyze_popular_projects month_data = Raise e)
   <-> (exists p f,
          In p month_data /\ stars_count p = Val (PyFloat f)
          /\ (f = FNaN \/ exists negative, f = FInf negative))
       \/ (exists counted,
             count_all month_data = Ok counted
             /\ month_data <> []
             /\ (float_limit * Z.of_nat (List.length month_data)
                 <= Z.abs (fold_left (fun acc x => acc + snd x) counted 0))%Z))
  /\ ((forall p, In p month_data ->
         exists z,
           get_stars_count (stars_of p) = Ok z /\ (Z.abs z < float_limit)%Z) ->
      exists a, analyze_popular_projects month_data = Ok a).
Proof.
  assert (Hfloat : (exists e, count_all month_data = Raise e)
                   <-> exists p f,
                         In p month_data /\ stars_count p = Val (PyFloat f)
                         /\ (f = FNaN \/ exists negative, f = FInf negative)).
  { rewrite count_all_raises. split.
    - intros [p [e [Hin He]]].
      destruct (proj1 (get_stars_count_raises _) (ex_intro _ e He))
        as [f [Hf Hnf]].
      exists p, f. split; [exact Hin|]. split; [|exact Hnf].
      unfold stars_of in Hf. destruct (stars_count p); try discriminate.
      now rewrite Hf.
    - intros [p [f [Hin [Hs Hnf]]]].
      destruct (proj2 (get_stars_count_raises (PyFloat f))) as [e He].
      { now exists f. }
      exists p, e. split; [exact Hin|]. unfold stars_of. now rewrite Hs. }
  split.
  - rewrite <- Hfloat. unfold analyze_popular_projects, true_divide.
    destruct month_data as [|p rest].
    + split; [intros [e H]; discriminate|].
      intros [[e H]|[counted [_ [H _]]]]; [discriminate | now elim H].
    + destruct (count_all (p :: rest)) as [c|e]; cbn [bind].
      * destruct (Z.leb_spec
                    (float_limit * Z.of_nat (List.length (p :: rest)))
                    (Z.abs (fold_left (fun acc x => acc + snd x) c 0)))%Z
          as [Hle|Hlt]; cbn [bind].
        -- split; [|intros _; now exists OverflowError].
           intros _. right. exists c. repeat split; [discriminate | exact Hle].
        -- split; [intros [e H]; discriminate|].
           intros [[e H]|[counted [Hc [_ Hle]]]]; [discriminate|].
           injection Hc as <-. lia.
      * split; [|intros _; now exists e].
        intros _. left. now exists e.
  - intros Hall. destruct (count_all_within _ _ Hall) as [c [Hc [Hlen Hb]]].
    unfold analyze_popular_projects, true_divide.
    destruct month_data as [|p rest]; [eexists; reflexivity|].
    rewrite Hc. cbn [bind].
    pose proof (sum_within _ _ 0%Z Hb) as Hsum.
    pose proof float_limit_pos as Hpos.
    rewrite Hlen in Hsum.
    destruct (Z.leb_spec
                (float_limit * Z.of_nat (List.length (p :: rest)))
                (Z.abs (fold_left (fun acc x => acc + snd x) c 0)))%Z
      as [Hle|Hlt]; cbn [bind]; [|eexists; reflexivity].
    exfalso. cbn [List.length] in *. rewrite Nat2Z.inj_succ in *.
    rewrite Z.mul_sub_distr_r in Hsum.
    remember (Z.of_nat (List.length rest)) as n eqn:En.
    assert (0 <= n)%Z by (subst n; apply Nat2Z.is_nonneg).
    remember (float_limit * Z.succ n)%Z as big.
    lia.
Qed.

(** X5 at a month with one project whose star count is infinite, and at a
    month of two projects with counts in range. *)
Lemma analysis_raises_on_unrepresentable_counts_witness :
  (exists e,
     analyze_popular_projects
       [ {| stars_count := Val (PyFloat (FInf false)); description := Null;
            topics := Null; language := Null |} ] = Raise e)
  /\ (exists a,
        analyze_popular_projects
          [ {| stars_count := Val (PyStr "1,200"); description := Null;
               topics := Null; language := Null |};
            {| stars_count := Null; description := Null;
               topics := Null; language := Null |} ] = Ok a).
Proof.
  split.
  - apply (proj2 (proj1 (analysis_raises_on_unrepresentable_counts _))).
    left. eexists. exists (FInf false).
    split; [now left|]. split; [reflexivity|]. right. now exists false.
  - apply (proj2 (analysis_raises_on_unrepresentable_counts _)).
    intros p [<-|[<-|[]]]; eexists; (split; [reflexivity|]);
      apply float_limit_above; vm_compute; reflexivity.
Defined.

Section MonthlyTrends.

Lemma add_month_other (t : trends) (entry : string * month_file) (m : string) :
  fst entry <> m ->
  dict_get (monthly_analysis (add_month t entry)) m
  = dict_get (monthly_analysis t) m
  /\ dict_get (monthly_trends (add_month t entry)) m
     = dict_get (monthly_trends t) m.
Proof.
  intros Hne. unfold add_month.
  destruct (snd entry) as [|month_data]; [tauto|].
  destruct (analyze_popular_projects month_data) as [a|e]; [|tauto].
  destruct (popular_of a) as [popular|e]; cbn [monthly_analysis monthly_trends];
    rewrite ?dict_get_set_other; auto.
Qed.

Lemma fold_month_other (files : list (string * month_file)) (t : trends)
    (m : string) :
  ~ In m (map fst files) ->
  dict_get (monthly_analysis (fold_left add_month files t)) m
  = dict_get (monthly_analysis t) m
  /\ dict_get (monthly_trends (fold_left add_month files t)) m
     = dict_get (monthly_trends t) m.
Proof.
  revert t. induction files as [|entry files IH]; intros t Hno; simpl;
    [tauto|].
  simpl in Hno.
  destruct (IH (add_month t entry)) as [H1 H2]; [tauto|].
  destruct (add_month_other t entry m) as [H3 H4]; [tauto|].
  rewrite H1, H2, H3, H4. tauto.
Qed.

Lemma add_month_failed (t : trends) (m : string) (file : month_file) :
  (file = BadFile
   \/ exists month_data e,
        file = MonthData month_data
        /\ analyze_popular_projects month_data = Raise e) ->
  add_month t (m, file) = t.
Proof.
  intros [-> | [month_data [e [-> He]]]]; unfold add_month; simpl;
    [reflexivity | now rewrite He].
Qed.

End MonthlyTrends.

(** X6. A month whose file cannot be read, or whose analysis raises, leaves
    no trace: the trends, the analyses and the language statistics are what
    they are without that month. *)
Theorem failed_month_leaves_no_trace (before after : list (string * month_file))
    (m : string) (file : month_file) :
  (file = BadFile
   \/ exists month_data e,
        file = MonthData month_data
        /\ analyze_popular_projects month_data = Raise e) ->
  calculate_monthly_popular_trends (before ++ (m, file) :: after)
  = calculate_monthly_popular_trends (before ++ after).
Proof.
  intros H. unfold calculate_monthly_popular_trends.
  rewrite !fold_left_app. simpl. now rewrite (add_month_failed _ m file H).
Qed.

(** X6 at three months, the second with a star count that is not a
    number. *)
Lemma failed_month_leaves_no_trace_witness :
  let r v :=
    {| stars_count := Val v; description := Null; topics := Missing;
       language := Val (literal "Go") |} in
  let jan := ("2025-01", MonthData [r (PyInt 1500)]) in
  let mar := ("2025-03", MonthData [r (PyStr "2,000")]) in
  calculate_monthly_popular_trends
    [jan; ("2025-02", MonthData [r (PyInt 7); r (PyFloat FNaN)]); mar]
  = calculate_monthly_popular_trends [jan; mar].
Proof.
  intros r jan mar.
  apply (failed_month_leaves_no_trace [jan] [mar] "2025-02").
  right. exists [r (PyInt 7); r (PyFloat FNaN)], ValueError.
  split; reflexivity.
Defined.

(** X7. With one file for a month, what the trends and the analyses hold for
    the month depends on its file alone: nothing for a file that cannot be
    read or an analysis that raises; for a month without projects the
    analysis (the dictionary of zeros) but no trend, since that dictionary
    has no popular_projects key; else the analysis and, as trend, its number
    of popular projects. *)
Theorem month_entry_depends_on_its_file (files : list (string * month_file))
    (m : string) (file : month_file) :
  NoDup (map fst files) ->
  In (m, file) files ->
  let t := calculate_monthly_popular_trends files in
  match file with
  | BadFile =>
      dict_get (monthly_analysis t) m = None
      /\ dict_get (monthly_trends t) m = None
  | MonthData month_data =>
      match analyze_popular_projects month_data with
      | Raise _ =>
          dict_get (monthly_analysis t) m = None
          /\ dict_get (monthly_trends t) m = None
      | Ok NoProjects =>
          month_data = []
          /\ dict_get (monthly_analysis t) m = Some NoProjects
          /\ dict_get (monthly_trends t) m = None
      | Ok (Analysed s) =>
          dict_get (monthly_analysis t) m = Some (Analysed s)
          /\ dict_get (monthly_trends t) m = Some (popular_projects s)
      end
  end.
Proof.
  intros Hnd Hin t. subst t.
  destruct (in_split _ _ Hin) as [l1 [l2 ->]].
  rewrite map_app in Hnd. simpl in Hnd.
  pose proof (NoDup_remove_2 _ _ _ Hnd) as Hno.
  assert (Hno1 : ~ In m (map fst l1))
    by (intros H; apply Hno, in_or_app; now left).
  assert (Hno2 : ~ In m (map fst l2))
    by (intros H; apply Hno, in_or_app; now right).
  unfold calculate_monthly_popular_trends. rewrite fold_left_app. simpl.
  set (t0 := {| monthly_trends := []; monthly_analysis := [];
                language_stats := [] |}).
  destruct (fold_month_other l1 t0 m Hno1) as [Ha1 Ht1].
  simpl in Ha1, Ht1.
  set (t1 := fold_left add_month l1 t0) in *.
  destruct (fold_month_other l2 (add_month t1 (m, file)) m Hno2) as [Ha2 Ht2].
  rewrite Ha2, Ht2. unfold add_month. simpl.
  destruct file as [|month_data]; [now split|].
  destruct (analyze_popular_projects month_data) as [[|s]|e] eqn:E;
    cbn [popular_of monthly_analysis monthly_trends];
    rewrite ?dict_get_set_same; auto.
  split; [|now split].
  unfold analyze_popular_projects in E.
  destruct month_data as [|p rest]; [reflexivity|].
  destruct (count_all (p :: rest)); cbn [bind] in E; [|discriminate].
  destruct (true_divide _ _); discriminate.
Qed.

(** X7 at a month without projects between two months with projects. *)
Lemma month_entry_depends_on_its_file_witness :
  let r v :=
    {| stars_count := Val v; description := Null; topics := Missing;
       language := Val (literal "Go") |} in
  let files :=
    [ ("2025-01", MonthData [r (PyInt 1500)]);
      ("2025-02", MonthData []);
      ("2025-03", MonthData [r (PyStr "2,000")]) ] in
  let t := calculate_monthly_popular_trends files in
  dict_get (monthly_analysis t) "2025-02" = Some NoProjects
  /\ dict_get (monthly_trends t) "2025-02" = None
  /\ dict_get (monthly_trends t) "2025-03" = Some 1.
Proof.
  intros r files t.
  assert (Hnd : NoDup (map fst files)).
  { repeat constructor; simpl; intuition discriminate. }
  pose proof (month_entry_depends_on_its_file files "2025-02" (MonthData [])
                Hnd (or_intror (or_introl eq_refl))) as H2.
  pose proof (month_entry_depends_on_its_file files "2025-03"
                (MonthData [r (PyStr "2,000")]) Hnd
                (or_intror (or_intror (or_introl eq_refl)))) as H3.
  simpl in H2, H3.
  destruct H2 as [_ [H2a H2t]]. destruct H3 as [_ H3t].
  split; [exact H2a|]. split; [exact H2t | exact H3t].
Defined.

(** ** The batch of script 03 *)

Import FinalAnalysisBatch.

Section BatchFacts.

Lemma fold_untouched (files : string -> file_state) (k : string)
    (mfs : list (string * string)) (r : pydict json) :
  (forall m fn, In (m, fn) mfs -> forall suffix, k <> (m ++ suffix)%string) ->
  dict_get
    (fold_left (fun results mf => analyze_metric results (fst mf) (files (snd mf)))
       mfs r) k
  = dict_get r k.
Proof.
  revert r. induction mfs as [|[m fn] mfs IH]; intros r Hk; simpl;
    [reflexivity|].
  rewrite IH.
  - apply analyze_metric_touches. apply (Hk m fn). now left.
  - intros m' fn' Hin. apply (Hk m' fn'). now right.
Qed.

Lemma not_a_metric_key (k : string) :
  k = "org" \/ k = "project" \/ k = "full_name" ->
  forall m fn, In (m, fn) metric_files ->
  forall suffix, k <> (m ++ suffix)%string.
Proof.
  intros Hk m fn Hin suffix E. unfold metric_files in Hin. simpl in Hin.
  repeat (destruct Hin as [Hin|Hin];
          [injection Hin as <- <-;
           destruct Hk as [-> | [-> | ->]]; discriminate E|]).
  destruct Hin.
Qed.

(** The three identity fields are what [collect_metrics] started with. *)
Lemma collect_metrics_identity (org project : string)
    (files : string -> file_state) :
  dict_get (collect_metrics org project files) "org" = Some (JStr org)
  /\ dict_get (collect_metrics org project files) "project"
     = Some (JStr project)
  /\ dict_get (collect_metrics org project files) "full_name"
     = Some (JStr (org ++ "/" ++ project)).
Proof.
  unfold collect_metrics.
  rewrite !fold_untouched by (apply not_a_metric_key; tauto).
  repeat split.
Qed.

Lemma analyze_metric_absent (r : pydict json) (m : string) :
  analyze_metric r m Absent = r.
Proof. reflexivity. Qed.

Lemma analyze_org_member (org_name : string) (entries : list project_entry)
    (r : pydict json) :
  In r (analyze_org org_name entries) ->
  exists entry,
    In entry entries /\ project_is_dir entry = true
    /\ analyze_project_metrics org_name (project_name entry)
         (Some (project_files entry)) = Some r.
Proof.
  induction entries as [|entry rest IH]; cbn [analyze_org]; [intros []|].
  destruct (project_is_dir entry) eqn:D; cbn [negb].
  - destruct (analyze_project_metrics org_name (project_name entry)
                (Some (project_files entry))) as [d|] eqn:E.
    + intros [<-|Hin].
      * exists entry. split; [now left | auto].
      * destruct (IH Hin) as [e [H1 H2]]. exists e. split; [now right | auto].
    + intros Hin. destruct (IH Hin) as [e [H1 H2]].
      exists e. split; [now right | auto].
  - intros Hin. destruct (IH Hin) as [e [H1 H2]].
    exists e. split; [now right | auto].
Qed.

Lemma analyze_orgs_prefix (orgs : list org_entry) (org_count : nat)
    (all : list (pydict json)) :
  exists k,
    analyze_orgs orgs org_count all
    = all ++ flat_map (fun org => analyze_org (org_name org) (org_projects org))
               (firstn k (qualifying orgs))
    /\ k <= List.length (qualifying orgs)
    /\ (k = List.length (qualifying orgs)
        \/ (10 <= org_count + k
            /\ 50 <= List.length (analyze_orgs orgs org_count all))).
Proof.
  revert org_count all. induction orgs as [|org rest IH]; intros c all.
  - exists 0. simpl. rewrite app_nil_r. auto.
  - cbn [analyze_orgs qualifying filter].
    destruct (org_is_dir org); cbn [negb andb]; [|apply IH].
    destruct (listed (org_name org)); cbn [negb]; [|apply IH].
    destruct ((10 <=? c + 1)%nat
              && (50 <=? List.length
                           (all ++ analyze_org (org_name org) (org_projects org)))%nat)
      eqn:Cut.
    + exists 1. cbn [firstn flat_map List.length]. rewrite app_nil_r.
      apply andb_prop in Cut. destruct Cut as [C1 C2].
      apply Nat.leb_le in C1. apply Nat.leb_le in C2.
      split; [reflexivity|]. split; [lia|]. right. split; [lia | exact C2].
    + destruct (IH (c + 1)
                  (all ++ analyze_org (org_name org) (org_projects org)))
        as [k [Hk [Hle Hor]]].
      unfold qualifying in Hk, Hle, Hor.
      exists (S k). cbn [firstn flat_map List.length].
      split; [rewrite Hk, <- app_assoc; reflexivity|]. split; [lia|].
      destruct Hor as [-> | [H1 H2]]; [now left|].
      right. split; [lia | exact H2].
Qed.

End BatchFacts.

(** X8. The batch of script 03 analyses the directories of the listed
    organisations in the order of the listing and stops early only once ten
    of them have been analysed and fifty records collected: its records are
    those of the first [k] such organisations, all of them unless that
    threshold was met; every record carries the name of a listed
    organisation. *)
Theorem batch_analyses_listed_orgs (orgs : list org_entry) :
  exists k,
    analyze_orgs orgs 0 []
    = flat_map (fun org => analyze_org (org_name org) (org_projects org))
        (firstn k (qualifying orgs))
    /\ k <= List.length (qualifying orgs)
    /\ (k = List.length (qualifying orgs)
        \/ (10 <= k /\ 50 <= List.length (analyze_orgs orgs 0 [])))
    /\ (forall r, In r (analyze_orgs orgs 0 []) ->
          exists org,
            In org orgs /\ org_is_dir org = true
            /\ In (org_name org) top_orgs_to_analyze
            /\ dict_get r "org" = Some (JStr (org_name org))).
Proof.
  destruct (analyze_orgs_prefix orgs 0 []) as [k [Hk [Hle Hor]]].
  simpl in Hk. exists k. split; [exact Hk|]. split; [exact Hle|].
  split; [exact Hor|].
  intros r Hr. rewrite Hk in Hr. apply in_flat_map in Hr.
  destruct Hr as [org [Horg Hin]].
  apply in_firstn in Horg. apply filter_In in Horg.
  destruct Horg as [Horgs Hq]. apply andb_prop in Hq. destruct Hq as [Hd Hl].
  exists org. split; [exact Horgs|]. split; [exact Hd|]. split.
  - unfold listed in Hl. apply existsb_exists in Hl.
    destruct Hl as [name [Hname E]]. apply String.eqb_eq in E. now subst.
  - destruct (analyze_org_member _ _ _ Hin) as [entry [_ [_ Hm]]].
    unfold analyze_project_metrics in Hm.
    destruct (3 <? _)%nat; [|discriminate].
    injection Hm as <-. apply collect_metrics_identity.
Qed.

(** X8 at a listing with a file, an organisation that is not listed and a
    listed one with one project. *)
Lemma batch_analyses_listed_orgs_witness :
  let files := fun fn : string =>
    if String.eqb fn "openrank.json"
    then Loaded (JObj [("2024-01", JNum 7)]) else Absent in
  let project :=
    {| project_is_dir := true; project_name := "go"; project_files := files |} in
  let orgs :=
    [ {| org_is_dir := false; org_name := "README.md"; org_projects := [] |};
      {| org_is_dir := true; org_name := "acme"; org_projects := [project] |};
      {| org_is_dir := true; org_name := "golang"; org_projects := [project] |} ] in
  analyze_orgs orgs 0 []
  = [ [("org", JStr "golang"); ("project", JStr "go");
       ("full_name", JStr "golang/go"); ("openrank_latest", JNum 7)] ]
  /\ exists org,
       In org orgs /\ In (org_name org) top_orgs_to_analyze
       /\ org_name org = "golang".
Proof.
  intros files project orgs. split; [reflexivity|].
  destruct (batch_analyses_listed_orgs orgs) as [k [_ [_ [_ H]]]].
  destruct (H [("org", JStr "golang"); ("project", JStr "go");
               ("full_name", JStr "golang/go"); ("openrank_latest", JNum 7)])
    as [org [Hin [_ [Hl Hname]]]].
  - now left.
  - exists org. split; [exact Hin|]. split; [exact Hl|].
    injection Hname as Hname. now symmetry.
Defined.

(** X9. A record of script 03 keeps the identity it started with: its
    fields org, project and full_name are the organisation, the project and
    "organisation/project", whatever the metric files hold, and it has at
    least one more field; a project none of whose seven metric files exists,
    and a project whose directory does not exist, give no record. *)
Theorem project_record_keeps_identity (org project : string) :
  (forall dir r,
      analyze_project_metrics org project dir = Some r ->
      dict_get r "org" = Some (JStr org)
      /\ dict_get r "project" = Some (JStr project)
      /\ dict_get r "full_name" = Some (JStr (org ++ "/" ++ project))
      /\ 3 < List.length r)
  /\ (forall files,
        (forall m fn, In (m, fn) metric_files -> files fn = Absent) ->
        analyze_project_metrics org project (Some files) = None)
  /\ analyze_project_metrics org project None = None.
Proof.
  split; [|split; [|reflexivity]].
  - intros dir r H. unfold analyze_project_metrics in H.
    destruct dir as [files|]; [|discriminate].
    destruct (3 <? List.length (collect_metrics org project files))%nat eqn:L;
      [|discriminate].
    injection H as <-. apply Nat.ltb_lt in L.
    destruct (collect_metrics_identity org project files) as [H1 [H2 H3]].
    auto.
  - intros files Habs. unfold analyze_project_metrics, collect_metrics.
    unfold metric_files in *. simpl.
    rewrite (Habs "stars" "stars.json"),
      (Habs "forks" "technical_fork.json"),
      (Habs "activity" "activity.json"),
      (Habs "openrank" "openrank.json"),
      (Habs "issues" "issues_new.json"),
      (Habs "prs" "change_requests.json"),
      (Habs "contributors" "new_contributors.json") by (simpl; tauto).
    reflexivity.
Qed.

(** X9 at a project with an openrank file only, and at one without any
    metric file. *)
Lemma project_record_keeps_identity_witness :
  let files := fun fn : string =>
    if String.eqb fn "openrank.json"
    then Loaded (JObj [("2024-01", JNum 7); ("org", JNum 1)]) else Absent in
  (exists r,
      analyze_project_metrics "golang" "go" (Some files) = Some r
      /\ dict_get r "org" = Some (JStr "golang"))
  /\ analyze_project_metrics "golang" "go" (Some (fun _ => Absent)) = None.
Proof.
  intros files.
  pose proof (project_record_keeps_identity "golang" "go") as [H1 [H2 _]].
  split.
  - eexists. split; [reflexivity|].
    apply (H1 (Some files) _ eq_refl).
  - apply H2. reflexivity.
Defined.

(** ** Keys of a dictionary that is written to *)

Section DictKeys.

Lemma keys_dict_set_old {V : Type} (d : pydict V) (k : string) (v : V) :
  In k (keys d) -> keys (dict_set d k v) = keys d.
Proof.
  induction d as [|[k0 v0] d IH]; simpl; [tauto|].
  destruct (String.eqb_spec k0 k) as [->|Hne]; [reflexivity|].
  intros [E|Hin]; [congruence|]. simpl. now rewrite IH.
Qed.

Lemma keys_dict_set_new {V : Type} (d : pydict V) (k : string) (v : V) :
  ~ In k (keys d) -> keys (dict_set d k v) = keys d ++ [k].
Proof.
  induction d as [|[k0 v0] d IH]; simpl; [reflexivity|].
  intros Hno. destruct (String.eqb_spec k0 k) as [->|Hne]; [tauto|].
  simpl. rewrite IH; tauto.
Qed.

Lemma keys_dict_set_cases {V : Type} (d : pydict V) (k : string) (v : V) :
  (In k (keys d) /\ keys (dict_set d k v) = keys d)
  \/ (~ In k (keys d) /\ keys (dict_set d k v) = keys d ++ [k]).
Proof.
  destruct (in_dec string_dec k (keys d)) as [H|H].
  - left. split; [exact H | now apply keys_dict_set_old].
  - right. split; [exact H | now apply keys_dict_set_new].
Qed.

Lemma dict_set_nodup {V : Type} (d : pydict V) (k : string) (v : V) :
  NoDup (keys d) -> NoDup (keys (dict_set d k v)).
Proof.
  intros Hnd. destruct (keys_dict_set_cases d k v) as [[_ ->]|[Hno ->]];
    [exact Hnd|].
  apply NoDup_app; [exact Hnd | repeat constructor; intros [] |].
  intros x Hx [<-|[]]. contradiction.
Qed.

Lemma dict_set_length {V : Type} (d : pydict V) (k : string) (v : V) :
  List.length (dict_set d k v) <= S (List.length d).
Proof.
  induction d as [|[k0 v0] d IH]; simpl; [lia|].
  destruct (String.eqb k0 k); simpl; lia.
Qed.

Lemma dict_set_keeps_keys {V : Type} (d : pydict V) (k k' : string) (v : V) :
  In k (keys d) \/ k = k' -> In k (keys (dict_set d k' v)).
Proof.
  destruct (keys_dict_set_cases d k' v) as [[Hin ->]|[_ ->]].
  - intros [H| ->]; assumption.
  - intros [H| ->]; apply in_or_app; [now left | right; now left].
Qed.

End DictKeys.

(** ** The time series of script 03 *)

Section TimeSeriesFacts.

Lemma keys_dict_set {V : Type} (d : pydict V) (k k' : string) (v : V) :
  In k (keys (dict_set d k' v)) -> In k (keys d) \/ k = k'.
Proof.
  induction d as [|[k0 v0] d IH]; simpl.
  - intros [<-|[]]. now right.
  - destruct (String.eqb k0 k'); simpl.
    + intros [<-|H]; [left; now left | left; now right].
    + intros [<-|H]; [left; now left|].
      destruct (IH H) as [H'|H']; [left; now right | now right].
Qed.

Lemma clean_months_keys (data acc : pydict json) (k : string) :
  In k (keys (fold_left keep_step data acc)) ->
  In k (keys acc)
  \/ (has_month_format k = true
      /\ exists k0, In k0 (keys data) /\ k = clean_date k0).
Proof.
  revert acc. induction data as [|[k0 v0] data IH]; intros acc; simpl;
    [now left|].
  intros H. destruct (IH _ H) as [Hacc|[Hf [k1 [Hk1 ->]]]].
  - unfold keep_step in Hacc. simpl in Hacc.
    destruct (PyStr.truthy (clean_date k0) && PyStr.contains "-" (clean_date k0))
      eqn:E1; [|now left].
    destruct (String.length (clean_date k0) =? 7)%nat eqn:E2; [|now left].
    destruct (keys_dict_set _ _ _ _ Hacc) as [H'| ->]; [now left|].
    right. split.
    + unfold has_month_format. rewrite E2.
      apply andb_prop in E1. now destruct E1 as [_ ->].
    + exists k0. split; [now left | reflexivity].
  - right. split; [exact Hf|]. exists k1. split; [now right | reflexivity].
Qed.

Lemma values_at_spec (d : pydict json) (dates : list string) (vs : list json) :
  values_at d dates = Ok vs ->
  Forall2 (fun date v => dict_get d date = Some v) dates vs.
Proof.
  revert vs. induction dates as [|date dates IH]; intros vs; simpl.
  - intros [= <-]. constructor.
  - unfold dict_item. destruct (dict_get d date) as [v|] eqn:E; simpl;
      [|discriminate].
    destruct (values_at d dates) as [vs'|e]; simpl; [|discriminate].
    intros [= <-]. constructor; [exact E | now apply IH].
Qed.

Lemma cumulative_spec (values : list json) (acc : json) (cums : list json) :
  cumulative acc values = Ok cums ->
  List.length cums = List.length values
  /\ forall n c,
       nth_error cums n = Some c ->
       fold_left (fun a v => x <- a ;; PyNum.add x v) (firstn (S n) values)
         (Ok acc) = Ok c.
Proof.
  revert acc cums. induction values as [|v rest IH]; intros acc cums; simpl.
  - intros [= <-]. split; [reflexivity|]. intros [|n] c; discriminate.
  - destruct (PyNum.add acc v) as [t|e] eqn:E; simpl; [|discriminate].
    destruct (cumulative t rest) as [r|e] eqn:C; simpl; [|discriminate].
    intros [= <-]. destruct (IH t r C) as [Hlen Hnth]. split.
    + simpl. now rewrite Hlen.
    + intros [|n] c Hc.
      * simpl in Hc. injection Hc as <-. simpl. rewrite ?E. reflexivity.
      * simpl in Hc. cbn [firstn fold_left bind]. rewrite ?E.
        now apply Hnth.
Qed.

Lemma label_from_length (i last_index : nat) (dates : list string) :
  List.length (label_from i last_index dates) = List.length dates.
Proof.
  revert i. induction dates as [|d rest IH]; intros i; simpl;
    [reflexivity | now rewrite IH].
Qed.

(** The test of the loop is the month format of the cleaned key. *)
Lemma keep_step_eq (clean_data : pydict json) (k : string) (v : json) :
  keep_step clean_data (k, v)
  = if has_month_format (clean_date k)
    then dict_set clean_data (clean_date k) v
    else clean_data.
Proof.
  unfold keep_step, has_month_format. cbn [fst snd].
  destruct (clean_date k) as [|c d]; [reflexivity|].
  cbn [PyStr.truthy andb].
  destruct (PyStr.contains "-" (String c d));
    destruct (String.length (String c d) =? 7)%nat; reflexivity.
Qed.

Lemma clean_months_complete (data acc : pydict json) (k : string) :
  (In k (keys acc)
   \/ (has_month_format k = true
       /\ exists k0, In k0 (keys data) /\ k = clean_date k0)) ->
  In k (keys (fold_left keep_step data acc)).
Proof.
  revert acc. induction data as [|[k0 v0] data IH]; intros acc H;
    cbn [fold_left].
  - destruct H as [H|[_ [k1 [[] _]]]]. exact H.
  - apply IH. rewrite keep_step_eq.
    destruct H as [H|[Hf [k1 [[E|Hk1] ->]]]].
    + left. destruct (has_month_format (clean_date k0)); [|exact H].
      apply dict_set_keeps_keys. now left.
    + cbn [fst] in E. subst k1.
      left. rewrite Hf. apply dict_set_keeps_keys. now right.
    + right. split; [exact Hf|]. now exists k1.
Qed.

Lemma clean_months_nodup (data acc : pydict json) :
  NoDup (keys acc) -> NoDup (keys (fold_left keep_step data acc)).
Proof.
  revert acc. induction data as [|[k0 v0] data IH]; intros acc H;
    cbn [fold_left]; [exact H|].
  apply IH. rewrite keep_step_eq.
  destruct (has_month_format (clean_date k0)); [|exact H].
  now apply dict_set_nodup.
Qed.

(** The value kept for a month is the value of the last key of the series
    that is cleaned to that month. *)
Lemma clean_months_source (members : pydict json) (d : string) (v : json) :
  dict_get (clean_months members) d = Some v ->
  exists before k0 after,
    members = before ++ (k0, v) :: after
    /\ clean_date k0 = d
    /\ forall k' v', In (k', v') after -> clean_date k' <> d.
Proof.
  induction members as [|[k v'] members IH] using rev_ind.
  - discriminate.
  - unfold clean_months. rewrite fold_left_app. cbn [fold_left].
    fold (clean_months members). rewrite keep_step_eq. intros H.
    assert (Hold : dict_get (clean_months members) d = Some v ->
                   clean_date k <> d ->
                   exists before k0 after,
                     members ++ [(k, v')] = before ++ (k0, v) :: after
                     /\ clean_date k0 = d
                     /\ forall k' v'', In (k', v'') after -> clean_date k' <> d).
    { intros Hget Hne. destruct (IH Hget) as [b [k0 [a [E [Hk Ha]]]]].
      exists b, k0, (a ++ [(k, v')]). split; [|split; [exact Hk|]].
      - rewrite E, <- app_assoc. reflexivity.
      - intros k' v'' Hin. apply in_app_or in Hin.
        destruct Hin as [Hin|[[= <- <-]|[]]]; [now apply (Ha k' v'')|].
        exact Hne. }
    destruct (has_month_format (clean_date k)) eqn:F.
    + destruct (String.eqb_spec (clean_date k) d) as [E|Hne].
      * subst d. rewrite dict_get_set_same in H. injection H as <-.
        exists members, k, []. split; [reflexivity|].
        split; [reflexivity | intros k' v'' []].
      * rewrite dict_get_set_other in H by exact Hne.
        now apply Hold.
    + apply Hold; [exact H|]. intros E.
      assert (Hin : In d (keys (clean_months members)))
        by (apply dict_get_member in H; unfold keys;
            change d with (fst (d, v)); now apply in_map).
      unfold clean_months in Hin.
      destruct (clean_months_keys _ _ _ Hin) as [[]|[Hf _]].
      rewrite E in F. congruence.
Qed.

Lemma label_from_nth (dates : list string) (i last_index n : nat) (d : string) :
  nth_error dates n = Some d ->
  nth_error (label_from i last_index dates) n
  = Some (if ((i + n) mod 12 =? 0)%nat || (i + n =? last_index)%nat
          then d else "").
Proof.
  revert i n. induction dates as [|d0 rest IH]; intros i n H.
  - destruct n; discriminate H.
  - destruct n as [|n]; cbn [label_from nth_error] in *.
    + injection H as <-. now rewrite Nat.add_0_r.
    + rewrite (IH (S i) n H).
      now replace (S i + n) with (i + S n) by lia.
Qed.

End TimeSeriesFacts.

(** X10. The time series drawn for a project: its dates are exactly the
    cleaned keys of the series that are seven characters long and contain a
    dash, each once, in ascending order; the label of a date is the date at
    every twelfth position and at the last one, and empty elsewhere; the
    value of a date is the value of the last key of the series that is
    cleaned to it; and the n-th cumulative value is the sum of the values of
    the first n dates, so that the last one is the sum of all the values
    kept. *)
Theorem time_series_is_cumulative (members : pydict json)
    (dates labels : list string) (cums : list json) :
  FinalAnalysisBatch.time_series (JObj members) = Ok (Some (dates, labels, cums)) ->
  (forall d, In d dates <->
        (has_month_format d = true
         /\ exists k0, In k0 (keys members) /\ d = clean_date k0))
  /\ StronglySorted PyStr.le dates
  /\ NoDup dates
  /\ List.length labels = List.length dates
  /\ (forall n d, nth_error dates n = Some d ->
        nth_error labels n
        = Some (if (n mod 12 =? 0)%nat || (n =? List.length dates - 1)%nat
                then d else ""))
  /\ List.length cums = List.length dates
  /\ exists values,
       Forall2
         (fun d v =>
            exists before k0 after,
              members = before ++ (k0, v) :: after
              /\ clean_date k0 = d
              /\ forall k' v', In (k', v') after -> clean_date k' <> d)
         dates values
       /\ (forall n c, nth_error cums n = Some c ->
             PyNum.sum (firstn (S n) values) = Ok c)
       /\ (forall c, nth_error cums (List.length values - 1) = Some c ->
             PyNum.sum values = Ok c).
Proof.
  unfold FinalAnalysisBatch.time_series.
  destruct members as [|item rest]; [discriminate|].
  set (members := item :: rest).
  destruct (clean_months members) as [|i0 r0] eqn:Ecm; [discriminate|].
  rewrite <- Ecm.
  destruct (values_at (clean_months members)
              (PyStr.sorted (keys (clean_months members)))) as [values|e] eqn:V;
    cbn [bind]; [|discriminate].
  destruct (cumulative (JNum 0) values) as [cs|e] eqn:C; cbn [bind];
    [|discriminate].
  intros [= <- <- <-].
  pose proof (values_at_spec _ _ _ V) as HV.
  destruct (cumulative_spec _ _ _ C) as [Hlen Hnth].
  split.
  { intros d. split.
    - intros Hd. apply (Permutation_in _ (sorted_perm _)) in Hd.
      unfold clean_months in Hd.
      destruct (clean_months_keys _ _ _ Hd) as [[]|H]. exact H.
    - intros H.
      apply (Permutation_in _ (Permutation_sym (sorted_perm _))).
      unfold clean_months. apply clean_months_complete. now right. }
  split; [apply sorted_strongly|].
  split.
  { apply (Permutation_NoDup (Permutation_sym (sorted_perm _))).
    unfold clean_months. apply clean_months_nodup. constructor. }
  split; [apply label_from_length|].
  split.
  { intros n d Hd. unfold display_dates.
    now rewrite (label_from_nth _ 0 _ n d Hd). }
  split; [rewrite Hlen; symmetry; eapply Forall2_length; exact HV|].
  exists values. split.
  { eapply Forall2_impl; [|exact HV].
    intros d v Hget. now apply clean_months_source. }
  split; [exact Hnth|].
  intros c Hc. unfold PyNum.sum.
  destruct values as [|v vs]; [destruct cs; [discriminate | discriminate]|].
  rewrite <- (firstn_all (v :: vs)) at 1.
  replace (List.length (v :: vs)) with (S (List.length (v :: vs) - 1))
    by (simpl; lia).
  now apply Hnth.
Qed.

(** X10 at a series with a yearly key, a raw month and two months. *)
Lemma time_series_is_cumulative_witness :
  let members :=
    [("2024", JNum 99); ("2024-02", JNum 3); ("2024-01", JNum 4);
     ("2024-03-raw", JNum 5)] in
  FinalAnalysisBatch.time_series (JObj members)
  = Ok (Some (["2024-01"; "2024-02"; "2024-03"],
              ["2024-01"; ""; "2024-03"],
              [JNum (0 + 4); JNum (0 + 4 + 3); JNum (0 + 4 + 3 + 5)]))
  /\ forall d, In d ["2024-01"; "2024-02"; "2024-03"] ->
       has_month_format d = true.
Proof.
  intros members. split; [reflexivity|].
  intros d Hd.
  destruct (time_series_is_cumulative members _ _ _ eq_refl) as [H _].
  now apply (proj1 (H d)).
Defined.

(** ** The normalisation of script 03 *)

Section NormalizeFacts.

Lemma cell_min_le (acc c : cell) (a : Q) :
  acc = Num a -> exists a', cell_min acc c = Num a' /\ (a' <= a)%Q.
Proof.
  intros ->. destruct c as [|y]; simpl.
  - exists a. split; [reflexivity | apply Qle_refl].
  - destruct (Qle_bool a y) eqn:E.
    + exists a. split; [reflexivity | apply Qle_refl].
    + exists y. split; [reflexivity|].
      destruct (Qlt_le_dec y a) as [H|H]; [now apply Qlt_le_weak|].
      apply Qle_bool_iff in H. congruence.
Qed.

Lemma cell_min_le_new (acc : cell) (x : Q) :
  exists a', cell_min acc (Num x) = Num a' /\ (a' <= x)%Q.
Proof.
  destruct acc as [|a]; simpl.
  - exists x. split; [reflexivity | apply Qle_refl].
  - destruct (Qle_bool a x) eqn:E.
    + exists a. split; [reflexivity | now apply Qle_bool_iff].
    + exists x. split; [reflexivity | apply Qle_refl].
Qed.

Lemma fold_min_le (col : list cell) (acc : cell) :
  (forall a, acc = Num a ->
     exists lo, fold_left cell_min col acc = Num lo /\ (lo <= a)%Q)
  /\ (forall x, In (Num x) col ->
        exists lo, fold_left cell_min col acc = Num lo /\ (lo <= x)%Q).
Proof.
  revert acc. induction col as [|c rest IH]; intros acc; simpl.
  - split; [|intros x []]. intros a ->. exists a. split; [reflexivity|].
    apply Qle_refl.
  - destruct (IH (cell_min acc c)) as [IH1 IH2]. split.
    + intros a Ha. destruct (cell_min_le acc c a Ha) as [a' [E Hle]].
      destruct (IH1 a' E) as [lo [Hlo Hle']].
      exists lo. split; [exact Hlo | now apply Qle_trans with a'].
    + intros x [->|Hin]; [|now apply IH2].
      destruct (cell_min_le_new acc x) as [a' [E Hle]].
      destruct (IH1 a' E) as [lo [Hlo Hle']].
      exists lo. split; [exact Hlo | now apply Qle_trans with a'].
Qed.

Lemma cell_max_ge (acc c : cell) (a : Q) :
  acc = Num a -> exists a', cell_max acc c = Num a' /\ (a <= a')%Q.
Proof.
  intros ->. destruct c as [|y]; simpl.
  - exists a. split; [reflexivity | apply Qle_refl].
  - destruct (Qle_bool a y) eqn:E.
    + exists y. split; [reflexivity | now apply Qle_bool_iff].
    + exists a. split; [reflexivity | apply Qle_refl].
Qed.

Lemma cell_max_ge_new (acc : cell) (x : Q) :
  exists a', cell_max acc (Num x) = Num a' /\ (x <= a')%Q.
Proof.
  destruct acc as [|a]; simpl.
  - exists x. split; [reflexivity | apply Qle_refl].
  - destruct (Qle_bool a x) eqn:E.
    + exists x. split; [reflexivity | apply Qle_refl].
    + exists a. split; [reflexivity|].
      destruct (Qlt_le_dec x a) as [H|H]; [now apply Qlt_le_weak|].
      apply Qle_bool_iff in H. congruence.
Qed.

Lemma fold_max_ge (col : list cell) (acc : cell) :
  (forall a, acc = Num a ->
     exists hi, fold_left cell_max col acc = Num hi /\ (a <= hi)%Q)
  /\ (forall x, In (Num x) col ->
        exists hi, fold_left cell_max col acc = Num hi /\ (x <= hi)%Q).
Proof.
  revert acc. induction col as [|c rest IH]; intros acc; simpl.
  - split; [|intros x []]. intros a ->. exists a. split; [reflexivity|].
    apply Qle_refl.
  - destruct (IH (cell_max acc c)) as [IH1 IH2]. split.
    + intros a Ha. destruct (cell_max_ge acc c a Ha) as [a' [E Hle]].
      destruct (IH1 a' E) as [hi [Hhi Hle']].
      exists hi. split; [exact Hhi | now apply Qle_trans with a'].
    + intros x [->|Hin]; [|now apply IH2].
      destruct (cell_max_ge_new acc x) as [a' [E Hle]].
      destruct (IH1 a' E) as [hi [Hhi Hle']].
      exists hi. split; [exact Hhi | now apply Qle_trans with a'].
Qed.

Lemma cell_min_choice (a b : cell) : cell_min a b = a \/ cell_min a b = b.
Proof.
  destruct a as [|x], b as [|y]; simpl; auto.
  destruct (Qle_bool x y); auto.
Qed.

Lemma cell_max_choice (a b : cell) : cell_max a b = a \/ cell_max a b = b.
Proof.
  destruct a as [|x], b as [|y]; simpl; auto.
  destruct (Qle_bool x y); auto.
Qed.

Lemma fold_choice (f : cell -> cell -> cell) (col : list cell) (acc : cell) :
  (forall a b, f a b = a \/ f a b = b) ->
  fold_left f col acc = acc \/ In (fold_left f col acc) col.
Proof.
  intros Hf. revert acc. induction col as [|c rest IH]; intros acc; simpl;
    [now left|].
  destruct (IH (f acc c)) as [H|H]; [|right; now right].
  rewrite H. destruct (Hf acc c) as [-> | ->]; [now left | right; now left].
Qed.

(** The minimum and the maximum of a column are cells of the column and
    bound its numbers. *)
Lemma col_bounds (col : list cell) (lo hi : Q) :
  col_min col = Num lo -> col_max col = Num hi ->
  In (Num lo) col /\ In (Num hi) col
  /\ forall x, In (Num x) col -> (lo <= x)%Q /\ (x <= hi)%Q.
Proof.
  unfold col_min, col_max. intros Hlo Hhi. split; [|split].
  - destruct (fold_choice cell_min col NaN cell_min_choice) as [H|H];
      [congruence | now rewrite Hlo in H].
  - destruct (fold_choice cell_max col NaN cell_max_choice) as [H|H];
      [congruence | now rewrite Hhi in H].
  - intros x Hx.
    destruct (proj2 (fold_min_le col NaN) x Hx) as [lo' [E1 H1]].
    destruct (proj2 (fold_max_ge col NaN) x Hx) as [hi' [E2 H2]].
    rewrite Hlo in E1. rewrite Hhi in E2.
    injection E1 as <-. injection E2 as <-. now split.
Qed.

Lemma scaled_in_unit (lo hi x : Q) :
  (lo < hi)%Q -> (lo <= x)%Q -> (x <= hi)%Q ->
  (0 <= (x - lo) / (hi - lo))%Q /\ ((x - lo) / (hi - lo) <= 1)%Q.
Proof.
  intros Hlt H1 H2.
  assert (Hpos : (0 < hi - lo)%Q).
  { unfold Qminus. rewrite <- (Qplus_opp_r lo).
    apply Qplus_lt_l. exact Hlt. }
  split.
  - apply Qle_shift_div_l; [exact Hpos|]. rewrite Qmult_0_l.
    unfold Qminus. rewrite <- (Qplus_opp_r lo). now apply Qplus_le_l.
  - apply Qle_shift_div_r; [exact Hpos|]. rewrite Qmult_1_l.
    unfold Qminus. now apply Qplus_le_l.
Qed.

End NormalizeFacts.

(** X11. The normalised column has a value for every row; each value is
    missing, where the cell was, or lies between 0 and 1; when the maximum
    of the column is greater than its minimum, a row with the maximum gets 1
    and a row with the minimum gets 0; and when all the numbers of the
    column are equal (or it has none), every row gets 0. *)
Theorem normalized_column_in_unit_interval (col : list cell) :
  List.length (normalize col) = List.length col
  /\ (forall c, In c (normalize col) ->
        c = NaN \/ exists y, c = Num y /\ (0 <= y)%Q /\ (y <= 1)%Q)
  /\ (forall lo hi,
        col_min col = Num lo -> col_max col = Num hi -> (lo < hi)%Q ->
        exists y1 y0,
          In (Num y1) (normalize col) /\ (y1 == 1)%Q
          /\ In (Num y0) (normalize col) /\ (y0 == 0)%Q)
  /\ ((forall x y, In (Num x) col -> In (Num y) col -> (x == y)%Q) ->
      forall c, In c (normalize col) -> c = Num 0).
Proof.
  assert (Hzero : forall c, In c (map (fun _ : cell => Num 0) col) -> c = Num 0).
  { intros c Hc. apply in_map_iff in Hc. now destruct Hc as [_ [<- _]]. }
  assert (Hunit : forall c, c = Num 0 ->
            c = NaN \/ exists y, c = Num y /\ (0 <= y)%Q /\ (y <= 1)%Q).
  { intros c ->. right. exists 0%Q. repeat split; discriminate. }
  split; [|split; [|split]].
  - unfold normalize. destruct (col_min col), (col_max col);
      try destruct (negb _); apply length_map.
  - intros c Hc. unfold normalize in Hc.
    destruct (col_min col) as [|lo] eqn:Elo; [auto|].
    destruct (col_max col) as [|hi] eqn:Ehi; [auto|].
    destruct (Qle_bool hi lo) eqn:E; cbn [negb] in Hc; [auto|].
    apply in_map_iff in Hc. destruct Hc as [c0 [<- Hc0]].
    destruct c0 as [|x]; [now left|]. right.
    destruct (col_bounds col lo hi Elo Ehi) as [_ [_ Hb]].
    destruct (Hb x Hc0) as [H1 H2].
    exists ((x - lo) / (hi - lo))%Q. split; [reflexivity|].
    apply scaled_in_unit; try assumption.
    destruct (Qlt_le_dec lo hi) as [H|H]; [exact H|].
    apply Qle_bool_iff in H. congruence.
  - intros lo hi Elo Ehi Hlt.
    destruct (col_bounds col lo hi Elo Ehi) as [Hinlo [Hinhi _]].
    assert (E : Qle_bool hi lo = false).
    { destruct (Qle_bool hi lo) eqn:E; [|reflexivity].
      apply Qle_bool_iff in E. elim (Qle_not_lt _ _ E Hlt). }
    assert (Hnz : ~ (hi - lo == 0)%Q).
    { intros H. apply (Qlt_irrefl lo).
      apply Qlt_le_trans with hi; [exact Hlt|].
      rewrite <- (Qplus_0_l lo), <- H. unfold Qminus.
      rewrite <- Qplus_assoc, (Qplus_comm (- lo)), Qplus_opp_r, Qplus_0_r.
      apply Qle_refl. }
    unfold normalize. rewrite Elo, Ehi, E. cbn [negb].
    exists ((hi - lo) / (hi - lo))%Q, ((lo - lo) / (hi - lo))%Q.
    split; [|split; [|split]].
    + apply (in_map (fun c => match c with
                              | NaN => NaN
                              | Num x => Num ((x - lo) / (hi - lo))
                              end) col (Num hi) Hinhi).
    + unfold Qdiv. now apply Qmult_inv_r.
    + apply (in_map (fun c => match c with
                              | NaN => NaN
                              | Num x => Num ((x - lo) / (hi - lo))
                              end) col (Num lo) Hinlo).
    + unfold Qdiv, Qminus. rewrite Qplus_opp_r. apply Qmult_0_l.
  - intros Hconst c Hc. unfold normalize in Hc.
    destruct (col_min col) as [|lo] eqn:Elo; [auto|].
    destruct (col_max col) as [|hi] eqn:Ehi; [auto|].
    destruct (col_bounds col lo hi Elo Ehi) as [Hinlo [Hinhi _]].
    assert (E : Qle_bool hi lo = true).
    { apply Qle_bool_iff. rewrite (Hconst hi lo Hinhi Hinlo). apply Qle_refl. }
    rewrite E in Hc. cbn [negb] in Hc. auto.
Qed.

(** X11 at a column with a missing value, and at a constant column. *)
Lemma normalized_column_in_unit_interval_witness :
  normalize [Num 2; NaN; Num 6; Num 4]
  = [Num ((2 - 2) / (6 - 2)); NaN; Num ((6 - 2) / (6 - 2));
     Num ((4 - 2) / (6 - 2))]
  /\ (exists y1 y0,
         In (Num y1) (normalize [Num 2; NaN; Num 6; Num 4]) /\ (y1 == 1)%Q
         /\ In (Num y0) (normalize [Num 2; NaN; Num 6; Num 4]) /\ (y0 == 0)%Q)
  /\ forall c, In c (normalize [Num 5; Num 5]) -> c = Num 0.
Proof.
  split; [reflexivity|]. split.
  - apply (proj1 (proj2 (proj2
             (normalized_column_in_unit_interval [Num 2; NaN; Num 6; Num 4])))
             2%Q 6%Q eq_refl eq_refl).
    reflexivity.
  - apply (proj2 (proj2 (proj2
             (normalized_column_in_unit_interval [Num 5; Num 5])))).
    intros x y [[= <-]|[[= <-]|[]]] [[= <-]|[[= <-]|[]]]; reflexivity.
Defined.

(** ** From the classifier to the charts *)

Section Translation.

Lemma classify_in_categories (name : string) :
  In (enhanced_classify_project_type name) categories.
Proof.
  rewrite classify_by_groups_eq. unfold classify_by_groups, categories.
  destruct (find _ keyword_groups) as [g|] eqn:E.
  - apply find_some in E. apply in_or_app. left. apply in_map. tauto.
  - apply in_or_app. right. now left.
Qed.

Lemma categories_translated (c : string) :
  In c categories -> exists english, CreateCharts.translate c = Some english.
Proof.
  unfold categories, keyword_groups. cbn [map fst app]. intros H.
  repeat (destruct H as [<-|H]; [eexists; reflexivity|]).
  destruct H.
Qed.

Lemma translate_injective (c c' : string) :
  In c categories -> In c' categories ->
  CreateCharts.translate c = CreateCharts.translate c' -> c = c'.
Proof.
  unfold categories, keyword_groups. cbn [map fst app]. intros H H'.
  repeat (destruct H as [<-|H];
          [repeat (destruct H' as [<-|H'];
                   [intros E; first [reflexivity | discriminate E]|]);
           destruct H'|]).
  destruct H.
Qed.

End Translation.

(** X12. Every project type the classifier of script 04 can return is a key
    of the mapping script 05 translates with, so the translated column has
    no missing value; and two project types that differ have different
    translations. *)
Theorem every_project_type_is_translated (name : string) :
  (exists english,
      CreateCharts.translate (enhanced_classify_project_type name)
      = Some english)
  /\ (forall name',
        CreateCharts.translate (enhanced_classify_project_type name')
        = CreateCharts.translate (enhanced_classify_project_type name) ->
        enhanced_classify_project_type name'
        = enhanced_classify_project_type name).
Proof.
  split.
  - apply categories_translated, classify_in_categories.
  - intros name'. apply translate_injective; apply classify_in_categories.
Qed.

(** X12 at two names. *)
Lemma every_project_type_is_translated_witness :
  CreateCharts.translate (enhanced_classify_project_type "vscode")
  = Some "Development Tools"
  /\ enhanced_classify_project_type "VSCode-Docker"
     = enhanced_classify_project_type "vscode".
Proof.
  split; [reflexivity|].
  apply (proj2 (every_project_type_is_translated "vscode") "VSCode-Docker").
  reflexivity.
Defined.

(** ** The collection loop of script 01 *)

Import ExploreDataBatch.

Section CollectFacts.

Lemma collect_org_member (org_name : string)
    (project_folders : list project_folder) (info : ExploreData.project_info) :
  In info (collect_org org_name project_folders) ->
  exists project_name stars_file activity_file,
    In (project_name, stars_file, activity_file) project_folders
    /\ ExploreData.collect_project org_name project_name stars_file
         activity_file = Some info.
Proof.
  induction project_folders as [|[[p s] a] rest IH]; cbn [collect_org];
    [intros []|].
  destruct (ExploreData.collect_project org_name p s a) as [i|] eqn:E.
  - intros [<-|Hin].
    + exists p, s, a. split; [now left | exact E].
    + destruct (IH Hin) as [p' [s' [a' [H1 H2]]]].
      exists p', s', a'. split; [now right | exact H2].
  - intros Hin. destruct (IH Hin) as [p' [s' [a' [H1 H2]]]].
    exists p', s', a'. split; [now right | exact H2].
Qed.

Lemma collect_project_inv (org_name project_name : string)
    (stars_file activity_file : file_state) (info : ExploreData.project_info) :
  ExploreData.collect_project org_name project_name stars_file activity_file
  = Some info ->
  ExploreData.organization info = org_name
  /\ ExploreData.project info = project_name
  /\ ExploreData.full_name info = (org_name ++ "/" ++ project_name)%string
  /\ exists stars_data,
       stars_file = Loaded stars_data
       /\ ExploreData.latest_stars stars_data = Ok (ExploreData.stars info).
Proof.
  unfold ExploreData.collect_project.
  destruct stars_file as [| |stars_data]; try discriminate.
  destruct (ExploreData.latest_stars stars_data) as [latest|e] eqn:E;
    [|discriminate].
  intros [= <-]. simpl. repeat split. now exists stars_data.
Qed.

Lemma flat_map_firstn {A B : Type} (f : A -> list B) (n : nat) (l : list A) :
  flat_map f l = flat_map f (firstn n l) ++ flat_map f (skipn n l).
Proof. now rewrite <- flat_map_app, firstn_skipn. Qed.

Lemma nonempty_app {B : Type} (l1 l2 limited : list B) :
  match l1 with [] => None | p :: l => Some (p :: l) end = Some limited ->
  match l1 ++ l2 with [] => None | p :: l => Some (p :: l) end
  = Some (limited ++ l2).
Proof. destruct l1; [discriminate | intros [= <-]; reflexivity]. Qed.

End CollectFacts.

(** X13. In the collection of script 01, a limit of 0 organisations is no
    limit, as is a limit that is not below their number; a positive limit
    keeps the first organisations, and the records collected without limit
    then start with the records collected with it; every record collected
    names its organisation and project, has "organisation/project" as full
    name and comes from a project folder whose stars file was loaded and
    summed without error. *)
Theorem collection_limit (org_folders : list org_folder) :
  collect_project_info org_folders (Some 0%Z)
  = collect_project_info org_folders None
  /\ (forall n, (Z.of_nat (List.length org_folders) <= n)%Z ->
        collect_project_info org_folders (Some n)
        = collect_project_info org_folders None)
  /\ (forall n, (0 < n)%Z ->
        collect_project_info org_folders (Some n)
        = collect_project_info (firstn (Z.to_nat n) org_folders) None)
  /\ (forall n limited, (0 < n)%Z ->
        collect_project_info org_folders (Some n) = Some limited ->
        exists more,
          collect_project_info org_folders None = Some (limited ++ more))
  /\ (forall max_orgs infos info,
        collect_project_info org_folders max_orgs = Some infos ->
        In info infos ->
        ExploreData.full_name info
        = (ExploreData.organization info ++ "/" ++ ExploreData.project info)%string
        /\ exists project_folders stars_data activity_file,
             In (ExploreData.organization info, project_folders) org_folders
             /\ In (ExploreData.project info, Loaded stars_data, activity_file)
                  project_folders
             /\ ExploreData.latest_stars stars_data
                = Ok (ExploreData.stars info)).
Proof.
  split; [reflexivity|]. split; [|split; [|split]].
  - intros n Hn. unfold collect_project_info.
    destruct (Z.eqb_spec n 0) as [->|Hne]; [reflexivity|].
    unfold slice_to. destruct (Z.leb_spec 0 n) as [H0|H0]; [|lia].
    rewrite firstn_all2 by lia. reflexivity.
  - intros n Hn. unfold collect_project_info.
    destruct (Z.eqb_spec n 0) as [->|Hne]; [lia|].
    unfold slice_to. destruct (Z.leb_spec 0 n) as [H0|H0]; [|lia].
    reflexivity.
  - intros n limited Hn. unfold collect_project_info.
    destruct (Z.eqb_spec n 0) as [->|Hne]; [lia|].
    unfold slice_to. destruct (Z.leb_spec 0 n) as [H0|H0]; [|lia].
    intros H.
    rewrite (flat_map_firstn _ (Z.to_nat n) org_folders).
    exists (flat_map (fun org : org_folder => collect_org (fst org) (snd org))
              (skipn (Z.to_nat n) org_folders)).
    apply nonempty_app. exact H.
  - intros max_orgs infos info H Hin. unfold collect_project_info in H.
    set (considered :=
           match max_orgs with
           | Some n => if (n =? 0)%Z then org_folders else slice_to n org_folders
           | None => org_folders
           end) in H.
    assert (Hsub : forall o, In o considered -> In o org_folders).
    { intros o Ho. unfold considered, slice_to in Ho.
      destruct max_orgs as [n|]; [|exact Ho].
      destruct (n =? 0)%Z; [exact Ho|].
      destruct (0 <=? n)%Z; eapply in_firstn; exact Ho. }
    match type of H with
    | match ?x with _ => _ end = _ => destruct x as [|i l] eqn:F
    end; [discriminate|].
    injection H as <-. rewrite <- F in Hin. apply in_flat_map in Hin.
    destruct Hin as [[o pfs] [Ho Hinfo]]. simpl in Hinfo.
    destruct (collect_org_member _ _ _ Hinfo) as [p [s [a [Hp Hc]]]].
    destruct (collect_project_inv _ _ _ _ _ Hc)
      as [H1 [H2 [H3 [stars_data [-> H5]]]]].
    split; [now rewrite H1, H2|].
    exists pfs, stars_data, a. rewrite H1, H2.
    split; [apply Hsub; exact Ho|]. split; [exact Hp | exact H5].
Qed.

(** X13 at two organisations and the limits 1 and 5. *)
Lemma collection_limit_witness :
  let stars := Loaded (JObj [("2024-01", JNum 3)]) in
  let orgs := [("a", [("x", stars, Absent)]); ("b", [("y", stars, Absent)])] in
  collect_project_info orgs (Some 5%Z) = collect_project_info orgs None
  /\ collect_project_info orgs (Some 1%Z)
     = collect_project_info [("a", [("x", stars, Absent)])] None
  /\ exists more,
       collect_project_info orgs None
       = Some ([ {| ExploreData.organization := "a";
                    ExploreData.project := "x";
                    ExploreData.full_name := "a/x";
                    ExploreData.stars := JNum (0 + 3);
                    ExploreData.activity := JNum 0 |} ] ++ more).
Proof.
  intros stars orgs.
  pose proof (collection_limit orgs) as [_ [H2 [H3 [H4 _]]]].
  split; [apply H2; simpl; lia|]. split; [apply (H3 1%Z); lia|].
  apply (H4 1%Z); [lia | reflexivity].
Defined.

(** ** The size of the merged table *)

Lemma assign_rank_names (n : nat) (l : list project_record) :
  map full_name (assign_rank n l) = map full_name l.
Proof.
  revert n. induction l as [|r l IH]; intros n; simpl; [reflexivity|].
  now rewrite IH.
Qed.

(** X14. The merged table has one row for each row of the complete ranking
    and one for each top-100 row whose name the complete ranking does not
    have: rows are neither dropped nor merged, so a name that occurs twice
    in the complete ranking, or twice in the top-100 list, occurs twice in
    the table. *)
Theorem merged_table_size (complete_df : list complete_row)
    (top100_df : list top100_row) (improved_df : list improved_row)
    (final_df : list project_record) :
  load_and_merge_data complete_df top100_df improved_df = Ok final_df ->
  List.length final_df
  = List.length complete_df
    + List.length
        (filter
           (fun row =>
              negb (mem (tr_full_name row) (map cr_full_name complete_df)))
           top100_df)
  /\ map full_name (extend complete_df top100_df improved_df)
     = map cr_full_name complete_df
       ++ map tr_full_name
            (filter
               (fun row =>
                  negb (mem (tr_full_name row) (map cr_full_name complete_df)))
               top100_df)
  /\ Permutation (map full_name final_df)
       (map full_name (extend complete_df top100_df improved_df)).
Proof.
  intros H. apply load_inv in H. subst final_df.
  pose proof (extend_unranked complete_df top100_df improved_df) as Hu.
  assert (Hnames : map full_name (extend complete_df top100_df improved_df)
                   = map cr_full_name complete_df
                     ++ map tr_full_name
                          (filter
                             (fun row =>
                                negb (mem (tr_full_name row)
                                        (map cr_full_name complete_df)))
                             top100_df)).
  { apply (f_equal (map full_name)) in Hu.
    rewrite map_map, map_app, !map_map in Hu. exact Hu. }
  split; [|split; [exact Hnames|]].
  - rewrite assign_rank_length.
    rewrite (Permutation_length (concat_perm _)).
    rewrite <- (length_map full_name), Hnames.
    now rewrite length_app, !length_map.
  - transitivity (map full_name
                    (concat (extend complete_df top100_df improved_df))).
    + rewrite assign_rank_names. reflexivity.
    + apply Permutation_map, concat_perm.
Qed.

(** X14 at a top-100 list that names one project twice. *)
Lemma merged_table_size_witness :
  let t :=
    {| tr_organization := "o"; tr_project := "x"; tr_full_name := "o/x";
       tr_stars := Num 5; tr_activity := Num 1 |} in
  exists final_df,
    load_and_merge_data [] [t; t] [] = Ok final_df
    /\ List.length final_df = 2.
Proof.
  intros t. eexists. split; [reflexivity|].
  apply (proj1 (merged_table_size [] [t; t] [] _ eq_refl)).
Defined.

(** ** The cleaned series is a dictionary *)

Section CleanedKeys.

Lemma clean_fold_invariant (data acc : pydict json) :
  NoDup (keys acc) ->
  NoDup (keys (fold_left clean_step data acc))
  /\ List.length (fold_left clean_step data acc)
     <= List.length acc + List.length data
  /\ forall k,
       In k (keys (fold_left clean_step data acc))
       <-> (In k (keys acc)
            \/ (k <> "" /\ exists k0, In k0 (keys data) /\ k = clean_date k0)).
Proof.
  revert acc. induction data as [|[k0 v0] data IH]; intros acc Hnd; simpl.
  - split; [exact Hnd|]. split; [lia|]. intros k. split; [now left|].
    intros [H|[_ [k0 [[] _]]]]. exact H.
  - assert (Hstep : NoDup (keys (clean_step acc (k0, v0)))).
    { unfold clean_step. simpl. destruct (PyStr.truthy (clean_date k0));
        [now apply dict_set_nodup | exact Hnd]. }
    destruct (IH _ Hstep) as [H1 [H2 H3]].
    split; [exact H1|]. split.
    + eapply Nat.le_trans; [exact H2|].
      unfold clean_step. simpl. destruct (PyStr.truthy (clean_date k0)).
      * pose proof (dict_set_length acc (clean_date k0) v0). lia.
      * lia.
    + intros k. rewrite H3. unfold clean_step. simpl.
      destruct (PyStr.truthy (clean_date k0)) eqn:T.
      * split.
        -- intros [H|[Hne [k1 [Hk1 ->]]]].
           ++ destruct (keys_dict_set _ _ _ _ H) as [H'| ->]; [now left|].
              right. split; [destruct (clean_date k0); [discriminate T|discriminate]|].
              exists k0. split; [now left | reflexivity].
           ++ right. split; [exact Hne|]. exists k1. split; [now right | reflexivity].
        -- intros [H|[Hne [k1 [[<-|Hk1] ->]]]].
           ++ left. apply dict_set_keeps_keys. now left.
           ++ left. apply dict_set_keeps_keys. now right.
           ++ right. split; [exact Hne|]. now exists k1.
      * split.
        -- intros [H|[Hne [k1 [Hk1 ->]]]]; [now left|].
           right. split; [exact Hne|]. exists k1. split; [now right | reflexivity].
        -- intros [H|[Hne [k1 [[<-|Hk1] ->]]]]; [now left| |].
           ++ destruct (clean_date k0); [congruence | discriminate T].
           ++ right. split; [exact Hne|]. now exists k1.
Qed.

End CleanedKeys.

(** X15. The cleaned series of script 03 is a dictionary again: its keys are
    distinct, they are exactly the non-empty cleaned keys of the series, and
    it has no more entries than the series. *)
Theorem cleaned_series_keys (data : pydict json) :
  NoDup (keys (clean_series data))
  /\ List.length (clean_series data) <= List.length data
  /\ forall k,
       In k (keys (clean_series data))
       <-> (k <> "" /\ exists k0, In k0 (keys data) /\ k = clean_date k0).
Proof.
  destruct (clean_fold_invariant data [] (NoDup_nil _)) as [H1 [H2 H3]].
  split; [exact H1|]. split; [exact H2|].
  intros k. unfold clean_series. rewrite H3. simpl. tauto.
Qed.

(** X15 at a series whose keys are a month, its raw form and the suffix
    alone. *)
Lemma cleaned_series_keys_witness :
  keys (clean_series [("2024-03", JNum 1); ("2024-03-raw", JNum 2);
                      ("-raw", JNum 3)])
  = ["2024-03"]
  /\ In "2024-03"
       (keys (clean_series [("2024-03", JNum 1); ("2024-03-raw", JNum 2);
                            ("-raw", JNum 3)])).
Proof.
  split; [reflexivity|].
  apply (proj2 (proj2 (cleaned_series_keys _))). split; [discriminate|].
  exists "2024-03-raw". split; [right; now left | reflexivity].
Defined.

(** ** Star counts written as text *)

Section StarStrings.

Import PopularProjectsAnalyzer.

Lemma remove_comma_cons (c : ascii) (s : string) :
  PyStr.remove "," (String c s)
  = if Ascii.eqb c "," then PyStr.remove "," s
    else String c (PyStr.remove "," s).
Proof.
  unfold PyStr.remove. cbn [PyStr.remove_from].
  change (String.length "," - 1)%nat with 0%nat.
  destruct (prefix "," (String c s)) eqn:E.
  - apply prefix_app in E. destruct E as [post H].
    injection H as -> _. reflexivity.
  - destruct (Ascii.eqb_spec c ",") as [->|Hne]; [|reflexivity].
    assert (T : prefix "," (String "," s) = true)
      by (apply prefix_app; exists s; reflexivity).
    congruence.
Qed.

Lemma remove_comma_app (a b : string) :
  PyStr.remove "," (a ++ b)
  = (PyStr.remove "," a ++ PyStr.remove "," b)%string.
Proof.
  induction a as [|c a IH].
  - reflexivity.
  - change (String c a ++ b)%string with (String c (a ++ b)%string).
    rewrite !remove_comma_cons, IH.
    destruct (Ascii.eqb c ","); reflexivity.
Qed.

Lemma all_digits_app (a b : string) :
  PyStr.all_digits (a ++ b) = PyStr.all_digits a && PyStr.all_digits b.
Proof.
  induction a as [|c a IH]; cbn [append PyStr.all_digits]; [reflexivity|].
  now rewrite IH, andb_assoc.
Qed.

Lemma isdigit_all_digits (s : string) :
  PyStr.isdigit s = true -> PyStr.all_digits s = true.
Proof. destruct s; [discriminate | exact (fun H => H)]. Qed.

Lemma digit_value_nonneg (c : ascii) : (0 <= PyStr.digit_value c)%Z.
Proof. unfold PyStr.digit_value. apply Nat2Z.is_nonneg. Qed.

Lemma int_from_nonneg (s : string) (acc : Z) :
  (0 <= acc)%Z -> (0 <= PyStr.int_from acc s)%Z.
Proof.
  revert acc. induction s as [|c s IH]; intros acc Hacc;
    cbn [PyStr.int_from]; [exact Hacc|].
  apply IH. pose proof (digit_value_nonneg c). lia.
Qed.

End StarStrings.

(** X16. A star count written as text: commas are ignored wherever they
    stand, the count is never negative, and a text with any ASCII character
    that is neither a digit nor a comma (a sign, a decimal point, a blank,
    a unit) counts 0. *)
Theorem star_count_of_text :
  (forall a b : string,
     PopularProjectsAnalyzer.get_stars_count
       (PopularProjectsAnalyzer.PyStr (a ++ "," ++ b))
     = PopularProjectsAnalyzer.get_stars_count
         (PopularProjectsAnalyzer.PyStr (a ++ b)))
  /\ (forall s : string,
        exists n : Z,
          PopularProjectsAnalyzer.get_stars_count
            (PopularProjectsAnalyzer.PyStr s) = Ok n
          /\ (0 <= n)%Z)
  /\ (forall (pre post : string) (c : ascii),
        (nat_of_ascii c < 128)%nat ->
        c <> ","%char ->
        PyStr.is_digit c = false ->
        PopularProjectsAnalyzer.get_stars_count
          (PopularProjectsAnalyzer.PyStr (pre ++ String c post)) = Ok 0%Z).
Proof.
  split; [|split].
  - intros a b. unfold PopularProjectsAnalyzer.get_stars_count.
    rewrite !remove_comma_app.
    change (PyStr.remove "," ",") with EmptyString.
    reflexivity.
  - intros s. unfold PopularProjectsAnalyzer.get_stars_count, PyStr.int_of_str.
    destruct (PyStr.isdigit (PyStr.remove "," s)).
    + eexists. split; [reflexivity|].
      apply int_from_nonneg. lia.
    + exists 0%Z. split; [reflexivity | lia].
  - intros pre post c _ Hc Hd.
    unfold PopularProjectsAnalyzer.get_stars_count.
    rewrite remove_comma_app, remove_comma_cons.
    destruct (Ascii.eqb_spec c ",") as [E|_]; [contradiction|].
    destruct (PyStr.isdigit _) eqn:D; [|reflexivity].
    apply isdigit_all_digits in D. rewrite all_digits_app in D.
    cbn [PyStr.all_digits] in D. rewrite Hd in D.
    rewrite andb_false_l, andb_false_r in D. discriminate.
Qed.

(** X16 at a decimal fraction. *)
Lemma star_count_of_text_witness :
  PopularProjectsAnalyzer.get_stars_count
    (PopularProjectsAnalyzer.PyStr "1.5") = Ok 0%Z.
Proof.
  apply (proj2 (proj2 star_count_of_text) "1" "5" "."%char).
  - vm_compute. lia.
  - discriminate.
  - reflexivity.
Defined.

(** ** The metric records of script 02 *)

Section MetricRecords.

Import DeepAnalysis.

Lemma append_inv_prefix (p a b : string) :
  (p ++ a)%string = (p ++ b)%string -> a = b.
Proof.
  induction p as [|c p IH]; simpl; [exact (fun H => H)|].
  intros H. injection H as H. now apply IH.
Qed.

Lemma read_summed_touches (r : pydict json) (m : string) (data : pydict json)
    (k : string) :
  (forall suffix, k <> (m ++ suffix)%string) ->
  dict_get (read_summed r m data) k = dict_get r k.
Proof.
  intros Hk. unfold read_summed.
  destruct (PyNum.sum (values data)) as [total|e]; [|reflexivity].
  destruct (1 <? List.length (PyStr.sorted (keys data)))%nat.
  - destruct (dict_item data (hd "" (PyStr.sorted (keys data))))
      as [fv|e1]; cbn [bind];
      [|rewrite dict_get_set_other by (apply not_eq_sym, Hk); reflexivity].
    destruct (dict_item data (last (PyStr.sorted (keys data)) ""))
      as [lv|e2]; cbn [bind];
      [|rewrite dict_get_set_other by (apply not_eq_sym, Hk); reflexivity].
    destruct (PyNum.sub lv fv) as [gr|e3]; cbn [bind];
      rewrite ?dict_get_set_other by (apply not_eq_sym, Hk); reflexivity.
  - rewrite dict_get_set_other by (apply not_eq_sym, Hk). reflexivity.
Qed.

Lemma read_latest_touches (r : pydict json) (m : string) (data : pydict json)
    (k : string) :
  (forall suffix, k <> (m ++ suffix)%string) ->
  dict_get (read_latest r m data) k = dict_get r k.
Proof.
  intros Hk. unfold read_latest.
  destruct (dict_item data (last (PyStr.sorted (keys data)) ""))
    as [lv|e1]; cbn [bind]; [|reflexivity].
  destruct (1 <? List.length (PyStr.sorted (keys data)))%nat.
  - destruct (dict_item data (hd "" (PyStr.sorted (keys data))))
      as [fv|e2]; cbn [bind]; [|reflexivity].
    destruct (PyNum.sub lv fv) as [gr|e3]; cbn [bind]; [|reflexivity].
    rewrite !dict_get_set_other by (apply not_eq_sym, Hk). reflexivity.
  - rewrite dict_get_set_other by (apply not_eq_sym, Hk). reflexivity.
Qed.

Lemma read_metric_touches (r : pydict json) (mf : string) (file : file_state)
    (k : string) :
  (forall suffix, k <> (PyStr.remove ".json" mf ++ suffix)%string) ->
  dict_get (read_metric r mf file) k = dict_get r k.
Proof.
  intros Hk. unfold read_metric.
  destruct file as [| |data]; try reflexivity.
  destruct data as [| | | | |members];
    try (rewrite dict_get_set_other by (apply not_eq_sym, Hk); reflexivity).
  destruct members as [|item rest];
    [rewrite dict_get_set_other by (apply not_eq_sym, Hk); reflexivity|].
  destruct (is_summed (PyStr.remove ".json" mf)).
  - now apply read_summed_touches.
  - now apply read_latest_touches.
Qed.

Lemma read_fold_touches (files : string -> file_state) (k : string)
    (mfs : list string) (r : pydict json) :
  (forall mf, In mf mfs ->
     forall suffix, k <> (PyStr.remove ".json" mf ++ suffix)%string) ->
  dict_get
    (fold_left (fun info mf => read_metric info mf (files mf)) mfs r) k
  = dict_get r k.
Proof.
  revert r. induction mfs as [|mf mfs IH]; intros r Hk; simpl;
    [reflexivity|].
  rewrite IH by (intros mf' Hin; apply Hk; now right).
  apply read_metric_touches. apply Hk. now left.
Qed.

Lemma suffixes_differ (m : string) :
  (m ++ "_growth")%string <> (m ++ "_latest")%string
  /\ (m ++ "_growth")%string <> (m ++ "_first")%string
  /\ (m ++ "_first")%string <> (m ++ "_latest")%string.
Proof.
  repeat split; intros H; apply append_inv_prefix in H; discriminate H.
Qed.

(** What one file can write of a growth figure. *)
Lemma read_metric_growth (r : pydict json) (mf : string) (file : file_state)
    (g : json) :
  let m := PyStr.remove ".json" mf in
  dict_get r (m ++ "_growth") = None ->
  dict_get (read_metric r mf file) (m ++ "_growth") = Some g ->
  exists l f,
    dict_get (read_metric r mf file) (m ++ "_latest") = Some l
    /\ dict_get (read_metric r mf file) (m ++ "_first") = Some f
    /\ (is_summed m = false -> PyNum.sub l f = Ok g).
Proof.
  intros m Hnone.
  destruct (suffixes_differ m) as [Hgl [Hgf Hfl]].
  unfold read_metric. fold m.
  destruct file as [| |data]; try (rewrite Hnone; discriminate).
  destruct data as [| | | | |members];
    try (rewrite dict_get_set_other by (apply not_eq_sym, Hgl);
         rewrite Hnone; discriminate).
  destruct members as [|item rest];
    [rewrite dict_get_set_other by (apply not_eq_sym, Hgl);
     rewrite Hnone; discriminate|].
  destruct (is_summed m) eqn:S.
  - unfold read_summed.
    destruct (PyNum.sum (values (item :: rest))) as [total|e];
      [|rewrite Hnone; discriminate].
    destruct (1 <? List.length (PyStr.sorted (keys (item :: rest))))%nat;
      [|rewrite dict_get_set_other by (apply not_eq_sym, Hgl);
        rewrite Hnone; discriminate].
    destruct (dict_item (item :: rest)
                (hd "" (PyStr.sorted (keys (item :: rest))))) as [fv|e1];
      cbn [bind];
      [|rewrite dict_get_set_other by (apply not_eq_sym, Hgl);
        rewrite Hnone; discriminate].
    destruct (dict_item (item :: rest)
                (last (PyStr.sorted (keys (item :: rest))) "")) as [lv|e2];
      cbn [bind];
      [|rewrite dict_get_set_other by (apply not_eq_sym, Hgl);
        rewrite Hnone; discriminate].
    destruct (PyNum.sub lv fv) as [gr|e3]; cbn [bind];
      [|rewrite dict_get_set_other by (apply not_eq_sym, Hgl);
        rewrite Hnone; discriminate].
    intros _. exists total, fv. split; [|split].
    + rewrite dict_get_set_other by exact Hgl.
      rewrite dict_get_set_other by exact Hfl.
      apply dict_get_set_same.
    + rewrite dict_get_set_other by exact Hgf.
      apply dict_get_set_same.
    + discriminate.
  - unfold read_latest.
    destruct (dict_item (item :: rest)
                (last (PyStr.sorted (keys (item :: rest))) "")) as [lv|e1];
      cbn [bind]; [|rewrite Hnone; discriminate].
    destruct (1 <? List.length (PyStr.sorted (keys (item :: rest))))%nat;
      [|rewrite dict_get_set_other by (apply not_eq_sym, Hgl);
        rewrite Hnone; discriminate].
    destruct (dict_item (item :: rest)
                (hd "" (PyStr.sorted (keys (item :: rest))))) as [fv|e2];
      cbn [bind]; [|rewrite Hnone; discriminate].
    destruct (PyNum.sub lv fv) as [gr|e3] eqn:G; cbn [bind];
      [|rewrite Hnone; discriminate].
    rewrite dict_get_set_same. intros E. injection E as <-.
    exists lv, fv. split; [|split].
    + rewrite dict_get_set_other by exact Hgl.
      rewrite dict_get_set_other by exact Hfl.
      apply dict_get_set_same.
    + rewrite dict_get_set_other by exact Hgf.
      apply dict_get_set_same.
    + intros _. exact G.
Qed.

Lemma read_fold_growth (files : string -> file_state)
    (before after : list string) (mf : string) (r : pydict json) (g : json) :
  let m := PyStr.remove ".json" mf in
  let result :=
    fold_left (fun info mf => read_metric info mf (files mf))
      (before ++ mf :: after) r in
  (forall mf', In mf' (before ++ after) ->
     forall s s', (m ++ s)%string <> (PyStr.remove ".json" mf' ++ s')%string) ->
  dict_get r (m ++ "_growth") = None ->
  dict_get result (m ++ "_growth") = Some g ->
  exists l f,
    dict_get result (m ++ "_latest") = Some l
    /\ dict_get result (m ++ "_first") = Some f
    /\ (is_summed m = false -> PyNum.sub l f = Ok g).
Proof.
  intros m result Hother Hnone. subst result.
  rewrite fold_left_app. cbn [fold_left].
  set (r1 := fold_left _ before r).
  assert (Hafter : forall s x,
            dict_get (fold_left (fun info mf0 => read_metric info mf0 (files mf0))
                        after x) (m ++ s)
            = dict_get x (m ++ s)).
  { intros s x. apply read_fold_touches.
    intros mf' Hin s'. apply Hother. apply in_or_app. now right. }
  rewrite !Hafter. apply read_metric_growth.
  unfold r1. rewrite read_fold_touches; [exact Hnone|].
  intros mf' Hin s'. apply Hother. apply in_or_app. now left.
Qed.

End MetricRecords.

(** X17. The record script 02 builds for a project always names the
    project, and a growth figure never stands alone: with it the record has
    the latest and the first value of that metric, and for the metrics that
    are not summed the growth is the latest value minus the first. *)
Theorem metric_record_is_coherent (org project_name : string)
    (files : string -> file_state) :
  dict_get (DeepAnalysis.analyze_project org project_name files) "project"
  = Some (JStr (org ++ "/" ++ project_name))
  /\ forall (m : string) (g : json),
       In m ["stars"; "technical_fork"; "activity"; "openrank";
             "change_requests"; "issues_new"] ->
       dict_get (DeepAnalysis.analyze_project org project_name files)
         (m ++ "_growth") = Some g ->
       exists l f,
         dict_get (DeepAnalysis.analyze_project org project_name files)
           (m ++ "_latest") = Some l
         /\ dict_get (DeepAnalysis.analyze_project org project_name files)
              (m ++ "_first") = Some f
         /\ (DeepAnalysis.is_summed m = false -> PyNum.sub l f = Ok g).
Proof.
  split.
  - unfold DeepAnalysis.analyze_project. rewrite read_fold_touches.
    + reflexivity.
    + intros mf Hin suffix H.
      repeat (destruct Hin as [<-|Hin]; [discriminate H|]). destruct Hin.
  - intros m g Hm.
    unfold DeepAnalysis.analyze_project, DeepAnalysis.metrics_to_read.
    destruct Hm as [<-|[<-|[<-|[<-|[<-|[<-|[]]]]]]].
    + apply (read_fold_growth files [] _ "stars.json"); [intros mf' Hin s s' H;
         repeat (destruct Hin as [<-|Hin]; [discriminate H|]); destruct Hin
        | reflexivity].
    + apply (read_fold_growth files ["stars.json"] _ "technical_fork.json");
        [intros mf' Hin s s' H;
         repeat (destruct Hin as [<-|Hin]; [discriminate H|]); destruct Hin
        | reflexivity].
    + apply (read_fold_growth files ["stars.json"; "technical_fork.json"] _
               "activity.json"); [intros mf' Hin s s' H;
         repeat (destruct Hin as [<-|Hin]; [discriminate H|]); destruct Hin
        | reflexivity].
    + apply (read_fold_growth files
               ["stars.json"; "technical_fork.json"; "activity.json"] _
               "openrank.json"); [intros mf' Hin s s' H;
         repeat (destruct Hin as [<-|Hin]; [discriminate H|]); destruct Hin
        | reflexivity].
    + apply (read_fold_growth files
               ["stars.json"; "technical_fork.json"; "activity.json";
                "openrank.json"] _ "change_requests.json");
        [intros mf' Hin s s' H;
         repeat (destruct Hin as [<-|Hin]; [discriminate H|]); destruct Hin
        | reflexivity].
    + apply (read_fold_growth files
               ["stars.json"; "technical_fork.json"; "activity.json";
                "openrank.json"; "change_requests.json"] _
               "issues_new.json"); [intros mf' Hin s s' H;
         repeat (destruct Hin as [<-|Hin]; [discriminate H|]); destruct Hin
        | reflexivity].
Qed.

(** X17 at a project with two months of activity. *)
Lemma metric_record_is_coherent_witness :
  exists l f,
    dict_get
      (DeepAnalysis.analyze_project "microsoft" "vscode"
         (fun mf =>
            if String.eqb mf "activity.json"
            then Loaded (JObj [("2024-01", JNum 2); ("2024-02", JNum 5)])
            else Absent))
      "activity_latest" = Some l
    /\ dict_get
         (DeepAnalysis.analyze_project "microsoft" "vscode"
            (fun mf =>
               if String.eqb mf "activity.json"
               then Loaded (JObj [("2024-01", JNum 2); ("2024-02", JNum 5)])
               else Absent))
         "activity_first" = Some f
    /\ (DeepAnalysis.is_summed "activity" = false
        -> PyNum.sub l f = Ok (JNum (5 - 2))).
Proof.
  apply (proj2 (metric_record_is_coherent "microsoft" "vscode" _) "activity").
  - simpl. tauto.
  - reflexivity.
Defined.

(** ** The summary of the popularity report *)

Section ReportSummary.

Import PopularityReport.

Lemma max_by_spec {A : Type} (key : A -> nat) (rest : list A) (first : A) :
  exists before after,
    first :: rest = before ++ max_by key first rest :: after
    /\ (forall x, In x before -> key x < key (max_by key first rest))
    /\ (forall x, In x after -> key x <= key (max_by key first rest)).
Proof.
  induction rest as [|y rest IH] using rev_ind.
  - exists [], []. split; [reflexivity|]. split; intros x [].
  - destruct IH as [before [after [E [Hb Ha]]]].
    unfold max_by in *. rewrite fold_left_app. cbn [fold_left].
    set (best := fold_left _ rest first) in *.
    destruct (Nat.ltb_spec (key best) (key y)) as [Hlt|Hge].
    + exists (first :: rest), []. split; [reflexivity|].
      split; [|intros x []].
      intros x Hx. rewrite E in Hx. apply in_app_or in Hx.
      destruct Hx as [Hx|[<-|Hx]].
      * specialize (Hb x Hx). lia.
      * exact Hlt.
      * specialize (Ha x Hx). lia.
    + exists before, (after ++ [y]). split.
      * change (first :: rest ++ [y]) with ((first :: rest) ++ [y]).
        rewrite E, <- app_assoc. reflexivity.
      * split; [exact Hb|].
        intros x Hx. apply in_app_or in Hx.
        destruct Hx as [Hx|[<-|[]]]; [now apply Ha | exact Hge].
Qed.

Lemma min_by_spec {A : Type} (key : A -> nat) (rest : list A) (first : A) :
  exists before after,
    first :: rest = before ++ min_by key first rest :: after
    /\ (forall x, In x before -> key (min_by key first rest) < key x)
    /\ (forall x, In x after -> key (min_by key first rest) <= key x).
Proof.
  induction rest as [|y rest IH] using rev_ind.
  - exists [], []. split; [reflexivity|]. split; intros x [].
  - destruct IH as [before [after [E [Hb Ha]]]].
    unfold min_by in *. rewrite fold_left_app. cbn [fold_left].
    set (best := fold_left _ rest first) in *.
    destruct (Nat.ltb_spec (key y) (key best)) as [Hlt|Hge].
    + exists (first :: rest), []. split; [reflexivity|].
      split; [|intros x []].
      intros x Hx. rewrite E in Hx. apply in_app_or in Hx.
      destruct Hx as [Hx|[<-|Hx]].
      * specialize (Hb x Hx). lia.
      * exact Hlt.
      * specialize (Ha x Hx). lia.
    + exists before, (after ++ [y]). split.
      * change (first :: rest ++ [y]) with ((first :: rest) ++ [y]).
        rewrite E, <- app_assoc. reflexivity.
      * split; [exact Hb|].
        intros x Hx. apply in_app_or in Hx.
        destruct Hx as [Hx|[<-|[]]]; [now apply Ha | exact Hge].
Qed.

Lemma list_sum_bounds (l : pydict nat) (lo hi : nat) :
  (forall x, In x l -> lo <= snd x <= hi) ->
  List.length l * lo <= list_sum (values l) <= List.length l * hi.
Proof.
  induction l as [|[k c] l IH]; intros H.
  - simpl. lia.
  - pose proof (H (k, c) (or_introl eq_refl)) as Hc. cbn [snd] in Hc.
    assert (IH' := IH (fun x Hx => H x (or_intror Hx))).
    unfold values in *. cbn [List.length map list_sum snd].
    change (list_sum (c :: map snd l)) with (c + list_sum (map snd l)).
    rewrite !Nat.mul_succ_l. lia.
Qed.

End ReportSummary.

(** X18. When the popularity report is written, its peak month is the first
    month with the greatest number of popular projects and its lowest month
    the first with the least, and the total lies between the number of
    months times the least and times the greatest. *)
Theorem report_peak_and_lowest_month
    (monthly_files : list (string * MonthlyPopularity.month_file))
    (s : PopularityReport.report_summary) :
  PopularityReport.generate_comprehensive_report monthly_files = Ok (Some s) ->
  let counts :=
    MonthlyPopularity.monthly_trends
      (MonthlyPopularity.calculate_monthly_popular_trends monthly_files) in
  exists peak low : nat,
    (exists before after,
       counts = before ++ (PopularityReport.peak_month s, peak) :: after
       /\ (forall x, In x before -> snd x < peak)
       /\ (forall x, In x after -> snd x <= peak))
    /\ (exists before after,
          counts = before ++ (PopularityReport.lowest_month s, low) :: after
          /\ (forall x, In x before -> low < snd x)
          /\ (forall x, In x after -> low <= snd x))
    /\ PopularityReport.total_months_analyzed s = List.length counts
    /\ PopularityReport.total_months_analyzed s * low
       <= PopularityReport.total_popular_projects s
       <= PopularityReport.total_months_analyzed s * peak.
Proof.
  unfold PopularityReport.generate_comprehensive_report.
  intros H.
  set (counts :=
         MonthlyPopularity.monthly_trends
           (MonthlyPopularity.calculate_monthly_popular_trends monthly_files))
    in *.
  destruct counts as [|item rest]; [discriminate|].
  destruct (PopularityReport.language_means _); cbn [bind] in H;
    [|discriminate].
  destruct (PopularityReport.mean _ _); cbn [bind] in H; [|discriminate].
  injection H as <-.
  cbn [PopularityReport.peak_month PopularityReport.lowest_month
       PopularityReport.total_months_analyzed
       PopularityReport.total_popular_projects].
  destruct (max_by_spec snd rest item) as [b1 [a1 [E1 [Hb1 Ha1]]]].
  destruct (min_by_spec snd rest item) as [b2 [a2 [E2 [Hb2 Ha2]]]].
  exists (snd (PopularityReport.max_by snd item rest)),
         (snd (PopularityReport.min_by snd item rest)).
  split; [|split; [|split]].
  - exists b1, a1. rewrite <- surjective_pairing. auto.
  - exists b2, a2. rewrite <- surjective_pairing. auto.
  - reflexivity.
  - apply (list_sum_bounds (item :: rest)). intros x Hx. split.
    + rewrite E2 in Hx. apply in_app_or in Hx.
      destruct Hx as [Hx|[<-|Hx]];
        [specialize (Hb2 x Hx); lia | lia | now apply Ha2].
    + rewrite E1 in Hx. apply in_app_or in Hx.
      destruct Hx as [Hx|[<-|Hx]];
        [specialize (Hb1 x Hx); lia | lia | now apply Ha1].
Qed.

(** X18 at two months, one popular project in the first and none in the
    second. *)
Lemma report_peak_and_lowest_month_witness :
  let project stars :=
    {| MonthlyPopularity.stars_count :=
         MonthlyPopularity.Val (PopularProjectsAnalyzer.PyInt stars);
       MonthlyPopularity.description := MonthlyPopularity.Missing;
       MonthlyPopularity.topics := MonthlyPopularity.Missing;
       MonthlyPopularity.language := MonthlyPopularity.Missing |} in
  let monthly_files :=
    [("2025-01", MonthlyPopularity.MonthData [project 1500%Z]);
     ("2025-02", MonthlyPopularity.MonthData [project 500%Z])] in
  let s :=
    {| PopularityReport.total_months_analyzed := 2;
       PopularityReport.total_popular_projects := 1;
       PopularityReport.peak_month := "2025-01";
       PopularityReport.lowest_month := "2025-02" |} in
  let counts :=
    MonthlyPopularity.monthly_trends
      (MonthlyPopularity.calculate_monthly_popular_trends monthly_files) in
  PopularityReport.generate_comprehensive_report monthly_files = Ok (Some s)
  /\ exists peak low : nat,
       (exists before after,
          counts = before ++ (PopularityReport.peak_month s, peak) :: after
          /\ (forall x, In x before -> snd x < peak)
          /\ (forall x, In x after -> snd x <= peak))
       /\ (exists before after,
             counts = before ++ (PopularityReport.lowest_month s, low) :: after
             /\ (forall x, In x before -> low < snd x)
             /\ (forall x, In x after -> low <= snd x))
       /\ PopularityReport.total_months_analyzed s = List.length counts
       /\ PopularityReport.total_months_analyzed s * low
          <= PopularityReport.total_popular_projects s
          <= PopularityReport.total_months_analyzed s * peak.
Proof.
  intros project monthly_files s counts.
  split; [reflexivity|].
  apply (report_peak_and_lowest_month monthly_files s). reflexivity.
Defined.
